(** * Idempotency with Redis: a shallow embedding of the middleware and the
      transaction service, and the properties of the coordination logic.

    Sources embedded here:
    - [src/middlewares/idempotency.middleware.ts]  (idempotencyMiddleware)
    - [src/services/transaction.service.ts]        (TransactionService.createTransaction)
    - [src/controllers/transaction.controller.ts]  (TransactionController.createTransaction)
    - [src/utils/redis.util.ts]                    (RedisUtil.get / RedisUtil.set)
    - [src/models/idempotency-meta.model.ts]       (IdempotencyMeta)
    - [src/dtos/transaction-request.dto.ts]        (TransactionRequestSchema)

    Time is a number of milliseconds since the epoch ([Z]).  Strings are
    sequences of one-byte characters, as HTTP header values are. *)

From Stdlib Require Import ZArith QArith Bool List Ascii String Lia.
From stdpp Require Import base option gmap strings list pretty.

Local Open Scope string_scope.
Local Open Scope Z_scope.

(* ===================================================================== *)
(** ** String.prototype.trim *)
(* ===================================================================== *)

Module JsString.

(** The characters [trim] strips, among the one-byte characters: TAB, LF,
    VT, FF, CR, SPACE and NO-BREAK SPACE. *)
Definition is_white_space (c : ascii) : bool :=
  let n := nat_of_ascii c in
  ((9 <=? n)%nat && (n <=? 13)%nat) || (n =? 32)%nat || (n =? 160)%nat.

Fixpoint trimStart (s : string) : string :=
  match s with
  | EmptyString => EmptyString
  | String c rest => if is_white_space c then trimStart rest else s
  end.

Definition trimEnd (s : string) : string :=
  String.rev (trimStart (String.rev s)).

Definition trim (s : string) : string := trimEnd (trimStart s).

(** Every character of the string is white space. *)
Fixpoint all_white_space (s : string) : bool :=
  match s with
  | EmptyString => true
  | String c rest => is_white_space c && all_white_space rest
  end.

(** JavaScript truthiness of a string: the empty string is falsy. *)
Definition truthy (s : string) : bool := negb (s =? "")%string.

End JsString.

(* ===================================================================== *)
(** ** Errors *)
(* ===================================================================== *)

(** Modelled from the spec: the class [AppError] (exceptions/app-error.exception)
    is not among the sources; its static constructors are the ones the code
    calls, and they correspond to the error taxonomy of the specification
    (MethodNotAllowed, InvalidKey = BadRequest, KeyConflict = Conflict,
    KeyExpired = Expired, InternalError = InternalServerError).  [Plain] is an
    error built with [new AppError(message, details)]. *)
Inductive AppErrorKind :=
| MethodNotAllowed
| BadRequest
| Conflict
| Expired
| InternalServerError
| NotFound
| Plain.

Record AppError := mkAppError { kind : AppErrorKind; message : string }.

(** What a [catch] clause can tell apart with [instanceof]. Sequelize's
    [UniqueConstraintError] is a subclass of its [ValidationError]. *)
Inductive Exn :=
| EApp (e : AppError)
| ESequelizeValidation (messages : list string)
| ESequelizeDatabase (msg : string)
| EOther.

Definition is_AppError (e : Exn) : bool :=
  match e with EApp _ => true | _ => false end.

(* ===================================================================== *)
(** ** Data model *)
(* ===================================================================== *)

(** A JSON value, as [express.json()] leaves it in [req.body]. *)
#[warnings="-register-all"]
Inductive JsonValue :=
| JNull
| JBool (b : bool)
| JNumber (q : Q)
| JString (s : string)
| JArray (items : list JsonValue)
| JObject (fields : list (string * JsonValue)).

(** Property access [o[name]] on a parsed JSON object. *)
Fixpoint get_field (name : string) (fields : list (string * JsonValue)) : option JsonValue :=
  match fields with
  | [] => None
  | (k, v) :: rest => if (k =? name)%string then Some v else get_field name rest
  end.

(** [IdempotencyMetaAttributes]; [updatedAt] and [expiredAt] are optional. *)
Record IdempotencyMeta := mkIdempotencyMeta {
  key : string;
  bodyHash : string;
  responsePayload : string;
  createdAt : Z;
  updatedAt : option Z;
  expiredAt : option Z
}.

(** [IdempotencyInterface], the context the middleware attaches to the request. *)
Record IdempotencyInterface := mkIdempotencyInterface {
  ctx_key : string;
  ctx_bodyHash : string
}.

(** [TransactionRequest], the type inferred from [TransactionRequestSchema]. *)
Record TransactionRequest := mkTransactionRequest {
  req_type : string;
  req_amount : Q;
  req_consumerId : string
}.

(** [TransactionResponse]. *)
Record TransactionResponse := mkTransactionResponse {
  id : string;
  type : string;
  amount : Q;
  status : string;
  consumerId : string;
  resp_createdAt : Z;
  resp_updatedAt : option Z
}.

(** Modelled from the spec: the [Transaction] model (models/transaction.model)
    is not among the sources; a row has the columns the service reads back
    from it, the business record of the specification. *)
Record Transaction := mkTransaction {
  tx_id : string;
  tx_type : string;
  tx_amount : Q;
  tx_status : string;
  tx_consumerId : string;
  tx_createdAt : Z;
  tx_updatedAt : option Z
}.

(** A header value as Node hands it over: a string, or an array of strings. *)
Inductive HeaderValue :=
| HString (s : string)
| HArray (l : list string).

Record Request := mkRequest {
  method : string;
  headers : gmap string HeaderValue;
  body : JsonValue;
  idempotency : option IdempotencyInterface
}.

(** The part of the response envelope that the handlers decide: HTTP status,
    [message] and [data]. *)
Record HttpResponse := mkHttpResponse {
  res_status : Z;
  res_message : string;
  res_data : JsonValue
}.

(** What the middleware does when it does not throw: it answers the request
    itself (a replay), or it attaches the idempotency context and calls
    [next()] (the request is admitted). *)
Inductive Outcome :=
| Responded (r : HttpResponse)
| Next (ctx : IdempotencyInterface).

(* ===================================================================== *)
(** ** Configuration and environment *)
(* ===================================================================== *)

(** [process.env]. [IDEMPOTENCY_TTL_HOURS] holds the integer that [parseInt]
    reads from the variable when it is set. *)
Record Config := mkConfig {
  IDEMPOTENCY_HEADER_NAME : option string;
  IDEMPOTENCY_PREFIX : option string;
  IDEMPOTENCY_TTL_HOURS : option Z
}.

(** How a Redis command can fail: the command is rejected, or its reply is
    not the expected one (unparsable data for GET, a reply other than OK for
    SET). *)
Inductive RedisFault := CommandFails | BadReply.

(** How a database statement can fail. *)
Inductive DbFault :=
| DbValidation (messages : list string)
| DbDatabase (msg : string)
| DbOther.

Definition exn_of_DbFault (f : DbFault) : Exn :=
  match f with
  | DbValidation ms => ESequelizeValidation ms
  | DbDatabase m => ESequelizeDatabase m
  | DbOther => EOther
  end.

(** What one request handling reads from outside the program: the clock, the
    identifier generated for a new business record, and the failures of the
    stores during this request. *)
Record Env := mkEnv {
  now : Z;
  uuid : string;
  redis_get_fault : option RedisFault;
  redis_set_fault : option RedisFault;
  findOne_fault : option DbFault;
  transaction_create_fault : option DbFault;
  meta_create_fault : option DbFault;
  commit_fault : option DbFault;
  begin_fault : option DbFault;
  rollback_fault : option DbFault
}.

(* ===================================================================== *)
(** ** The two stores and the effect monad *)
(* ===================================================================== *)

(** The tables of the relational store. *)
Record Database := mkDatabase {
  transactions : list Transaction;
  idempotency_meta : list IdempotencyMeta
}.

(** Every access to a store, in the order in which it is attempted. *)
Inductive Event :=
| RedisGet (k : string)
| RedisSet (k : string)
| DbFindOne (k h : string)
| DbBegin
| DbInsertTransaction (i : string)
| DbInsertMeta (k : string)
| DbCommit
| DbRollback.

(** [redis] maps a Redis key to the cached record and the instant at which
    the entry expires (SET ... EX). [db] is the committed state of the
    relational store, [txn] the state seen by the open transaction, if any. *)
Record World := mkWorld {
  redis : gmap string (IdempotencyMeta * Z);
  db : Database;
  txn : option Database;
  log : list Event
}.

Inductive Result (A : Type) :=
| Ok (a : A)
| Throw (e : Exn).
Arguments Ok {A} a.
Arguments Throw {A} e.

Definition M (A : Type) : Type := World -> Result A * World.

Definition ret {A} (a : A) : M A := fun w => (Ok a, w).

Definition throw {A} (e : Exn) : M A := fun w => (Throw e, w).

Definition bind {A B} (m : M A) (f : A -> M B) : M B :=
  fun w =>
    match m w with
    | (Ok a, w') => f a w'
    | (Throw e, w') => (Throw e, w')
    end.

(** [try { m } catch (error) { handler(error) }] *)
Definition try_catch {A} (m : M A) (handler : Exn -> M A) : M A :=
  fun w =>
    match m w with
    | (Ok a, w') => (Ok a, w')
    | (Throw e, w') => handler e w'
    end.

Definition emit (ev : Event) : M unit :=
  fun w => (Ok tt, mkWorld (redis w) (db w) (txn w) (log w ++ [ev])).

Declare Scope io_scope.
Delimit Scope io_scope with io.
Notation "x <- m ;; k" := (bind m (fun x => k))
  (at level 100, m at next level, right associativity) : io_scope.
Notation "m ;;; k" := (bind m (fun _ => k))
  (at level 100, right associativity) : io_scope.
Local Open Scope io_scope.

(* ===================================================================== *)
(** ** RedisUtil *)
(* ===================================================================== *)

Module RedisUtil.

(** [RedisUtil.get]: the entry under [k], unless it has expired. *)
Definition get (env : Env) (k : string) : M (option IdempotencyMeta) :=
  emit (RedisGet k) ;;;
  match redis_get_fault env with
  | Some CommandFails => throw EOther
  | Some BadReply =>
      throw (EApp (mkAppError Plain "Invalid JSON format in cache"))
  | None =>
      fun w =>
        match redis w !! k with
        | Some (v, deadline) =>
            if now env <? deadline then (Ok (Some v), w) else (Ok None, w)
        | None => (Ok None, w)
        end
  end.

(** [RedisUtil.set]: [ttl] is in seconds. *)
Definition set (env : Env) (k : string) (value : IdempotencyMeta) (ttl : Z) : M unit :=
  emit (RedisSet k) ;;;
  match redis_set_fault env with
  | Some CommandFails => throw EOther
  | Some BadReply => throw (EApp (mkAppError Plain "Cache set error"))
  | None =>
      fun w =>
        (Ok tt,
         mkWorld (<[k := (value, now env + ttl * 1000)]> (redis w))
                 (db w) (txn w) (log w))
  end.

End RedisUtil.

(* ===================================================================== *)
(** ** The relational store *)
(* ===================================================================== *)

(** The state a statement works on: the open transaction when there is one
    (the service passes [{ transaction: t }]), the committed state otherwise. *)
Definition view (w : World) : Database :=
  match txn w with
  | Some d => d
  | None => db w
  end.

Definition set_view (d : Database) : M unit :=
  fun w =>
    match txn w with
    | Some _ => (Ok tt, mkWorld (redis w) (db w) (Some d) (log w))
    | None => (Ok tt, mkWorld (redis w) d None (log w))
    end.

(** [DatabaseConfig] (config/db.config) is not among the sources; its three
    operations follow section 4.2 of the specification: a durable-store
    transaction is opened, and either committed, which makes its writes
    durable, or rolled back, which makes all of them vanish together. *)
Module DatabaseConfig.

(** Modelled from the spec: [DatabaseConfig.beginTransaction], which is
    missing; it opens a transaction on the current committed state, unless
    the database fails to open one. *)
Definition beginTransaction (env : Env) : M unit :=
  emit DbBegin ;;;
  match begin_fault env with
  | Some f => throw (exn_of_DbFault f)
  | None =>
      fun w => (Ok tt, mkWorld (redis w) (db w) (Some (db w)) (log w))
  end.

(** Modelled from the spec: [DatabaseConfig.commitTransaction], which is
    missing; the writes of the open transaction become the committed state. *)
Definition commitTransaction (env : Env) : M unit :=
  emit DbCommit ;;;
  match commit_fault env with
  | Some f => throw (exn_of_DbFault f)
  | None =>
      fun w => (Ok tt, mkWorld (redis w) (view w) None (log w))
  end.

(** Modelled from the spec: [DatabaseConfig.rollbackTransaction], which is
    missing; the writes of the open transaction are dropped, unless the
    rollback itself fails, which leaves the transaction as it is. *)
Definition rollbackTransaction (env : Env) : M unit :=
  emit DbRollback ;;;
  match rollback_fault env with
  | Some f => throw (exn_of_DbFault f)
  | None =>
      fun w => (Ok tt, mkWorld (redis w) (db w) None (log w))
  end.

End DatabaseConfig.

(** The column [key] of [idempotency_meta] has the type UUID (model lines
    31-37, migration lines 5-9): the database refuses, in a lookup as in an
    insert, a key that is not written as a UUID. The syntax is the one of the
    type [uuid] of PostgreSQL: sixteen bytes of two hexadecimal digits each,
    a hyphen allowed after every second byte, the whole optionally in
    braces. The tables keep a key as it was written and compare keys as
    text. *)
Module Uuid.

Definition is_xdigit (c : ascii) : bool :=
  let n := nat_of_ascii c in
  ((48 <=? n)%nat && (n <=? 57)%nat) || ((65 <=? n)%nat && (n <=? 70)%nat)
  || ((97 <=? n)%nat && (n <=? 102)%nat).

(** [bytes n i s] reads [n] bytes from [s], the next one being byte [i], and
    returns what follows them. *)
Fixpoint bytes (n i : nat) (s : string) : option string :=
  match n with
  | O => Some s
  | S n' =>
      match s with
      | String a (String b rest) =>
          if is_xdigit a && is_xdigit b then
            match rest with
            | String c rest' =>
                if (nat_of_ascii c =? 45)%nat && Nat.odd i && (i <? 15)%nat
                then bytes n' (S i) rest'
                else bytes n' (S i) rest
            | EmptyString => bytes n' (S i) rest
            end
          else None
      | _ => None
      end
  end.

Definition valid (s : string) : bool :=
  match s with
  | String c rest =>
      if (nat_of_ascii c =? 123)%nat then
        match bytes 16 0 rest with
        | Some (String d EmptyString) => (nat_of_ascii d =? 125)%nat
        | _ => false
        end
      else
        match bytes 16 0 s with
        | Some EmptyString => true
        | _ => false
        end
  | EmptyString => false
  end.

(** The error of the database on a key that is not a UUID. *)
Definition syntax_error : Exn :=
  ESequelizeDatabase "invalid input syntax for type uuid".

End Uuid.

Module IdempotencyMetaModel.

(** The rows selected by [where: { key, bodyHash }]. *)
Definition matches (k h : string) (r : IdempotencyMeta) : bool :=
  (key r =? k)%string && (bodyHash r =? h)%string.

(** [IdempotencyMeta.findOne({ where: { key, bodyHash } })], run outside any
    transaction: it reads the committed state. A key that is not a UUID makes
    the query fail with a [DatabaseError]. *)
Definition findOne (env : Env) (k h : string) : M (option IdempotencyMeta) :=
  emit (DbFindOne k h) ;;;
  match findOne_fault env with
  | Some f => throw (exn_of_DbFault f)
  | None =>
      if Uuid.valid k then
        fun w => (Ok (List.find (matches k h) (idempotency_meta (db w))), w)
      else throw Uuid.syntax_error
  end.

(** [key] is the primary key of the table. *)
Definition key_taken (k : string) (d : Database) : bool :=
  existsb (fun r => (key r =? k)%string) (idempotency_meta d).

(** [IdempotencyMeta.create(attrs, { transaction: t })]; the timestamps are
    filled in by the model ([timestamps: true]). A key that is not a UUID is
    refused with a [DatabaseError], a second row with the same primary key
    with a [UniqueConstraintError]. *)
Definition create (env : Env) (k h payload : string) (expires : option Z)
  : M IdempotencyMeta :=
  emit (DbInsertMeta k) ;;;
  match meta_create_fault env with
  | Some f => throw (exn_of_DbFault f)
  | None =>
      if Uuid.valid k then
        fun w =>
          if key_taken k (view w)
          then (Throw (ESequelizeValidation ["key must be unique"]), w)
          else
            let row :=
              mkIdempotencyMeta k h payload (now env) (Some (now env)) expires in
            ((set_view (mkDatabase (transactions (view w))
                                   (idempotency_meta (view w) ++ [row])) ;;;
              ret row) w)
      else throw Uuid.syntax_error
  end.

End IdempotencyMetaModel.

Module TransactionModel.

(** Modelled from the spec: [Transaction.create(attrs, { transaction: t })]
    of the missing [Transaction] model, the business effect of the
    specification: one row is added, with a generated identifier and its
    timestamps. *)
Definition create (env : Env) (ty : string) (amt : Q) (st cid : string)
  : M Transaction :=
  emit (DbInsertTransaction (uuid env)) ;;;
  match transaction_create_fault env with
  | Some f => throw (exn_of_DbFault f)
  | None =>
      fun w =>
        let row := mkTransaction (uuid env) ty amt st cid (now env) (Some (now env)) in
        ((set_view (mkDatabase (transactions (view w) ++ [row])
                               (idempotency_meta (view w))) ;;;
          ret row) w)
  end.

End TransactionModel.

(* ===================================================================== *)
(** ** Library functions the code calls *)
(* ===================================================================== *)

(** The functions of the platform and of the libraries: the SHA-256 digest in
    hexadecimal, [JSON.stringify], [JSON.parse] (which fails on text that is
    not JSON), [Date.prototype.toISOString] and zod's [uuid()] format check. *)
Class Runtime := {
  sha256_hex : string -> string;
  JSON_stringify : JsonValue -> string;
  JSON_parse : string -> option JsonValue;
  toISOString : Z -> string;
  is_uuid : string -> bool
}.

(* ===================================================================== *)
(** ** TransactionRequestSchema *)
(* ===================================================================== *)

Section Schema.
Context `{Runtime}.

Definition transaction_types : list string :=
  ["payment"; "withdrawal"; "disbursement"].

(** [type: z.enum([...]), amount: z.number().min(0),
    consumerId: z.string().uuid()] *)
Definition schema_ok (t : TransactionRequest) : bool :=
  existsb (String.eqb (req_type t)) transaction_types
  && Qle_bool 0 (req_amount t)
  && is_uuid (req_consumerId t).

(** [TransactionRequestSchema.safeParse] on a typed request. *)
Definition safeParse (t : TransactionRequest) : option TransactionRequest :=
  if schema_ok t then Some t else None.

(** [TransactionRequestSchema.safeParse] on a request body: an object whose
    three fields have the right type and pass the checks; other fields are
    dropped. *)
Definition safeParse_body (b : JsonValue) : option TransactionRequest :=
  match b with
  | JObject fields =>
      match get_field "type" fields, get_field "amount" fields,
            get_field "consumerId" fields with
      | Some (JString ty), Some (JNumber amt), Some (JString cid) =>
          safeParse (mkTransactionRequest ty amt cid)
      | _, _, _ => None
      end
  | _ => None
  end.

End Schema.

(* ===================================================================== *)
(** ** idempotencyMiddleware *)
(* ===================================================================== *)

Section Handlers.
Context `{Runtime}.

Definition idempotentMethods : list string := ["POST"; "PUT"; "PATCH"].

(** [process.env.IDEMPOTENCY_HEADER_NAME || 'idempotency-key'] *)
Definition idempotencyKeyHeaderName (cfg : Config) : string :=
  match IDEMPOTENCY_HEADER_NAME cfg with
  | Some n => if JsString.truthy n then n else "idempotency-key"
  | None => "idempotency-key"
  end.

(** [process.env.IDEMPOTENCY_PREFIX ? `${prefix}:${key}` : `idempotency:${key}`] *)
Definition redisKey (cfg : Config) (idempotencyKey : string) : string :=
  match IDEMPOTENCY_PREFIX cfg with
  | Some p =>
      if JsString.truthy p then p ++ ":" ++ idempotencyKey
      else "idempotency:" ++ idempotencyKey
  | None => "idempotency:" ++ idempotencyKey
  end.

(** [!k || typeof k !== 'string' || k.trim() === ''] on a string. *)
Definition invalid_key (k : string) : bool :=
  negb (JsString.truthy k) || (JsString.trim k =? "")%string.

(** The same test on what [req.headers[name]] holds: [undefined], a string
    or an array. The result is the key when the test lets it through. *)
Definition header_key (v : option HeaderValue) : option string :=
  match v with
  | None => None
  | Some (HArray _) => None
  | Some (HString k) => if invalid_key k then None else Some k
  end.

(** [record.expiredAt && new Date(record.expiredAt) < currentTime] *)
Definition is_expired (record : IdempotencyMeta) (currentTime : Z) : bool :=
  match expiredAt record with
  | Some t => t <? currentTime
  | None => false
  end.

Definition conflict_error : Exn :=
  EApp (mkAppError Conflict "Idempotency key conflict").

Definition expired_error : Exn :=
  EApp (mkAppError Expired "Idempotency key expired").

Definition idempotencyMiddleware (cfg : Config) (env : Env) (req : Request)
  : M Outcome :=
  if negb (existsb (String.eqb (method req)) idempotentMethods) then
    throw (EApp (mkAppError MethodNotAllowed "Method not allowed"))
  else
    match header_key (headers req !! idempotencyKeyHeaderName cfg) with
    | None => throw (EApp (mkAppError BadRequest "Invalid idempotency key"))
    | Some idempotencyKey =>
        try_catch
          (let requestBodyHash := sha256_hex (JSON_stringify (body req)) in
           cached <- RedisUtil.get env (redisKey cfg idempotencyKey) ;;
           match cached with
           | Some alreadyProcessed =>
               if negb (bodyHash alreadyProcessed =? requestBodyHash)%string then
                 throw conflict_error
               else
                 let currentTime := now env in
                 if is_expired alreadyProcessed currentTime then throw expired_error
                 else
                   match JSON_parse (responsePayload alreadyProcessed) with
                   | None => throw EOther
                   | Some data =>
                       ret (Responded (mkHttpResponse 200
                              "Transaction already processed" data))
                   end
           | None =>
               found <-
                 IdempotencyMetaModel.findOne env idempotencyKey requestBodyHash ;;
               match found with
               | Some idempotencyMeta =>
                   if negb (bodyHash idempotencyMeta =? requestBodyHash)%string then
                     throw conflict_error
                   else
                     let currentTime := now env in
                     if is_expired idempotencyMeta currentTime then
                       throw expired_error
                     else
                       match JSON_parse (responsePayload idempotencyMeta) with
                       | None => throw EOther
                       | Some data =>
                           ret (Responded (mkHttpResponse 200
                                  "Transaction already processed" data))
                       end
               | None =>
                   ret (Next (mkIdempotencyInterface idempotencyKey requestBodyHash))
               end
           end)
          (fun error =>
             if is_AppError error then throw error
             else throw (EApp (mkAppError InternalServerError
                                          "Error checking idempotency key")))
    end.

(* =================================================================== *)
(** ** TransactionService.createTransaction *)
(* =================================================================== *)

(** What [JSON.stringify] sees of a [TransactionResponse]: dates as ISO
    strings, an undefined [updatedAt] left out. *)
Definition toJSON (r : TransactionResponse) : JsonValue :=
  JObject
    ([("id", JString (id r)); ("type", JString (type r));
      ("amount", JNumber (amount r)); ("status", JString (status r));
      ("consumerId", JString (consumerId r));
      ("createdAt", JString (toISOString (resp_createdAt r)))]
     ++ match resp_updatedAt r with
        | Some u => [("updatedAt", JString (toISOString u))]
        | None => []
        end).

(** [Date.now() + (TTL_HOURS ? parseInt(TTL_HOURS) * 3600 * 1000 : 3600 * 1000)] *)
Definition expiry_instant (cfg : Config) (env : Env) : Z :=
  now env + match IDEMPOTENCY_TTL_HOURS cfg with
            | Some h => h * 3600 * 1000
            | None => 3600 * 1000
            end.

(** [TTL_HOURS ? parseInt(TTL_HOURS) * 3600 : 3600], in seconds *)
Definition cache_ttl (cfg : Config) : Z :=
  match IDEMPOTENCY_TTL_HOURS cfg with
  | Some h => h * 3600
  | None => 3600
  end.

Definition response_of (t : Transaction) : TransactionResponse :=
  mkTransactionResponse (tx_id t) (tx_type t) (tx_amount t) (tx_status t)
                        (tx_consumerId t) (tx_createdAt t) (tx_updatedAt t).

(** The [catch] clause of the service: roll back, then classify the error.
    When the rollback fails, its error leaves the clause instead. *)
Definition on_error (env : Env) (error : Exn) : M TransactionResponse :=
  DatabaseConfig.rollbackTransaction env ;;;
  match error with
  | EApp _ => throw error
  | ESequelizeValidation _ =>
      throw (EApp (mkAppError BadRequest "Validation errors occurred"))
  | ESequelizeDatabase _ =>
      throw (EApp (mkAppError InternalServerError "Database error"))
  | EOther =>
      throw (EApp (mkAppError InternalServerError
         "An unexpected error occurred while creating the transaction"))
  end.

Definition createTransaction (cfg : Config) (env : Env)
    (idempotencyKey bodyHash : string) (transactionRequest : TransactionRequest)
  : M TransactionResponse :=
  if invalid_key idempotencyKey then
    throw (EApp (mkAppError BadRequest "Invalid idempotency key"))
  else
    match safeParse transactionRequest with
    | None => throw (EApp (mkAppError BadRequest "Invalid transaction request"))
    | Some data =>
        DatabaseConfig.beginTransaction env ;;;
        try_catch
          (transaction <-
             TransactionModel.create env (req_type data) (req_amount data)
                                     "pending" (req_consumerId data) ;;
           let transactionResponse := response_of transaction in
           idempotencyMetaRecord <-
             IdempotencyMetaModel.create env idempotencyKey bodyHash
               (JSON_stringify (toJSON transactionResponse))
               (Some (expiry_instant cfg env)) ;;
           RedisUtil.set env (redisKey cfg idempotencyKey) idempotencyMetaRecord
                         (cache_ttl cfg) ;;;
           DatabaseConfig.commitTransaction env ;;;
           ret transactionResponse)
          (on_error env)
    end.

(* =================================================================== *)
(** ** TransactionController.createTransaction and the route *)
(* =================================================================== *)

Definition TransactionController_createTransaction (cfg : Config) (env : Env)
    (req : Request) : M HttpResponse :=
  match safeParse_body (body req) with
  | None => throw EOther
  | Some transactionRequest =>
      match idempotency req with
      | Some idempotencyContext =>
          if JsString.truthy (ctx_key idempotencyContext)
             && JsString.truthy (ctx_bodyHash idempotencyContext)
          then
            transaction <-
              createTransaction cfg env (ctx_key idempotencyContext)
                                (ctx_bodyHash idempotencyContext) transactionRequest ;;
            ret (mkHttpResponse 201 "Transaction created successfully"
                                (toJSON transaction))
          else throw (EApp (mkAppError BadRequest "Invalid idempotency context"))
      | None => throw (EApp (mkAppError BadRequest "Invalid idempotency context"))
      end
  end.

(** [router.post('', IdempotencyMiddleware, Validate(TransactionRequestSchema),
    CatchAsync(TransactionController.createTransaction))].  The validator
    middleware applies the schema that the controller applies again as its
    first statement, so a body reaches the service exactly when it passes
    the schema; the chain below goes from the idempotency middleware to the
    controller. *)
Definition postTransaction (cfg : Config) (env : Env) (req : Request)
  : M HttpResponse :=
  outcome <- idempotencyMiddleware cfg env req ;;
  match outcome with
  | Responded r => ret r
  | Next ctx =>
      TransactionController_createTransaction cfg env
        (mkRequest (method req) (headers req) (body req) (Some ctx))
  end.

(* =================================================================== *)
(** ** Vocabulary for the statements *)
(* =================================================================== *)

(** The decision on a record that was found, stated once: conflict, then
    expiry, then replay. The middleware has it twice, for the cached record
    and for the database record. *)
Definition replay_or_reject (env : Env) (requestBodyHash : string)
    (record : IdempotencyMeta) : M Outcome :=
  if negb (bodyHash record =? requestBodyHash)%string then throw conflict_error
  else if is_expired record (now env) then throw expired_error
  else
    match JSON_parse (responsePayload record) with
    | None => throw EOther
    | Some data =>
        ret (Responded (mkHttpResponse 200 "Transaction already processed" data))
    end.

(** The method test of the middleware. *)
Definition method_ok (req : Request) : bool :=
  existsb (String.eqb (method req)) idempotentMethods.

(** The fingerprint the middleware computes for a request. *)
Definition requestBodyHash_of (req : Request) : string :=
  sha256_hex (JSON_stringify (body req)).

(** The [catch] clause of the middleware: rethrowing what it knows,
    wrapping the rest. *)
Definition middleware_catch (error : Exn) : Exn :=
  if is_AppError error then error
  else EApp (mkAppError InternalServerError "Error checking idempotency key").

(** What the [catch] clause of the service throws for an error. *)
Definition service_catch (error : Exn) : Exn :=
  match error with
  | EApp _ => error
  | ESequelizeValidation _ =>
      EApp (mkAppError BadRequest "Validation errors occurred")
  | ESequelizeDatabase _ =>
      EApp (mkAppError InternalServerError "Database error")
  | EOther =>
      EApp (mkAppError InternalServerError
         "An unexpected error occurred while creating the transaction")
  end.

(** What leaves the [catch] clause of the service on an error: the error of
    the rollback when the rollback fails, the classified error otherwise. *)
Definition caught (env : Env) (error : Exn) : Exn :=
  match rollback_fault env with
  | Some g => exn_of_DbFault g
  | None => service_catch error
  end.

(** The transaction after the [catch] clause: closed, unless the rollback
    failed. *)
Definition rolled_back (env : Env) (open : option Database) : option Database :=
  match rollback_fault env with
  | Some _ => open
  | None => None
  end.

(** The error of a failed [RedisUtil.set]. *)
Definition exn_of_set_fault (f : RedisFault) : Exn :=
  match f with
  | CommandFails => EOther
  | BadReply => EApp (mkAppError Plain "Cache set error")
  end.

(** The business row and the idempotency record that the service inserts. *)
Definition new_row (env : Env) (data : TransactionRequest) : Transaction :=
  mkTransaction (uuid env) (req_type data) (req_amount data) "pending"
                (req_consumerId data) (now env) (Some (now env)).

Definition new_record (cfg : Config) (env : Env) (k h : string)
    (data : TransactionRequest) : IdempotencyMeta :=
  mkIdempotencyMeta k h (JSON_stringify (toJSON (response_of (new_row env data))))
                    (now env) (Some (now env)) (Some (expiry_instant cfg env)).

(** What the open transaction sees after the business insert. *)
Definition row_inserted (env : Env) (data : TransactionRequest) (w : World)
  : Database :=
  mkDatabase (transactions (db w) ++ [new_row env data]) (idempotency_meta (db w)).

(** The error of the primary key of [idempotency_meta]. *)
Definition key_not_unique : Exn := ESequelizeValidation ["key must be unique"].

(** The cache after the write of the service. *)
Definition cache_written (cfg : Config) (env : Env) (k h : string)
    (data : TransactionRequest) (w : World) : gmap string (IdempotencyMeta * Z) :=
  <[redisKey cfg k := (new_record cfg env k h data, now env + cache_ttl cfg * 1000)]>
    (redis w).

(** The database after the commit of the service. *)
Definition committed (cfg : Config) (env : Env) (k h : string)
    (data : TransactionRequest) (w : World) : Database :=
  mkDatabase (transactions (db w) ++ [new_row env data])
             (idempotency_meta (db w) ++ [new_record cfg env k h data]).

(** The events of the lookup path. *)
Definition is_lookup (ev : Event) : bool :=
  match ev with
  | RedisGet _ | DbFindOne _ _ => true
  | _ => false
  end.

End Handlers.

(* ===================================================================== *)
(** ** A concrete runtime and the scenario of the README *)
(* ===================================================================== *)

(** The requests are those of the README; the idempotency keys are written
    as UUIDs, as the flow of the README and the column [key] ask. *)

Module Demo.

Definition quote : string := String (ascii_of_nat 34) EmptyString.

(** A printer of JSON values; a number is printed as a fraction. *)
Fixpoint print (j : JsonValue) : string :=
  match j with
  | JNull => "null"
  | JBool b => if b then "true" else "false"
  | JNumber q => pretty (Qnum q) ++ "/" ++ pretty (Zpos (Qden q))
  | JString s => quote ++ s ++ quote
  | JArray items =>
      "[" ++ (fix go (l : list JsonValue) : string :=
                match l with
                | [] => ""
                | [x] => print x
                | x :: r => print x ++ "," ++ go r
                end) items ++ "]"
  | JObject fields =>
      "{" ++ (fix go (l : list (string * JsonValue)) : string :=
                match l with
                | [] => ""
                | [(k, v)] => quote ++ k ++ quote ++ ":" ++ print v
                | (k, v) :: r => quote ++ k ++ quote ++ ":" ++ print v ++ "," ++ go r
                end) fields ++ "}"
  end.

Definition iso (t : Z) : string := "T" ++ pretty t.

Definition is_hex (c : ascii) : bool :=
  let n := nat_of_ascii c in
  ((48 <=? n)%nat && (n <=? 57)%nat) || ((65 <=? n)%nat && (n <=? 70)%nat)
  || ((97 <=? n)%nat && (n <=? 102)%nat).

(** Groups of 8, 4, 4, 4 and 12 hexadecimal digits separated by hyphens. *)
Fixpoint uuid_shape (groups : list nat) (left : nat) (s : string) : bool :=
  match s with
  | EmptyString =>
      match left, groups with
      | O, [] => true
      | _, _ => false
      end
  | String c rest =>
      match left with
      | S n => is_hex c && uuid_shape groups n rest
      | O =>
          match groups with
          | g :: gs => (nat_of_ascii c =? 45)%nat && uuid_shape gs g rest
          | [] => false
          end
      end
  end.

Definition consumer : string := "2e373ce7-7207-43a4-9133-c820253252f6".
Definition generated_id : string := "8c825416-f74d-4a9d-aea6-9b5c82c5d22b".

(** The response document of the first request of the scenario. *)
Definition document : JsonValue :=
  JObject [("id", JString generated_id); ("type", JString "payment");
           ("amount", JNumber (12000 # 1)); ("status", JString "pending");
           ("consumerId", JString consumer);
           ("createdAt", JString (iso 1000)); ("updatedAt", JString (iso 1000))].

(** A parser that recognises the documents of the scenario. *)
Definition parse (s : string) : option JsonValue :=
  List.find (fun j => (print j =? s)%string) [document].

(** The digest is replaced by a marked copy of its input. *)
Definition runtime : Runtime := {|
  sha256_hex := fun s => "sha256:" ++ s;
  JSON_stringify := print;
  JSON_parse := parse;
  toISOString := iso;
  is_uuid := uuid_shape [4; 4; 4; 12]%nat 8%nat
|}.

Definition cfg : Config := mkConfig None None None.

Definition env_at (t : Z) : Env :=
  mkEnv t generated_id None None None None None None None None.

Definition payment (amt : Z) : JsonValue :=
  JObject [("type", JString "payment"); ("amount", JNumber (amt # 1));
           ("consumerId", JString consumer)].

Definition request (verb : string) (k : string) (amt : Z) : Request :=
  mkRequest verb {[ "idempotency-key" := HString k ]} (payment amt) None.

Definition empty_world : World :=
  mkWorld ∅ (mkDatabase [] []) None [].

Definition hash12000 : string :=
  @requestBodyHash_of runtime (request "POST" "0b9f6a3e-5d1c-4e7a-9c2b-7f3a1d8e4c56" 12000).

(** The record and the business row that the first request of the scenario
    leaves behind. *)
Definition stored_record (expires : option Z) : IdempotencyMeta :=
  mkIdempotencyMeta "0b9f6a3e-5d1c-4e7a-9c2b-7f3a1d8e4c56" hash12000 (print document) 1000 (Some 1000) expires.

Definition stored_row : Transaction :=
  mkTransaction generated_id "payment" (12000 # 1) "pending" consumer 1000 (Some 1000).

(** The same environment when the insert of the idempotency record fails,
    and when the cache write is answered with something other than OK. *)
Definition env_record_fails (t : Z) : Env :=
  mkEnv t generated_id None None None None (Some (DbDatabase "connection lost")) None
        None None.

Definition env_cache_fails (t : Z) : Env :=
  mkEnv t generated_id None (Some BadReply) None None None None None None.

Definition payment_request (amt : Z) : TransactionRequest :=
  mkTransactionRequest "payment" (amt # 1) consumer.

Definition hash15000 : string :=
  @requestBodyHash_of runtime (request "POST" "0b9f6a3e-5d1c-4e7a-9c2b-7f3a1d8e4c56" 15000).

(** A world after further store accesses that changed nothing. *)
Definition logged (w : World) (evs : list Event) : World :=
  mkWorld (redis w) (db w) (txn w) (log w ++ evs).

(** The durable record is there, the cache entry is not. *)
Definition durable_only (expires : option Z) : World :=
  mkWorld ∅ (mkDatabase [stored_row] [stored_record expires]) None [].

(** Both the durable record and its cache entry are there. *)
Definition cached (expires : option Z) (deadline : Z) : World :=
  mkWorld {[ "idempotency:0b9f6a3e-5d1c-4e7a-9c2b-7f3a1d8e4c56" := (stored_record expires, deadline) ]}
          (mkDatabase [stored_row] [stored_record expires]) None [].

(** The answer to the first request of the scenario, and the world it
    leaves when it starts from the empty one. *)
Definition first_response : HttpResponse :=
  mkHttpResponse 201 "Transaction created successfully" document.

Definition after_first : World :=
  logged (cached (Some 3601000) 3601000)
    [RedisGet "idempotency:0b9f6a3e-5d1c-4e7a-9c2b-7f3a1d8e4c56";
     DbFindOne "0b9f6a3e-5d1c-4e7a-9c2b-7f3a1d8e4c56" hash12000;
     DbBegin; DbInsertTransaction generated_id; DbInsertMeta "0b9f6a3e-5d1c-4e7a-9c2b-7f3a1d8e4c56";
     RedisSet "idempotency:0b9f6a3e-5d1c-4e7a-9c2b-7f3a1d8e4c56"; DbCommit].

End Demo.

(* ===================================================================== *)
(** ** RedisUtil.del, and further vocabulary *)
(* ===================================================================== *)

(** [RedisUtil.del]: [redis.del(key)] answers the number of keys it removed,
    and the utility throws when that number is 0. An entry whose time to live
    has run out counts as absent. [rejected] tells whether the client rejects
    the command. The function is on no request path and is left out of the
    log of accesses. *)
Definition RedisUtil_del (env : Env) (rejected : bool) (k : string) : M unit :=
  if rejected then throw EOther
  else
    fun w =>
      match redis w !! k with
      | Some (v, deadline) =>
          if now env <? deadline then
            (Ok tt, mkWorld (delete k (redis w)) (db w) (txn w) (log w))
          else (Throw (EApp (mkAppError Plain "Cache key not found")), w)
      | None => (Throw (EApp (mkAppError Plain "Cache key not found")), w)
      end.

(** The error that wraps a failure of a lookup in the middleware. *)
Definition lookup_error : Exn :=
  EApp (mkAppError InternalServerError "Error checking idempotency key").

(** What the middleware makes of a record it found, its [catch] clause
    included: an error, or the answer to the request. *)
Definition decision `{Runtime} (env : Env) (requestBodyHash : string)
    (record : IdempotencyMeta) : Result Outcome :=
  if negb (bodyHash record =? requestBodyHash)%string then Throw conflict_error
  else if is_expired record (now env) then Throw expired_error
  else
    match JSON_parse (responsePayload record) with
    | None => Throw lookup_error
    | Some data =>
        Ok (Responded (mkHttpResponse 200 "Transaction already processed" data))
    end.


(** The kinds of error that the middleware throws. *)
Definition middleware_kinds : list AppErrorKind :=
  [MethodNotAllowed; BadRequest; Conflict; Expired; InternalServerError; Plain].

(** The same world with further events in its log. *)
Definition with_events (w : World) (evs : list Event) : World :=
  mkWorld (redis w) (db w) (txn w) (log w ++ evs).

(** The runs of the middleware: the two rejections before any access, and
    then, for the key [k] of the request, what the two lookups return. *)
Inductive middleware_run `{Runtime} (cfg : Config) (env : Env) (req : Request) (w : World)
  : Result Outcome -> World -> Prop :=
| run_method :
    method_ok req = false ->
    middleware_run cfg env req w
      (Throw (EApp (mkAppError MethodNotAllowed "Method not allowed"))) w
| run_key :
    method_ok req = true ->
    header_key (headers req !! idempotencyKeyHeaderName cfg) = None ->
    middleware_run cfg env req w
      (Throw (EApp (mkAppError BadRequest "Invalid idempotency key"))) w
| run_cache_throws k e :
    method_ok req = true ->
    header_key (headers req !! idempotencyKeyHeaderName cfg) = Some k ->
    RedisUtil.get env (redisKey cfg k) w
      = (Throw e, with_events w [RedisGet (redisKey cfg k)]) ->
    middleware_run cfg env req w (Throw (middleware_catch e))
      (with_events w [RedisGet (redisKey cfg k)])
| run_cache_hit k record :
    method_ok req = true ->
    header_key (headers req !! idempotencyKeyHeaderName cfg) = Some k ->
    RedisUtil.get env (redisKey cfg k) w
      = (Ok (Some record), with_events w [RedisGet (redisKey cfg k)]) ->
    middleware_run cfg env req w (decision env (requestBodyHash_of req) record)
      (with_events w [RedisGet (redisKey cfg k)])
| run_db_throws k e :
    method_ok req = true ->
    header_key (headers req !! idempotencyKeyHeaderName cfg) = Some k ->
    RedisUtil.get env (redisKey cfg k) w
      = (Ok None, with_events w [RedisGet (redisKey cfg k)]) ->
    IdempotencyMetaModel.findOne env k (requestBodyHash_of req)
      (with_events w [RedisGet (redisKey cfg k)])
      = (Throw e, with_events w [RedisGet (redisKey cfg k);
                                 DbFindOne k (requestBodyHash_of req)]) ->
    middleware_run cfg env req w (Throw (middleware_catch e))
      (with_events w [RedisGet (redisKey cfg k);
                      DbFindOne k (requestBodyHash_of req)])
| run_db_hit k record :
    method_ok req = true ->
    header_key (headers req !! idempotencyKeyHeaderName cfg) = Some k ->
    RedisUtil.get env (redisKey cfg k) w
      = (Ok None, with_events w [RedisGet (redisKey cfg k)]) ->
    IdempotencyMetaModel.findOne env k (requestBodyHash_of req)
      (with_events w [RedisGet (redisKey cfg k)])
      = (Ok (Some record), with_events w [RedisGet (redisKey cfg k);
                                          DbFindOne k (requestBodyHash_of req)]) ->
    middleware_run cfg env req w (decision env (requestBodyHash_of req) record)
      (with_events w [RedisGet (redisKey cfg k);
                      DbFindOne k (requestBodyHash_of req)])
| run_db_miss k :
    method_ok req = true ->
    header_key (headers req !! idempotencyKeyHeaderName cfg) = Some k ->
    RedisUtil.get env (redisKey cfg k) w
      = (Ok None, with_events w [RedisGet (redisKey cfg k)]) ->
    IdempotencyMetaModel.findOne env k (requestBodyHash_of req)
      (with_events w [RedisGet (redisKey cfg k)])
      = (Ok None, with_events w [RedisGet (redisKey cfg k);
                                 DbFindOne k (requestBodyHash_of req)]) ->
    middleware_run cfg env req w
      (Ok (Next (mkIdempotencyInterface k (requestBodyHash_of req))))
      (with_events w [RedisGet (redisKey cfg k);
                      DbFindOne k (requestBodyHash_of req)]).

(** The runs of the service: the two rejections before the transaction is
    opened, the failure to open it, the failure of each step inside it, and
    the success. A failure inside the transaction goes through
    the [catch] clause: the rollback is attempted, and closes the transaction
    unless it fails itself. *)
Inductive service_run `{Runtime} (cfg : Config) (env : Env) (k h : string)
    (t : TransactionRequest) (w : World)
  : Result TransactionResponse -> World -> Prop :=
| svc_invalid_key :
    invalid_key k = true ->
    service_run cfg env k h t w
      (Throw (EApp (mkAppError BadRequest "Invalid idempotency key"))) w
| svc_invalid_request :
    invalid_key k = false ->
    safeParse t = None ->
    service_run cfg env k h t w
      (Throw (EApp (mkAppError BadRequest "Invalid transaction request"))) w
| svc_begin_fails data g :
    invalid_key k = false ->
    safeParse t = Some data ->
    begin_fault env = Some g ->
    service_run cfg env k h t w
      (Throw (exn_of_DbFault g)) (with_events w [DbBegin])
| svc_row_fails data f :
    invalid_key k = false ->
    safeParse t = Some data ->
    begin_fault env = None ->
    transaction_create_fault env = Some f ->
    service_run cfg env k h t w
      (Throw (caught env (exn_of_DbFault f)))
      (mkWorld (redis w) (db w) (rolled_back env (Some (db w)))
         (log w ++ [DbBegin; DbInsertTransaction (uuid env); DbRollback]))
| svc_record_fails data f :
    invalid_key k = false ->
    safeParse t = Some data ->
    begin_fault env = None ->
    transaction_create_fault env = None ->
    meta_create_fault env = Some f ->
    service_run cfg env k h t w
      (Throw (caught env (exn_of_DbFault f)))
      (mkWorld (redis w) (db w) (rolled_back env (Some (row_inserted env data w)))
         (log w ++ [DbBegin; DbInsertTransaction (uuid env); DbInsertMeta k;
                    DbRollback]))
| svc_key_not_uuid data :
    invalid_key k = false ->
    safeParse t = Some data ->
    begin_fault env = None ->
    transaction_create_fault env = None ->
    meta_create_fault env = None ->
    Uuid.valid k = false ->
    service_run cfg env k h t w
      (Throw (caught env Uuid.syntax_error))
      (mkWorld (redis w) (db w) (rolled_back env (Some (row_inserted env data w)))
         (log w ++ [DbBegin; DbInsertTransaction (uuid env); DbInsertMeta k;
                    DbRollback]))
| svc_key_taken data :
    invalid_key k = false ->
    safeParse t = Some data ->
    begin_fault env = None ->
    transaction_create_fault env = None ->
    meta_create_fault env = None ->
    Uuid.valid k = true ->
    IdempotencyMetaModel.key_taken k (db w) = true ->
    service_run cfg env k h t w
      (Throw (caught env key_not_unique))
      (mkWorld (redis w) (db w) (rolled_back env (Some (row_inserted env data w)))
         (log w ++ [DbBegin; DbInsertTransaction (uuid env); DbInsertMeta k;
                    DbRollback]))
| svc_cache_fails data f :
    invalid_key k = false ->
    safeParse t = Some data ->
    begin_fault env = None ->
    transaction_create_fault env = None ->
    meta_create_fault env = None ->
    Uuid.valid k = true ->
    IdempotencyMetaModel.key_taken k (db w) = false ->
    redis_set_fault env = Some f ->
    service_run cfg env k h t w
      (Throw (caught env (exn_of_set_fault f)))
      (mkWorld (redis w) (db w)
         (rolled_back env (Some (committed cfg env k h data w)))
         (log w ++ [DbBegin; DbInsertTransaction (uuid env); DbInsertMeta k;
                    RedisSet (redisKey cfg k); DbRollback]))
| svc_commit_fails data f :
    invalid_key k = false ->
    safeParse t = Some data ->
    begin_fault env = None ->
    transaction_create_fault env = None ->
    meta_create_fault env = None ->
    Uuid.valid k = true ->
    IdempotencyMetaModel.key_taken k (db w) = false ->
    redis_set_fault env = None ->
    commit_fault env = Some f ->
    service_run cfg env k h t w
      (Throw (caught env (exn_of_DbFault f)))
      (mkWorld (cache_written cfg env k h data w) (db w)
         (rolled_back env (Some (committed cfg env k h data w)))
         (log w ++ [DbBegin; DbInsertTransaction (uuid env); DbInsertMeta k;
                    RedisSet (redisKey cfg k); DbCommit; DbRollback]))
| svc_succeeds data :
    invalid_key k = false ->
    safeParse t = Some data ->
    begin_fault env = None ->
    transaction_create_fault env = None ->
    meta_create_fault env = None ->
    Uuid.valid k = true ->
    IdempotencyMetaModel.key_taken k (db w) = false ->
    redis_set_fault env = None ->
    commit_fault env = None ->
    service_run cfg env k h t w
      (Ok (response_of (new_row env data)))
      (mkWorld (cache_written cfg env k h data w) (committed cfg env k h data w)
         None
         (log w ++ [DbBegin; DbInsertTransaction (uuid env); DbInsertMeta k;
                    RedisSet (redisKey cfg k); DbCommit])).

(** The cache holds an entry under a Redis key that is still alive. *)
Definition cache_live (env : Env) (w : World) (rk : string) : bool :=
  match redis w !! rk with
  | Some (_, deadline) => now env <? deadline
  | None => false
  end.

(** The conditions under which the route creates: the request passes the two
    checks of the middleware and the schema, the key is written as a UUID,
    both lookups work and miss, the fingerprint is not the empty string, the
    key is free in the table, the transaction opens, and none of the steps
    of the service fails. *)
Definition creates `{Runtime} (cfg : Config) (env : Env) (req : Request)
    (k : string) (t : TransactionRequest) (w : World) : Prop :=
  method_ok req = true /\
  header_key (headers req !! idempotencyKeyHeaderName cfg) = Some k /\
  safeParse_body (body req) = Some t /\
  JsString.truthy (requestBodyHash_of req) = true /\
  Uuid.valid k = true /\
  redis_get_fault env = None /\
  cache_live env w (redisKey cfg k) = false /\
  findOne_fault env = None /\
  List.find (IdempotencyMetaModel.matches k (requestBodyHash_of req))
            (idempotency_meta (db w)) = None /\
  IdempotencyMetaModel.key_taken k (db w) = false /\
  begin_fault env = None /\
  transaction_create_fault env = None /\
  meta_create_fault env = None /\
  redis_set_fault env = None /\
  commit_fault env = None.

(** The answer to a request that is created, and the world it leaves. *)
Definition created_response `{Runtime} (env : Env) (t : TransactionRequest)
  : HttpResponse :=
  mkHttpResponse 201 "Transaction created successfully"
                 (toJSON (response_of (new_row env t))).

Definition created_world `{Runtime} (cfg : Config) (env : Env) (req : Request)
    (k : string) (t : TransactionRequest) (w : World) : World :=
  mkWorld (cache_written cfg env k (requestBodyHash_of req) t w)
          (committed cfg env k (requestBodyHash_of req) t w) None
          (log w ++ [RedisGet (redisKey cfg k);
                     DbFindOne k (requestBodyHash_of req);
                     DbBegin; DbInsertTransaction (uuid env); DbInsertMeta k;
                     RedisSet (redisKey cfg k); DbCommit]).

(** More inputs for the scenario. *)
Module Cases.

Definition env_commit_fails (t : Z) : Env :=
  mkEnv t Demo.generated_id None None None None None
        (Some (DbDatabase "connection lost")) None None.

Definition env_redis_down (t : Z) : Env :=
  mkEnv t Demo.generated_id (Some CommandFails) None None None None None
        None None.

Definition env_findOne_fails (t : Z) : Env :=
  mkEnv t Demo.generated_id None None (Some (DbDatabase "connection lost"))
        None None None None None.

(** The insert of the idempotency record fails, and the rollback after it. *)
Definition env_rollback_fails (t : Z) : Env :=
  mkEnv t Demo.generated_id None None None None
        (Some (DbDatabase "connection lost")) None
        None (Some (DbDatabase "connection lost")).

(** The world left by that run on the empty world: the transaction is still
    open, and holds the business row. *)
Definition after_failed_rollback : World :=
  mkWorld ∅ (mkDatabase [] []) (Some (mkDatabase [Demo.stored_row] []))
          [DbBegin; DbInsertTransaction Demo.generated_id;
           DbInsertMeta "0b9f6a3e-5d1c-4e7a-9c2b-7f3a1d8e4c56"; DbRollback].

(** A request that the middleware has let through, with its context. *)
Definition admitted_request : Request :=
  mkRequest "POST" {[ "idempotency-key" := HString "0b9f6a3e-5d1c-4e7a-9c2b-7f3a1d8e4c56" ]}
            (Demo.payment 12000)
            (Some (mkIdempotencyInterface "0b9f6a3e-5d1c-4e7a-9c2b-7f3a1d8e4c56" Demo.hash12000)).



(** The world left by a first request whose commit failed: the cache entry is
    there, the database is empty. *)
Definition after_failed_commit : World :=
  mkWorld {[ "idempotency:0b9f6a3e-5d1c-4e7a-9c2b-7f3a1d8e4c56" :=
               (Demo.stored_record (Some 3601000), 3601000) ]}
          (mkDatabase [] []) None
          [DbBegin; DbInsertTransaction Demo.generated_id;
           DbInsertMeta "0b9f6a3e-5d1c-4e7a-9c2b-7f3a1d8e4c56"; RedisSet "idempotency:0b9f6a3e-5d1c-4e7a-9c2b-7f3a1d8e4c56";
           DbCommit; DbRollback].



(** A body that the schema refuses: the amount is negative. *)
Definition bad_request (k : string) : Request :=
  mkRequest "POST" {[ "idempotency-key" := HString k ]} (Demo.payment (-5)) None.

(** A stored record whose payload is not JSON text. *)
Definition broken_record : IdempotencyMeta :=
  mkIdempotencyMeta "0b9f6a3e-5d1c-4e7a-9c2b-7f3a1d8e4c56" Demo.hash12000 "{oops" 1000 (Some 1000)
                    (Some 3601000).

Definition broken_world : World :=
  mkWorld ∅ (mkDatabase [Demo.stored_row] [broken_record]) None [].

End Cases.

(* ===================================================================== *)
(** ** Properties of [trim] and of the key check *)
(* ===================================================================== *)

Section KeyCheck.
Context `{Runtime}.

Lemma trimStart_all_white_space (s : string) :
  JsString.all_white_space s = true -> JsString.trimStart s = "".
Proof.
  induction s as [|c rest IH]; simpl; [reflexivity|].
  intros Hws. apply andb_true_iff in Hws as [Hc Hrest].
  rewrite Hc. now apply IH.
Qed.

Lemma trim_all_white_space (s : string) :
  JsString.all_white_space s = true -> JsString.trim s = "".
Proof.
  intros Hws. unfold JsString.trim, JsString.trimEnd.
  now rewrite (trimStart_all_white_space s Hws).
Qed.

Lemma invalid_key_all_white_space (k : string) :
  JsString.all_white_space k = true -> invalid_key k = true.
Proof.
  intros Hws. unfold invalid_key.
  rewrite (trim_all_white_space k Hws). simpl. apply orb_true_r.
Qed.

Lemma header_key_valid (v : option HeaderValue) (k : string) :
  header_key v = Some k -> v = Some (HString k) /\ invalid_key k = false.
Proof.
  destruct v as [[s|l]|]; simpl; try discriminate.
  destruct (invalid_key s) eqn:E; [discriminate|].
  intros [= <-]. now split.
Qed.

Lemma invalid_key_truthy (k : string) :
  invalid_key k = false -> JsString.truthy k = true.
Proof.
  unfold invalid_key. intros Hk. apply orb_false_iff in Hk as [Hk _].
  now apply negb_false_iff in Hk.
Qed.

End KeyCheck.

(* ===================================================================== *)
(** ** The middleware, path by path *)
(* ===================================================================== *)

Section MiddlewarePaths.
Context `{Runtime}.

Lemma middleware_method_rejected cfg env req w :
  method_ok req = false ->
  idempotencyMiddleware cfg env req w =
    (Throw (EApp (mkAppError MethodNotAllowed "Method not allowed")), w).
Proof.
  unfold method_ok, idempotencyMiddleware. now intros ->.
Qed.

Lemma middleware_key_rejected cfg env req w :
  method_ok req = true ->
  header_key (headers req !! idempotencyKeyHeaderName cfg) = None ->
  idempotencyMiddleware cfg env req w =
    (Throw (EApp (mkAppError BadRequest "Invalid idempotency key")), w).
Proof.
  unfold method_ok, idempotencyMiddleware. now intros -> ->.
Qed.

(** What the block run on a found record can throw or answer. *)
Lemma replay_or_reject_cases env h record w :
  replay_or_reject env h record w =
    (if negb (bodyHash record =? h)%string then Throw conflict_error
     else if is_expired record (now env) then Throw expired_error
     else match JSON_parse (responsePayload record) with
          | None => Throw EOther
          | Some data =>
              Ok (Responded (mkHttpResponse 200 "Transaction already processed" data))
          end, w).
Proof.
  unfold replay_or_reject.
  destruct (negb _); [reflexivity|].
  destruct (is_expired _ _); [reflexivity|].
  now destruct (JSON_parse _).
Qed.

(** The result of the middleware once the two checks have passed, in terms
    of what the two lookups return. *)
Lemma middleware_cache_hit cfg env req k w record w1 :
  method_ok req = true ->
  header_key (headers req !! idempotencyKeyHeaderName cfg) = Some k ->
  RedisUtil.get env (redisKey cfg k) w = (Ok (Some record), w1) ->
  idempotencyMiddleware cfg env req w =
    match replay_or_reject env (requestBodyHash_of req) record w1 with
    | (Ok o, w2) => (Ok o, w2)
    | (Throw e, w2) => (Throw (middleware_catch e), w2)
    end.
Proof.
  unfold method_ok, idempotencyMiddleware, requestBodyHash_of, middleware_catch.
  intros -> -> Hget. simpl. unfold try_catch, bind at 1. rewrite Hget.
  rewrite replay_or_reject_cases. unfold throw, ret.
  destruct (negb _); [reflexivity|].
  destruct (is_expired _ _); [reflexivity|].
  now destruct (JSON_parse _).
Qed.

Lemma middleware_cache_miss cfg env req k w w1 :
  method_ok req = true ->
  header_key (headers req !! idempotencyKeyHeaderName cfg) = Some k ->
  RedisUtil.get env (redisKey cfg k) w = (Ok None, w1) ->
  idempotencyMiddleware cfg env req w =
    match IdempotencyMetaModel.findOne env k (requestBodyHash_of req) w1 with
    | (Ok (Some record), w2) =>
        match replay_or_reject env (requestBodyHash_of req) record w2 with
        | (Ok o, w3) => (Ok o, w3)
        | (Throw e, w3) => (Throw (middleware_catch e), w3)
        end
    | (Ok None, w2) =>
        (Ok (Next (mkIdempotencyInterface k (requestBodyHash_of req))), w2)
    | (Throw e, w2) => (Throw (middleware_catch e), w2)
    end.
Proof.
  unfold method_ok, idempotencyMiddleware, requestBodyHash_of, middleware_catch.
  intros -> -> Hget. simpl. unfold try_catch, bind at 1. rewrite Hget.
  unfold bind.
  destruct (IdempotencyMetaModel.findOne _ _ _ _) as [[[record|]|e] w2].
  - rewrite replay_or_reject_cases. unfold throw, ret.
    destruct (negb _); [reflexivity|].
    destruct (is_expired _ _); [reflexivity|].
    now destruct (JSON_parse _).
  - reflexivity.
  - now destruct (is_AppError e).
Qed.

Lemma middleware_cache_throws cfg env req k w e w1 :
  method_ok req = true ->
  header_key (headers req !! idempotencyKeyHeaderName cfg) = Some k ->
  RedisUtil.get env (redisKey cfg k) w = (Throw e, w1) ->
  idempotencyMiddleware cfg env req w = (Throw (middleware_catch e), w1).
Proof.
  unfold method_ok, idempotencyMiddleware, middleware_catch.
  intros -> -> Hget. simpl. unfold try_catch, bind at 1. rewrite Hget.
  now destruct (is_AppError e).
Qed.

(** The lookups append to the log and change nothing else. *)
Lemma redis_get_log env k w r w1 :
  RedisUtil.get env k w = (r, w1) ->
  w1 = mkWorld (redis w) (db w) (txn w) (log w ++ [RedisGet k]).
Proof.
  unfold RedisUtil.get, bind, emit, throw. simpl.
  destruct (redis_get_fault env) as [[|]|]; simpl.
  - now intros [= _ <-].
  - now intros [= _ <-].
  - destruct (_ !! _) as [[v d]|]; [destruct (_ <? _)|]; now intros [= _ <-].
Qed.

(** The errors of [RedisUtil.get] are never of the kinds the middleware
    uses for its own rejections. *)
Lemma redis_get_throws env k w e w1 :
  RedisUtil.get env k w = (Throw e, w1) ->
  e = EOther \/ e = EApp (mkAppError Plain "Invalid JSON format in cache").
Proof.
  unfold RedisUtil.get, bind, emit, throw. simpl.
  destruct (redis_get_fault env) as [[|]|]; simpl.
  - intros [= <- _]. now left.
  - intros [= <- _]. now right.
  - destruct (_ !! _) as [[v d]|]; [destruct (_ <? _)|]; discriminate.
Qed.

Lemma findOne_log env k h w r w1 :
  IdempotencyMetaModel.findOne env k h w = (r, w1) ->
  w1 = mkWorld (redis w) (db w) (txn w) (log w ++ [DbFindOne k h]).
Proof.
  unfold IdempotencyMetaModel.findOne, bind, emit, throw. simpl.
  destruct (findOne_fault env); [|destruct (Uuid.valid k)]; now intros [= _ <-].
Qed.

Lemma findOne_throws env k h w e w1 :
  IdempotencyMetaModel.findOne env k h w = (Throw e, w1) ->
  is_AppError e = false.
Proof.
  unfold IdempotencyMetaModel.findOne, bind, emit, throw. simpl.
  destruct (findOne_fault env) as [[ | | ]|]; [..|destruct (Uuid.valid k)];
    simpl; try discriminate; now intros [= <- _].
Qed.

(** Every record the lookup returns has the key and the hash it was asked
    for: the [where] clause filters on both. *)
Lemma findOne_matches env k h w record w1 :
  IdempotencyMetaModel.findOne env k h w = (Ok (Some record), w1) ->
  key record = k /\ bodyHash record = h.
Proof.
  unfold IdempotencyMetaModel.findOne, bind, emit, throw. simpl.
  destruct (findOne_fault env); [discriminate|].
  destruct (Uuid.valid k); [|discriminate].
  intros [= Hfind _]. apply List.find_some in Hfind as [_ Hm].
  unfold IdempotencyMetaModel.matches in Hm.
  apply andb_true_iff in Hm as [Hk Hh].
  split; now apply String.eqb_eq.
Qed.

(** A lookup that returns met no failure, and its key is written as a
    UUID. *)
Lemma findOne_Ok env k h w found w1 :
  IdempotencyMetaModel.findOne env k h w = (Ok found, w1) ->
  findOne_fault env = None /\ Uuid.valid k = true /\
  found = List.find (IdempotencyMetaModel.matches k h) (idempotency_meta (db w)).
Proof.
  unfold IdempotencyMetaModel.findOne, bind, emit, throw. simpl.
  destruct (findOne_fault env); [discriminate|].
  destruct (Uuid.valid k); [|discriminate].
  now intros [= <- _].
Qed.

(** The lookup on a key that is not written as a UUID fails, whatever the
    table holds. *)
Lemma findOne_not_uuid env k h w :
  findOne_fault env = None ->
  Uuid.valid k = false ->
  IdempotencyMetaModel.findOne env k h w =
    (Throw Uuid.syntax_error,
     mkWorld (redis w) (db w) (txn w) (log w ++ [DbFindOne k h])).
Proof.
  intros Hf Hu. unfold IdempotencyMetaModel.findOne, bind, emit, throw. simpl.
  now rewrite Hf, Hu.
Qed.

End MiddlewarePaths.

(* ===================================================================== *)
(** ** Validation comes before any store access *)
(* ===================================================================== *)

Section Validation.
Context `{Runtime}.

(** The errors thrown on a found record, after the [catch] clause. *)
Lemma replay_or_reject_throws env h record w e w1 :
  replay_or_reject env h record w = (Throw e, w1) ->
  middleware_catch e = conflict_error \/ middleware_catch e = expired_error \/
  middleware_catch e =
    EApp (mkAppError InternalServerError "Error checking idempotency key").
Proof.
  rewrite replay_or_reject_cases.
  destruct (negb _); [intros [= <- _]; now left|].
  destruct (is_expired _ _); [intros [= <- _]; right; now left|].
  destruct (JSON_parse _); [discriminate|].
  intros [= <- _]. right. now right.
Qed.

(** C7. Whenever the middleware fails with MethodNotAllowed or with the
    invalid-key BadRequest, the world it leaves is the world it was given:
    cache, database and log of store accesses are untouched, and the
    failure comes from the method test or from the key test. *)
Theorem validation_before_store_access cfg env req w e w' :
  idempotencyMiddleware cfg env req w = (Throw (EApp e), w') ->
  kind e = MethodNotAllowed \/ kind e = BadRequest ->
  w' = w /\
  (method_ok req = false \/
   header_key (headers req !! idempotencyKeyHeaderName cfg) = None).
Proof.
  intros Hrun Hkind.
  destruct (method_ok req) eqn:Hm.
  - destruct (header_key (headers req !! idempotencyKeyHeaderName cfg))
      as [k|] eqn:Hk.
    + exfalso.
      destruct (RedisUtil.get env (redisKey cfg k) w) as [[[record|]|e0] w1] eqn:Hget.
      * rewrite (middleware_cache_hit _ _ _ _ _ _ _ Hm Hk Hget) in Hrun.
        destruct (replay_or_reject _ _ _ _) as [[o|e1] w2] eqn:Hrr; [discriminate|].
        injection Hrun as He _.
        apply replay_or_reject_throws in Hrr.
        rewrite He in Hrr.
        destruct Hrr as [Hc|[Hc|Hc]]; injection Hc as ->;
          destruct Hkind; discriminate.
      * rewrite (middleware_cache_miss _ _ _ _ _ _ Hm Hk Hget) in Hrun.
        destruct (IdempotencyMetaModel.findOne _ _ _ _)
          as [[[record|]|e1] w2] eqn:Hfind.
        -- destruct (replay_or_reject _ _ _ _) as [[o|e1] w3] eqn:Hrr; [discriminate|].
           injection Hrun as He _.
           apply replay_or_reject_throws in Hrr.
           rewrite He in Hrr.
           destruct Hrr as [Hc|[Hc|Hc]]; injection Hc as ->;
             destruct Hkind; discriminate.
        -- discriminate.
        -- apply findOne_throws in Hfind. unfold middleware_catch in Hrun.
           rewrite Hfind in Hrun. injection Hrun as <- _.
           destruct Hkind; discriminate.
      * rewrite (middleware_cache_throws _ _ _ _ _ _ _ Hm Hk Hget) in Hrun.
        apply redis_get_throws in Hget as [-> | ->];
          injection Hrun as <- _; destruct Hkind; discriminate.
    + rewrite (middleware_key_rejected _ _ _ _ Hm Hk) in Hrun.
      injection Hrun as _ <-. split; [reflexivity | now right].
  - rewrite (middleware_method_rejected _ _ _ _ Hm) in Hrun.
    injection Hrun as _ <-. split; [reflexivity | now left].
Qed.

(** C10. A key made of white space only is rejected like a missing key,
    whenever the method is one the middleware accepts. *)
Theorem whitespace_key_rejected cfg env req w k :
  method_ok req = true ->
  headers req !! idempotencyKeyHeaderName cfg = Some (HString k) ->
  JsString.all_white_space k = true ->
  idempotencyMiddleware cfg env req w =
    (Throw (EApp (mkAppError BadRequest "Invalid idempotency key")), w).
Proof.
  intros Hm Hhdr Hws. apply middleware_key_rejected; [exact Hm|].
  rewrite Hhdr. simpl. now rewrite (invalid_key_all_white_space k Hws).
Qed.

End Validation.

(* ===================================================================== *)
(** ** The decision on a record that was found *)
(* ===================================================================== *)

Section Lookup.
Context `{Runtime}.

(** C8. When the cache lookup misses, every record the database lookup
    returns makes the conflict test of the middleware false, so that the
    middleware does not fail with a Conflict on that path. *)
Theorem durable_conflict_branch_unreachable cfg env req k w w1 :
  method_ok req = true ->
  header_key (headers req !! idempotencyKeyHeaderName cfg) = Some k ->
  RedisUtil.get env (redisKey cfg k) w = (Ok None, w1) ->
  (forall record w2,
     IdempotencyMetaModel.findOne env k (requestBodyHash_of req) w1
       = (Ok (Some record), w2) ->
     negb (bodyHash record =? requestBodyHash_of req)%string = false) /\
  (forall e w', idempotencyMiddleware cfg env req w = (Throw (EApp e), w') ->
                kind e <> Conflict).
Proof.
  intros Hm Hk Hget.
  assert (Htest : forall record w2,
     IdempotencyMetaModel.findOne env k (requestBodyHash_of req) w1
       = (Ok (Some record), w2) ->
     negb (bodyHash record =? requestBodyHash_of req)%string = false).
  { intros record w2 Hfind. apply findOne_matches in Hfind as [_ ->].
    now rewrite String.eqb_refl. }
  split; [exact Htest|].
  intros e w' Hrun.
  rewrite (middleware_cache_miss _ _ _ _ _ _ Hm Hk Hget) in Hrun.
  destruct (IdempotencyMetaModel.findOne _ _ _ _) as [[[record|]|e1] w2] eqn:Hfind.
  - rewrite replay_or_reject_cases, (Htest record w2 eq_refl) in Hrun.
    destruct (is_expired _ _); [injection Hrun as <- _; discriminate|].
    destruct (JSON_parse _); [discriminate|].
    injection Hrun as <- _; discriminate.
  - discriminate.
  - apply findOne_throws in Hfind. unfold middleware_catch in Hrun.
    rewrite Hfind in Hrun. injection Hrun as <- _; discriminate.
Qed.

(** C5. A record whose expiry instant is strictly in the past, looked up
    with the payload it was stored for, makes the middleware fail with
    Expired, whether the record comes from the cache or, after a cache miss,
    from the database. *)
Theorem expired_record_rejected cfg env req k record t w w1 w2 :
  method_ok req = true ->
  header_key (headers req !! idempotencyKeyHeaderName cfg) = Some k ->
  bodyHash record = requestBodyHash_of req ->
  expiredAt record = Some t ->
  t < now env ->
  RedisUtil.get env (redisKey cfg k) w = (Ok (Some record), w2) \/
  (RedisUtil.get env (redisKey cfg k) w = (Ok None, w1) /\
   IdempotencyMetaModel.findOne env k (requestBodyHash_of req) w1
     = (Ok (Some record), w2)) ->
  idempotencyMiddleware cfg env req w = (Throw expired_error, w2).
Proof.
  intros Hm Hk Hhash Hexp Hpast Hfound.
  assert (Hrr : replay_or_reject env (requestBodyHash_of req) record w2
                = (Throw expired_error, w2)).
  { rewrite replay_or_reject_cases, Hhash, String.eqb_refl. simpl.
    unfold is_expired. rewrite Hexp.
    now replace (t <? now env) with true by (symmetry; apply Z.ltb_lt; exact Hpast). }
  destruct Hfound as [Hget | [Hget Hfind]].
  - now rewrite (middleware_cache_hit _ _ _ _ _ _ _ Hm Hk Hget), Hrr.
  - now rewrite (middleware_cache_miss _ _ _ _ _ _ Hm Hk Hget), Hfind, Hrr.
Qed.

(** C9. A record without an expiry instant is expired at no time, and a
    lookup with the payload it was stored for is answered with the stored
    response whatever the clock says, whether the record comes from the
    cache or, after a cache miss, from the database. *)
Theorem record_without_expiry_replays cfg env req k record data w w1 w2 :
  method_ok req = true ->
  header_key (headers req !! idempotencyKeyHeaderName cfg) = Some k ->
  bodyHash record = requestBodyHash_of req ->
  expiredAt record = None ->
  JSON_parse (responsePayload record) = Some data ->
  RedisUtil.get env (redisKey cfg k) w = (Ok (Some record), w2) \/
  (RedisUtil.get env (redisKey cfg k) w = (Ok None, w1) /\
   IdempotencyMetaModel.findOne env k (requestBodyHash_of req) w1
     = (Ok (Some record), w2)) ->
  (forall currentTime, is_expired record currentTime = false) /\
  idempotencyMiddleware cfg env req w =
    (Ok (Responded (mkHttpResponse 200 "Transaction already processed" data)), w2).
Proof.
  intros Hm Hk Hhash Hexp Hparse Hfound.
  assert (Hnever : forall currentTime, is_expired record currentTime = false).
  { intros currentTime. unfold is_expired. now rewrite Hexp. }
  split; [exact Hnever|].
  assert (Hrr : replay_or_reject env (requestBodyHash_of req) record w2
                = (Ok (Responded (mkHttpResponse 200 "Transaction already processed" data)), w2)).
  { rewrite replay_or_reject_cases, Hhash, String.eqb_refl, Hnever, Hparse.
    reflexivity. }
  destruct Hfound as [Hget | [Hget Hfind]].
  - now rewrite (middleware_cache_hit _ _ _ _ _ _ _ Hm Hk Hget), Hrr.
  - now rewrite (middleware_cache_miss _ _ _ _ _ _ Hm Hk Hget), Hfind, Hrr.
Qed.

End Lookup.

(* ===================================================================== *)
(** ** The service, case by case *)
(* ===================================================================== *)

Section Service.
Context `{Runtime}.

Lemma safeParse_Some t data : safeParse t = Some data -> data = t.
Proof. unfold safeParse. destruct (schema_ok t); [now intros [= <-] | discriminate]. Qed.

Lemma createTransaction_invalid_key cfg env k h t w :
  invalid_key k = true ->
  createTransaction cfg env k h t w =
    (Throw (EApp (mkAppError BadRequest "Invalid idempotency key")), w).
Proof. unfold createTransaction. now intros ->. Qed.

Lemma createTransaction_invalid_request cfg env k h t w :
  invalid_key k = false ->
  safeParse t = None ->
  createTransaction cfg env k h t w =
    (Throw (EApp (mkAppError BadRequest "Invalid transaction request")), w).
Proof. unfold createTransaction. now intros -> ->. Qed.

(** The transaction does not open: the error leaves the service as it is,
    the [catch] clause is not entered. *)
Lemma createTransaction_begin_fails cfg env k h t data w g :
  invalid_key k = false ->
  safeParse t = Some data ->
  begin_fault env = Some g ->
  createTransaction cfg env k h t w =
    (Throw (exn_of_DbFault g), with_events w [DbBegin]).
Proof.
  intros Hkey Hschema Hg. unfold createTransaction. rewrite Hkey, Hschema.
  unfold DatabaseConfig.beginTransaction, bind, emit, throw. simpl.
  now rewrite Hg.
Qed.

(** The [catch] clause: the rollback is attempted, then the error is
    classified. *)
Lemma on_error_run env e w :
  on_error env e w =
    (Throw (caught env e),
     mkWorld (redis w) (db w) (rolled_back env (txn w)) (log w ++ [DbRollback])).
Proof.
  unfold on_error, DatabaseConfig.rollbackTransaction, caught, rolled_back,
    bind, emit, throw. simpl.
  destruct (rollback_fault env) as [g|]; [reflexivity|].
  now destruct e.
Qed.

Ltac run_service Hkey Hschema Hbegin :=
  unfold createTransaction; rewrite Hkey, Hschema;
  unfold try_catch,
    DatabaseConfig.beginTransaction, DatabaseConfig.commitTransaction,
    TransactionModel.create, IdempotencyMetaModel.create, RedisUtil.set;
  unfold set_view, view, bind, emit, ret, throw; cbn -[on_error];
  rewrite Hbegin; cbn -[on_error].

Ltac finish_service :=
  try rewrite on_error_run; cbn -[caught rolled_back];
  f_equal; f_equal; repeat rewrite <- List.app_assoc; reflexivity.

Section Cases.
Variables (cfg : Config) (env : Env) (k h : string) (t data : TransactionRequest)
          (w : World).
Hypothesis Hkey : invalid_key k = false.
Hypothesis Hschema : safeParse t = Some data.
Hypothesis Hbegin : begin_fault env = None.

(** The business insert fails. *)
Lemma createTransaction_row_fails f :
  transaction_create_fault env = Some f ->
  createTransaction cfg env k h t w =
    (Throw (caught env (exn_of_DbFault f)),
     mkWorld (redis w) (db w) (rolled_back env (Some (db w)))
       (log w ++ [DbBegin; DbInsertTransaction (uuid env); DbRollback])).
Proof.
  intros Hf. run_service Hkey Hschema Hbegin. rewrite Hf. cbn -[on_error].
  finish_service.
Qed.

(** The insert of the idempotency record fails. *)
Lemma createTransaction_record_fails f :
  transaction_create_fault env = None ->
  meta_create_fault env = Some f ->
  createTransaction cfg env k h t w =
    (Throw (caught env (exn_of_DbFault f)),
     mkWorld (redis w) (db w) (rolled_back env (Some (row_inserted env data w)))
       (log w ++ [DbBegin; DbInsertTransaction (uuid env); DbInsertMeta k;
                  DbRollback])).
Proof.
  intros Hf1 Hf2. run_service Hkey Hschema Hbegin. rewrite Hf1. cbn -[on_error].
  rewrite Hf2. cbn -[on_error].
  finish_service.
Qed.

(** The key is not written as a UUID: the insert of the idempotency record
    is refused. *)
Lemma createTransaction_key_not_uuid :
  transaction_create_fault env = None ->
  meta_create_fault env = None ->
  Uuid.valid k = false ->
  createTransaction cfg env k h t w =
    (Throw (caught env Uuid.syntax_error),
     mkWorld (redis w) (db w) (rolled_back env (Some (row_inserted env data w)))
       (log w ++ [DbBegin; DbInsertTransaction (uuid env); DbInsertMeta k;
                  DbRollback])).
Proof.
  intros Hf1 Hf2 Hu. run_service Hkey Hschema Hbegin. rewrite Hf1. cbn -[on_error].
  rewrite Hf2, Hu. cbn -[on_error].
  finish_service.
Qed.

(** The insert of the idempotency record hits the primary key. *)
Lemma createTransaction_key_taken :
  transaction_create_fault env = None ->
  meta_create_fault env = None ->
  Uuid.valid k = true ->
  IdempotencyMetaModel.key_taken k (db w) = true ->
  createTransaction cfg env k h t w =
    (Throw (caught env key_not_unique),
     mkWorld (redis w) (db w) (rolled_back env (Some (row_inserted env data w)))
       (log w ++ [DbBegin; DbInsertTransaction (uuid env); DbInsertMeta k;
                  DbRollback])).
Proof.
  intros Hf1 Hf2 Hu Htaken. run_service Hkey Hschema Hbegin. rewrite Hf1.
  cbn -[on_error]. rewrite Hf2, Hu. cbn -[on_error].
  unfold IdempotencyMetaModel.key_taken in *. cbn -[on_error]. rewrite Htaken.
  finish_service.
Qed.

(** The cache write fails. *)
Lemma createTransaction_cache_fails f :
  transaction_create_fault env = None ->
  meta_create_fault env = None ->
  Uuid.valid k = true ->
  IdempotencyMetaModel.key_taken k (db w) = false ->
  redis_set_fault env = Some f ->
  createTransaction cfg env k h t w =
    (Throw (caught env (exn_of_set_fault f)),
     mkWorld (redis w) (db w)
       (rolled_back env (Some (committed cfg env k h data w)))
       (log w ++ [DbBegin; DbInsertTransaction (uuid env); DbInsertMeta k;
                  RedisSet (redisKey cfg k); DbRollback])).
Proof.
  intros Hf1 Hf2 Hu Htaken Hf3. run_service Hkey Hschema Hbegin. rewrite Hf1.
  cbn -[on_error]. rewrite Hf2, Hu. cbn -[on_error].
  unfold IdempotencyMetaModel.key_taken in *. cbn -[on_error]. rewrite Htaken.
  cbn -[on_error]. rewrite Hf3. destruct f; finish_service.
Qed.

(** The commit fails: the cache entry has been written already. *)
Lemma createTransaction_commit_fails f :
  transaction_create_fault env = None ->
  meta_create_fault env = None ->
  Uuid.valid k = true ->
  IdempotencyMetaModel.key_taken k (db w) = false ->
  redis_set_fault env = None ->
  commit_fault env = Some f ->
  createTransaction cfg env k h t w =
    (Throw (caught env (exn_of_DbFault f)),
     mkWorld (cache_written cfg env k h data w) (db w)
       (rolled_back env (Some (committed cfg env k h data w)))
       (log w ++ [DbBegin; DbInsertTransaction (uuid env); DbInsertMeta k;
                  RedisSet (redisKey cfg k); DbCommit; DbRollback])).
Proof.
  intros Hf1 Hf2 Hu Htaken Hf3 Hf4. run_service Hkey Hschema Hbegin. rewrite Hf1.
  cbn -[on_error]. rewrite Hf2, Hu. cbn -[on_error].
  unfold IdempotencyMetaModel.key_taken in *. cbn -[on_error]. rewrite Htaken.
  cbn -[on_error]. rewrite Hf3. cbn -[on_error]. rewrite Hf4. cbn -[on_error].
  finish_service.
Qed.

(** Nothing fails. *)
Lemma createTransaction_succeeds :
  transaction_create_fault env = None ->
  meta_create_fault env = None ->
  Uuid.valid k = true ->
  IdempotencyMetaModel.key_taken k (db w) = false ->
  redis_set_fault env = None ->
  commit_fault env = None ->
  createTransaction cfg env k h t w =
    (Ok (response_of (new_row env data)),
     mkWorld (cache_written cfg env k h data w) (committed cfg env k h data w) None
       (log w ++ [DbBegin; DbInsertTransaction (uuid env); DbInsertMeta k;
                  RedisSet (redisKey cfg k); DbCommit])).
Proof.
  intros Hf1 Hf2 Hu Htaken Hf3 Hf4. run_service Hkey Hschema Hbegin. rewrite Hf1.
  cbn -[on_error]. rewrite Hf2, Hu. cbn -[on_error].
  unfold IdempotencyMetaModel.key_taken in *. cbn -[on_error]. rewrite Htaken.
  cbn -[on_error]. rewrite Hf3. cbn -[on_error]. rewrite Hf4. cbn -[on_error].
  finish_service.
Qed.

End Cases.

(** Every run of the service is one of the runs listed. *)
Lemma createTransaction_runs cfg env k h t w r w' :
  createTransaction cfg env k h t w = (r, w') ->
  service_run cfg env k h t w r w'.
Proof.
  intros Hrun.
  destruct (invalid_key k) eqn:Hkey.
  { rewrite createTransaction_invalid_key in Hrun by exact Hkey.
    injection Hrun as <- <-. now constructor. }
  destruct (safeParse t) as [data|] eqn:Hschema.
  2:{ rewrite createTransaction_invalid_request in Hrun by assumption.
      injection Hrun as <- <-. now constructor. }
  destruct (begin_fault env) as [g|] eqn:Hbegin.
  { rewrite (createTransaction_begin_fails _ _ _ _ _ _ _ _ Hkey Hschema Hbegin) in Hrun.
    injection Hrun as <- <-. now apply svc_begin_fails with data. }
  destruct (transaction_create_fault env) as [f|] eqn:Hf1.
  { rewrite (createTransaction_row_fails _ _ _ _ _ _ _ Hkey Hschema Hbegin _ Hf1)
      in Hrun.
    injection Hrun as <- <-. now apply svc_row_fails with data. }
  destruct (meta_create_fault env) as [f|] eqn:Hf2.
  { rewrite (createTransaction_record_fails _ _ _ _ _ _ _ Hkey Hschema Hbegin _ Hf1 Hf2)
      in Hrun.
    injection Hrun as <- <-. now apply svc_record_fails. }
  destruct (Uuid.valid k) eqn:Hu.
  2:{ rewrite (createTransaction_key_not_uuid _ _ _ _ _ _ _ Hkey Hschema Hbegin Hf1 Hf2 Hu)
        in Hrun.
      injection Hrun as <- <-. now apply svc_key_not_uuid. }
  destruct (IdempotencyMetaModel.key_taken k (db w)) eqn:Htaken.
  { rewrite (createTransaction_key_taken _ _ _ _ _ _ _ Hkey Hschema Hbegin Hf1 Hf2 Hu
               Htaken) in Hrun.
    injection Hrun as <- <-. now apply svc_key_taken. }
  destruct (redis_set_fault env) as [f|] eqn:Hf3.
  { rewrite (createTransaction_cache_fails _ _ _ _ _ _ _ Hkey Hschema Hbegin _ Hf1 Hf2
               Hu Htaken Hf3) in Hrun.
    injection Hrun as <- <-. now apply svc_cache_fails. }
  destruct (commit_fault env) as [f|] eqn:Hf4.
  { rewrite (createTransaction_commit_fails _ _ _ _ _ _ _ Hkey Hschema Hbegin _ Hf1 Hf2
               Hu Htaken Hf3 Hf4) in Hrun.
    injection Hrun as <- <-. now apply svc_commit_fails. }
  rewrite (createTransaction_succeeds _ _ _ _ _ _ _ Hkey Hschema Hbegin Hf1 Hf2 Hu
             Htaken Hf3 Hf4) in Hrun.
  injection Hrun as <- <-. now apply svc_succeeds.
Qed.

(** The error that leaves the [catch] clause is an [AppError] exactly when
    the rollback worked. *)
Lemma caught_rollback_fails env e g :
  rollback_fault env = Some g -> caught env e = exn_of_DbFault g.
Proof. unfold caught. now intros ->. Qed.

Lemma caught_rollback_works env e :
  rollback_fault env = None -> caught env e = service_catch e.
Proof. unfold caught. now intros ->. Qed.

Lemma rolled_back_works env d :
  rollback_fault env = None -> rolled_back env d = None.
Proof. unfold rolled_back. now intros ->. Qed.

End Service.

(* ===================================================================== *)
(** ** Write-through execution *)
(* ===================================================================== *)

Section WriteThrough.
Context `{Runtime}.

(** Whatever happens, the committed state afterwards is either the state
    before, or the state before with both the business row and the
    idempotency record added. *)
Lemma createTransaction_all_or_nothing cfg env k h t w r w' :
  createTransaction cfg env k h t w = (r, w') ->
  match r with
  | Throw _ => db w' = db w
  | Ok resp =>
      exists data, safeParse t = Some data /\
                   resp = response_of (new_row env data) /\
                   db w' = committed cfg env k h data w
  end.
Proof.
  intros Hrun. apply createTransaction_runs in Hrun.
  destruct Hrun; try reflexivity. now exists data.
Qed.

(** C6. Once the transaction is open, when the business insert or the insert
    of the idempotency record fails (an error of the database, a key that is
    not a UUID, or the primary key already taken), the service fails, and the
    last thing it does to the stores is the rollback, no commit having been
    attempted. The committed state has neither the business row nor the
    idempotency record: both tables and the cache are what they were. The
    transaction is closed, provided that the rollback itself went through. *)
Theorem rollback_atomicity cfg env k h t data w r w' :
  createTransaction cfg env k h t w = (r, w') ->
  invalid_key k = false ->
  safeParse t = Some data ->
  begin_fault env = None ->
  transaction_create_fault env <> None \/
  meta_create_fault env <> None \/
  Uuid.valid k = false \/
  IdempotencyMetaModel.key_taken k (db w) = true ->
  (exists e, r = Throw e) /\
  transactions (db w') = transactions (db w) /\
  idempotency_meta (db w') = idempotency_meta (db w) /\
  redis w' = redis w /\
  (exists events,
     log w' = (log w ++ DbBegin :: events ++ [DbRollback])%list /\
     ~ In DbCommit events) /\
  (rollback_fault env = None -> txn w' = None).
Proof.
  intros Hrun Hkey Hschema Hbegin Hfail.
  assert (Hclosed : forall d, rollback_fault env = None -> rolled_back env d = None)
    by (intros d; apply rolled_back_works).
  destruct (transaction_create_fault env) as [f|] eqn:Hf1.
  { rewrite (createTransaction_row_fails _ _ _ _ _ _ _ Hkey Hschema Hbegin _ Hf1)
      in Hrun.
    injection Hrun as <- <-. cbn -[rolled_back].
    repeat split; eauto.
    exists [DbInsertTransaction (uuid env)]. split; [reflexivity|].
    simpl. intros [[=]|[]]. }
  assert (Hevents : exists events,
     (log w ++ [DbBegin; DbInsertTransaction (uuid env); DbInsertMeta k; DbRollback]
      = log w ++ DbBegin :: events ++ [DbRollback])%list /\ ~ In DbCommit events).
  { exists [DbInsertTransaction (uuid env); DbInsertMeta k].
    split; [reflexivity|]. simpl. intros [[=]|[[=]|[]]]. }
  destruct (meta_create_fault env) as [f|] eqn:Hf2.
  { rewrite (createTransaction_record_fails _ _ _ _ _ _ _ Hkey Hschema Hbegin _ Hf1 Hf2)
      in Hrun.
    injection Hrun as <- <-. cbn -[rolled_back]. repeat split; eauto. }
  destruct (Uuid.valid k) eqn:Hu.
  2:{ rewrite (createTransaction_key_not_uuid _ _ _ _ _ _ _ Hkey Hschema Hbegin Hf1 Hf2 Hu)
        in Hrun.
      injection Hrun as <- <-. cbn -[rolled_back]. repeat split; eauto. }
  destruct Hfail as [Hfail|[Hfail|[Hfail|Htaken]]]; try congruence.
  rewrite (createTransaction_key_taken _ _ _ _ _ _ _ Hkey Hschema Hbegin Hf1 Hf2 Hu
             Htaken) in Hrun.
  injection Hrun as <- <-. cbn -[rolled_back]. repeat split; eauto.
Qed.

(** C2, as the code has it. Once the transaction is open and both inserts
    have gone through, the cache write is attempted before the commit, inside
    the transaction. When it fails, the rollback is attempted without a
    commit, the committed state and the cache are what they were, and an
    error is thrown to the caller: the classified error of the cache write,
    or the error of the rollback when that fails as well. When the cache
    write succeeds, the commit comes after it. *)
Theorem cache_write_inside_transaction cfg env k h t data w r w' :
  createTransaction cfg env k h t w = (r, w') ->
  invalid_key k = false ->
  safeParse t = Some data ->
  begin_fault env = None ->
  transaction_create_fault env = None ->
  meta_create_fault env = None ->
  Uuid.valid k = true ->
  IdempotencyMetaModel.key_taken k (db w) = false ->
  match redis_set_fault env with
  | Some f =>
      r = Throw match rollback_fault env with
                | None => service_catch (exn_of_set_fault f)
                | Some g => exn_of_DbFault g
                end /\
      db w' = db w /\ redis w' = redis w /\
      log w' = (log w ++ [DbBegin; DbInsertTransaction (uuid env); DbInsertMeta k;
                          RedisSet (redisKey cfg k); DbRollback])%list
  | None =>
      exists rest,
        log w' = (log w ++ [DbBegin; DbInsertTransaction (uuid env); DbInsertMeta k;
                            RedisSet (redisKey cfg k); DbCommit] ++ rest)%list
  end.
Proof.
  intros Hrun Hkey Hschema Hbegin Hf1 Hf2 Hu Htaken.
  destruct (redis_set_fault env) as [f|] eqn:Hf3.
  - rewrite (createTransaction_cache_fails _ _ _ _ _ _ _ Hkey Hschema Hbegin _ Hf1 Hf2
               Hu Htaken Hf3) in Hrun.
    injection Hrun as <- <-. unfold caught.
    now destruct (rollback_fault env).
  - destruct (commit_fault env) as [f|] eqn:Hf4.
    + rewrite (createTransaction_commit_fails _ _ _ _ _ _ _ Hkey Hschema Hbegin _ Hf1
                 Hf2 Hu Htaken Hf3 Hf4) in Hrun.
      injection Hrun as <- <-. now exists [DbRollback].
    + rewrite (createTransaction_succeeds _ _ _ _ _ _ _ Hkey Hschema Hbegin Hf1 Hf2 Hu
                 Htaken Hf3 Hf4) in Hrun.
      injection Hrun as <- <-. now exists [].
Qed.

(** C3, as the code has it. When the insert of the idempotency record hits
    the primary key, the service attempts the rollback and throws to the
    caller: a BadRequest for a validation error, or the error of the rollback
    when that fails. It runs no lookup, and the committed state and the cache
    are what they were. *)
Theorem unique_violation_surfaces cfg env k h t data w r w' :
  createTransaction cfg env k h t w = (r, w') ->
  invalid_key k = false ->
  safeParse t = Some data ->
  begin_fault env = None ->
  transaction_create_fault env = None ->
  meta_create_fault env = None ->
  Uuid.valid k = true ->
  IdempotencyMetaModel.key_taken k (db w) = true ->
  r = Throw match rollback_fault env with
            | None => EApp (mkAppError BadRequest "Validation errors occurred")
            | Some g => exn_of_DbFault g
            end /\
  db w' = db w /\ redis w' = redis w /\
  exists events,
    log w' = (log w ++ events)%list /\ existsb is_lookup events = false /\
    List.last events DbBegin = DbRollback.
Proof.
  intros Hrun Hkey Hschema Hbegin Hf1 Hf2 Hu Htaken.
  rewrite (createTransaction_key_taken _ _ _ _ _ _ _ Hkey Hschema Hbegin Hf1 Hf2 Hu
             Htaken) in Hrun.
  injection Hrun as <- <-. cbn -[rolled_back]. repeat split.
  now exists [DbBegin; DbInsertTransaction (uuid env); DbInsertMeta k; DbRollback].
Qed.

End WriteThrough.

(* ===================================================================== *)
(** ** Replay of an admitted request *)
(* ===================================================================== *)

Section Replay.
Context `{Runtime}.

(** What an answer of the block run on a found record looks like. *)
Lemma replay_or_reject_Ok env h record w o w1 :
  replay_or_reject env h record w = (Ok o, w1) ->
  w1 = w /\ bodyHash record = h /\ is_expired record (now env) = false /\
  exists data, JSON_parse (responsePayload record) = Some data /\
    o = Responded (mkHttpResponse 200 "Transaction already processed" data).
Proof.
  rewrite replay_or_reject_cases.
  destruct (bodyHash record =? h)%string eqn:Hh; simpl; [|discriminate].
  destruct (is_expired _ _); [discriminate|].
  destruct (JSON_parse _) as [data|]; [|discriminate].
  intros [= <- <-]. apply String.eqb_eq in Hh.
  repeat split; [exact Hh|]. now exists data.
Qed.

(** When the middleware calls [next()], both lookups have run and missed. *)
Lemma middleware_Next_inv cfg env req w ctx w1 :
  idempotencyMiddleware cfg env req w = (Ok (Next ctx), w1) ->
  exists k,
    method_ok req = true /\
    header_key (headers req !! idempotencyKeyHeaderName cfg) = Some k /\
    ctx = mkIdempotencyInterface k (requestBodyHash_of req) /\
    redis_get_fault env = None /\
    findOne_fault env = None /\
    Uuid.valid k = true /\
    w1 = mkWorld (redis w) (db w) (txn w)
           (log w ++ [RedisGet (redisKey cfg k);
                      DbFindOne k (requestBodyHash_of req)]).
Proof.
  intros Hrun.
  destruct (method_ok req) eqn:Hm.
  2:{ rewrite middleware_method_rejected in Hrun by exact Hm. discriminate. }
  destruct (header_key (headers req !! idempotencyKeyHeaderName cfg)) as [k|] eqn:Hk.
  2:{ rewrite middleware_key_rejected in Hrun by assumption. discriminate. }
  exists k.
  destruct (RedisUtil.get env (redisKey cfg k) w) as [[[record|]|e0] wa] eqn:Hget.
  - rewrite (middleware_cache_hit _ _ _ _ _ _ _ Hm Hk Hget) in Hrun.
    destruct (replay_or_reject _ _ _ _) as [[o|e1] w2] eqn:Hrr; [|discriminate].
    apply replay_or_reject_Ok in Hrr as (_ & _ & _ & data & _ & ->). discriminate.
  - rewrite (middleware_cache_miss _ _ _ _ _ _ Hm Hk Hget) in Hrun.
    destruct (IdempotencyMetaModel.findOne _ _ _ _) as [[[record|]|e1] wb] eqn:Hfind.
    + destruct (replay_or_reject _ _ _ _) as [[o|e1] w2] eqn:Hrr; [|discriminate].
      apply replay_or_reject_Ok in Hrr as (_ & _ & _ & data & _ & ->). discriminate.
    + injection Hrun as <- <-.
      pose proof (redis_get_log _ _ _ _ _ Hget) as ->.
      pose proof (findOne_log _ _ _ _ _ _ Hfind) as ->. simpl.
      apply findOne_Ok in Hfind as (Hf & Hu & _).
      repeat split; try reflexivity; try assumption.
      * unfold RedisUtil.get, bind, emit, throw in Hget. simpl in Hget.
        destruct (redis_get_fault env) as [[|]|]; [discriminate..|reflexivity].
      * now rewrite <- List.app_assoc.
    + discriminate.
  - rewrite (middleware_cache_throws _ _ _ _ _ _ _ Hm Hk Hget) in Hrun. discriminate.
Qed.

(** An answer of the middleware itself has status 200. *)
Lemma middleware_Responded_status cfg env req w r w1 :
  idempotencyMiddleware cfg env req w = (Ok (Responded r), w1) ->
  res_status r = 200.
Proof.
  intros Hrun.
  destruct (method_ok req) eqn:Hm.
  2:{ rewrite middleware_method_rejected in Hrun by exact Hm. discriminate. }
  destruct (header_key (headers req !! idempotencyKeyHeaderName cfg)) as [k|] eqn:Hk.
  2:{ rewrite middleware_key_rejected in Hrun by assumption. discriminate. }
  destruct (RedisUtil.get env (redisKey cfg k) w) as [[[record|]|e0] wa] eqn:Hget.
  - rewrite (middleware_cache_hit _ _ _ _ _ _ _ Hm Hk Hget) in Hrun.
    destruct (replay_or_reject _ _ _ _) as [[o|e1] w2] eqn:Hrr; [|discriminate].
    apply replay_or_reject_Ok in Hrr as (_ & _ & _ & data & _ & ->).
    now injection Hrun as <- _.
  - rewrite (middleware_cache_miss _ _ _ _ _ _ Hm Hk Hget) in Hrun.
    destruct (IdempotencyMetaModel.findOne _ _ _ _) as [[[record|]|e1] wb] eqn:Hfind.
    + destruct (replay_or_reject _ _ _ _) as [[o|e1] w2] eqn:Hrr; [|discriminate].
      apply replay_or_reject_Ok in Hrr as (_ & _ & _ & data & _ & ->).
      now injection Hrun as <- _.
    + discriminate.
    + discriminate.
  - rewrite (middleware_cache_throws _ _ _ _ _ _ _ Hm Hk Hget) in Hrun. discriminate.
Qed.

(** A successful run of the service went through every step. *)
Lemma createTransaction_Ok_inv cfg env k h t w resp w' :
  createTransaction cfg env k h t w = (Ok resp, w') ->
  invalid_key k = false /\
  Uuid.valid k = true /\
  IdempotencyMetaModel.key_taken k (db w) = false /\
  exists data,
    safeParse t = Some data /\
    resp = response_of (new_row env data) /\
    w' = mkWorld (cache_written cfg env k h data w) (committed cfg env k h data w) None
           (log w ++ [DbBegin; DbInsertTransaction (uuid env); DbInsertMeta k;
                      RedisSet (redisKey cfg k); DbCommit]).
Proof.
  intros Hrun. apply createTransaction_runs in Hrun.
  inversion Hrun; subst. repeat split; try assumption. now exists data.
Qed.

(** The lookup by key and hash finds a record that was appended to a table
    in which its key was free. *)
Lemma find_appended k h record rows :
  existsb (fun r => (key r =? k)%string) rows = false ->
  key record = k -> bodyHash record = h ->
  List.find (IdempotencyMetaModel.matches k h) (rows ++ [record]) = Some record.
Proof.
  intros Hfree Hk Hh. induction rows as [|r rows IH]; simpl.
  - unfold IdempotencyMetaModel.matches. rewrite Hk, Hh.
    now rewrite !String.eqb_refl.
  - simpl in Hfree. apply orb_false_iff in Hfree as [Hr Hrows].
    unfold IdempotencyMetaModel.matches at 1. rewrite Hr. simpl. now apply IH.
Qed.

(** A request that was admitted and answered with 201: what it left. *)
Lemma postTransaction_created_inv cfg env req w resp w' :
  postTransaction cfg env req w = (Ok resp, w') ->
  res_status resp = 201 ->
  exists k data,
    method_ok req = true /\
    header_key (headers req !! idempotencyKeyHeaderName cfg) = Some k /\
    Uuid.valid k = true /\
    IdempotencyMetaModel.key_taken k (db w) = false /\
    resp = mkHttpResponse 201 "Transaction created successfully"
             (toJSON (response_of (new_row env data))) /\
    redis w' = cache_written cfg env k (requestBodyHash_of req) data w /\
    db w' = committed cfg env k (requestBodyHash_of req) data w /\
    txn w' = None.
Proof.
  intros Hrun Hstatus. unfold postTransaction, bind in Hrun.
  destruct (idempotencyMiddleware cfg env req w) as [[[r|ctx]|e] w1] eqn:Hmw;
    [| |discriminate].
  - apply middleware_Responded_status in Hmw.
    injection Hrun as <- _. rewrite Hmw in Hstatus. discriminate.
  - apply middleware_Next_inv in Hmw as (k & Hm & Hk & -> & _ & _ & Hu & ->).
    unfold TransactionController_createTransaction in Hrun. simpl in Hrun.
    destruct (safeParse_body (body req)) as [t|]; [|discriminate].
    destruct (JsString.truthy k && JsString.truthy (requestBodyHash_of req));
      [|discriminate].
    unfold bind in Hrun.
    destruct (createTransaction _ _ _ _ _ _) as [[tr|e] w2] eqn:Hsvc; [|discriminate].
    injection Hrun as <- <-.
    apply createTransaction_Ok_inv in Hsvc as (_ & _ & Htaken & data & _ & -> & ->).
    exists k, data. simpl in *. repeat split; try assumption; reflexivity.
Qed.

(** C4. A request that was admitted and answered with 201 is answered, when
    it is sent again while both lookups work and the record has not expired,
    with 200 and the same response data, and the table of business records
    has gained the one row of the first run and nothing else. *)
Theorem replay_idempotence cfg env1 env2 req w0 resp1 w1 r2 w2 :
  postTransaction cfg env1 req w0 = (Ok resp1, w1) ->
  res_status resp1 = 201 ->
  postTransaction cfg env2 req w1 = (r2, w2) ->
  redis_get_fault env2 = None ->
  findOne_fault env2 = None ->
  now env2 <= expiry_instant cfg env1 ->
  JSON_parse (JSON_stringify (res_data resp1)) = Some (res_data resp1) ->
  r2 = Ok (mkHttpResponse 200 "Transaction already processed" (res_data resp1)) /\
  (exists row, transactions (db w2) = (transactions (db w0) ++ [row])%list) /\
  db w2 = db w1.
Proof.
  intros Hrun1 Hstatus Hrun2 Hg Hf Hnow Hjson.
  apply postTransaction_created_inv in Hrun1
    as (k & data & Hm & Hk & Hu & Htaken & -> & Hredis & Hdb & Htxn);
    [|exact Hstatus].
  simpl in Hjson.
  set (h := requestBodyHash_of req) in *.
  set (record := new_record cfg env1 k h data) in *.
  assert (Hrr : forall w, replay_or_reject env2 h record w =
             (Ok (Responded (mkHttpResponse 200 "Transaction already processed"
                   (toJSON (response_of (new_row env1 data))))), w)).
  { intros w. rewrite replay_or_reject_cases. subst record. simpl.
    rewrite String.eqb_refl. simpl. unfold is_expired. simpl.
    replace (expiry_instant cfg env1 <? now env2) with false
      by (symmetry; apply Z.ltb_ge; exact Hnow).
    now rewrite Hjson. }
  assert (Hmw : exists w', idempotencyMiddleware cfg env2 req w1 =
             (Ok (Responded (mkHttpResponse 200 "Transaction already processed"
                   (toJSON (response_of (new_row env1 data))))), w') /\ db w' = db w1).
  { destruct (RedisUtil.get env2 (redisKey cfg k) w1) as [[[cached|]|e] wa] eqn:Hget.
    - pose proof (redis_get_log _ _ _ _ _ Hget) as Hwa.
      assert (cached = record) as ->.
      { unfold RedisUtil.get, bind, emit, throw in Hget. simpl in Hget.
        rewrite Hg, Hredis in Hget. unfold cache_written in Hget.
        cbn [redis] in Hget. rewrite lookup_insert_eq in Hget.
        destruct (_ <? _); [|discriminate].
        injection Hget as Hc _. now symmetry. }
      rewrite (middleware_cache_hit _ _ _ _ _ _ _ Hm Hk Hget). fold h.
      rewrite Hrr. exists wa. split; [reflexivity|]. now rewrite Hwa.
    - pose proof (redis_get_log _ _ _ _ _ Hget) as Hwa.
      rewrite (middleware_cache_miss _ _ _ _ _ _ Hm Hk Hget). fold h.
      destruct (IdempotencyMetaModel.findOne env2 k h wa) as [found wb] eqn:Hfind.
      pose proof (findOne_log _ _ _ _ _ _ Hfind) as Hwb.
      unfold IdempotencyMetaModel.findOne, bind, emit, throw in Hfind.
      simpl in Hfind. rewrite Hf, Hu in Hfind. rewrite Hwa in Hfind.
      simpl in Hfind. rewrite Hdb in Hfind. unfold committed in Hfind. simpl in Hfind.
      rewrite (find_appended k h record) in Hfind by (try reflexivity; exact Htaken).
      injection Hfind as <- _. rewrite Hrr.
      exists wb. split; [reflexivity|]. rewrite Hwb, Hwa. reflexivity.
    - unfold RedisUtil.get, bind, emit, throw in Hget. simpl in Hget.
      rewrite Hg in Hget. cbn [redis] in Hget.
      destruct (redis w1 !! redisKey cfg k) as [[v d]|];
        [destruct (now env2 <? d)|]; discriminate. }
  destruct Hmw as (w' & Hmw & Hsame).
  unfold postTransaction, bind in Hrun2. rewrite Hmw in Hrun2.
  injection Hrun2 as <- <-. simpl. split; [reflexivity|].
  split; [|exact Hsame].
  rewrite Hsame, Hdb. simpl. now exists (new_row env1 data).
Qed.

End Replay.

(* ===================================================================== *)
(** ** Conflicts: the cache detects them, the database lookup does not *)
(* ===================================================================== *)

Section Conflicts.
Context `{Runtime}.

(** X7. A cached record with another fingerprint makes the middleware fail
    with a Conflict, whether or not the record has expired and whatever its
    payload: the fingerprints are compared first. *)
Lemma cached_conflict_detected cfg env req k record w w1 :
  method_ok req = true ->
  header_key (headers req !! idempotencyKeyHeaderName cfg) = Some k ->
  RedisUtil.get env (redisKey cfg k) w = (Ok (Some record), w1) ->
  bodyHash record <> requestBodyHash_of req ->
  idempotencyMiddleware cfg env req w = (Throw conflict_error, w1).
Proof.
  intros Hm Hk Hget Hdiff.
  rewrite (middleware_cache_hit _ _ _ _ _ _ _ Hm Hk Hget), replay_or_reject_cases.
  apply String.eqb_neq in Hdiff. now rewrite Hdiff.
Qed.

(** After a cache miss, a record of the database with the same key, a UUID,
    and another fingerprint is not found: the request is admitted. *)
Lemma durable_conflict_let_through cfg env req k w w1 :
  method_ok req = true ->
  header_key (headers req !! idempotencyKeyHeaderName cfg) = Some k ->
  RedisUtil.get env (redisKey cfg k) w = (Ok None, w1) ->
  findOne_fault env = None ->
  Uuid.valid k = true ->
  (forall record, In record (idempotency_meta (db w)) ->
                  key record = k -> bodyHash record <> requestBodyHash_of req) ->
  idempotencyMiddleware cfg env req w =
    (Ok (Next (mkIdempotencyInterface k (requestBodyHash_of req))),
     mkWorld (redis w) (db w) (txn w)
       (log w ++ [RedisGet (redisKey cfg k); DbFindOne k (requestBodyHash_of req)])).
Proof.
  intros Hm Hk Hget Hf Hu Hrows.
  rewrite (middleware_cache_miss _ _ _ _ _ _ Hm Hk Hget).
  pose proof (redis_get_log _ _ _ _ _ Hget) as ->.
  unfold IdempotencyMetaModel.findOne, bind, emit, throw. simpl. rewrite Hf, Hu.
  destruct (List.find _ _) as [record|] eqn:Hfind.
  - apply List.find_some in Hfind as [Hin Hmatch].
    unfold IdempotencyMetaModel.matches in Hmatch.
    apply andb_true_iff in Hmatch as [Hkey Hhash].
    apply String.eqb_eq in Hkey, Hhash.
    now destruct (Hrows record Hin Hkey).
  - now rewrite <- List.app_assoc.
Qed.

End Conflicts.

(* ===================================================================== *)
(** ** Which keys pass the key check *)
(* ===================================================================== *)

Section KeyShape.
Context `{Runtime}.

Lemma all_white_space_rev_app (s acc : string) :
  JsString.all_white_space (String.rev_app s acc)
  = JsString.all_white_space s && JsString.all_white_space acc.
Proof.
  revert acc. induction s as [|c s IH]; intros acc; simpl; [reflexivity|].
  rewrite IH. simpl.
  destruct (JsString.is_white_space c), (JsString.all_white_space s); reflexivity.
Qed.

Lemma all_white_space_rev (s : string) :
  JsString.all_white_space (String.rev s) = JsString.all_white_space s.
Proof.
  unfold String.rev. rewrite all_white_space_rev_app. simpl. apply andb_true_r.
Qed.

Lemma rev_app_empty (s acc : string) :
  String.rev_app s acc = "" -> s = "" /\ acc = "".
Proof.
  revert acc. induction s as [|c s IH]; intros acc; simpl; [now intros ->|].
  intros Hrev. apply IH in Hrev as [_ Hacc]. discriminate.
Qed.

Lemma trimStart_empty (s : string) :
  JsString.trimStart s = "" -> JsString.all_white_space s = true.
Proof.
  induction s as [|c s IH]; simpl; [reflexivity|].
  destruct (JsString.is_white_space c); [exact IH | discriminate].
Qed.

(** What is left of [trimStart] is white space only when the string was. *)
Lemma trimStart_white_space (s : string) :
  JsString.all_white_space (JsString.trimStart s) = JsString.all_white_space s.
Proof.
  induction s as [|c s IH]; simpl; [reflexivity|].
  destruct (JsString.is_white_space c) eqn:Hc; simpl; [exact IH|].
  now rewrite Hc.
Qed.

(** [trim] leaves the empty string exactly for the strings of white space. *)
Lemma trim_empty_iff (s : string) :
  JsString.trim s = "" <-> JsString.all_white_space s = true.
Proof.
  split; [|apply trim_all_white_space].
  unfold JsString.trim, JsString.trimEnd, String.rev at 1. intros Htrim.
  apply rev_app_empty in Htrim as [Htrim _].
  apply trimStart_empty in Htrim.
  now rewrite all_white_space_rev, trimStart_white_space in Htrim.
Qed.

Lemma invalid_key_iff (k : string) :
  invalid_key k = JsString.all_white_space k.
Proof.
  unfold invalid_key.
  destruct (JsString.all_white_space k) eqn:Hws.
  - apply trim_empty_iff in Hws. rewrite Hws. simpl. apply orb_true_r.
  - destruct (JsString.trim k =? "")%string eqn:Ht.
    + apply String.eqb_eq, trim_empty_iff in Ht. congruence.
    + rewrite orb_false_r. unfold JsString.truthy. rewrite negb_involutive.
      destruct k; [discriminate Hws | reflexivity].
Qed.

(** X1. The key test of the middleware lets a header value through exactly
    when it is a string with at least one character that is not white
    space, and it hands that string over unchanged. *)
Theorem header_key_accepts (v : option HeaderValue) (k : string) :
  header_key v = Some k <->
  v = Some (HString k) /\ JsString.all_white_space k = false.
Proof.
  split.
  - intros Hk. apply header_key_valid in Hk as [-> Hk].
    now rewrite invalid_key_iff in Hk.
  - intros [-> Hws]. simpl. now rewrite invalid_key_iff, Hws.
Qed.

End KeyShape.

(* ===================================================================== *)
(** ** The middleware: every run *)
(* ===================================================================== *)

Section MiddlewareRuns.
Context `{Runtime}.

Lemma with_events_nil (w : World) : with_events w [] = w.
Proof. destruct w. unfold with_events. simpl. now rewrite List.app_nil_r. Qed.

Lemma with_events_app (w : World) (evs1 evs2 : list Event) :
  with_events (with_events w evs1) evs2 = with_events w (evs1 ++ evs2).
Proof. unfold with_events. simpl. now rewrite <- List.app_assoc. Qed.

(** The block run on a found record, after the [catch] clause. *)
Lemma replay_or_reject_decision env h record w :
  match replay_or_reject env h record w with
  | (Ok o, w1) => (Ok o, w1)
  | (Throw e, w1) => (Throw (middleware_catch e), w1)
  end = (decision env h record, w).
Proof.
  rewrite replay_or_reject_cases. unfold decision.
  destruct (negb _); [reflexivity|].
  destruct (is_expired _ _); [reflexivity|].
  now destruct (JSON_parse _).
Qed.

Lemma middleware_runs cfg env req w r w' :
  idempotencyMiddleware cfg env req w = (r, w') ->
  middleware_run cfg env req w r w'.
Proof.
  intros Hrun.
  destruct (method_ok req) eqn:Hm.
  2:{ rewrite middleware_method_rejected in Hrun by exact Hm.
      injection Hrun as <- <-. now constructor. }
  destruct (header_key (headers req !! idempotencyKeyHeaderName cfg)) as [k|] eqn:Hk.
  2:{ rewrite middleware_key_rejected in Hrun by assumption.
      injection Hrun as <- <-. now constructor. }
  destruct (RedisUtil.get env (redisKey cfg k) w) as [got wa] eqn:Hget.
  pose proof (redis_get_log _ _ _ _ _ Hget) as Hwa.
  change (wa = with_events w [RedisGet (redisKey cfg k)]) in Hwa. subst wa.
  destruct got as [[record|]|e].
  - rewrite (middleware_cache_hit _ _ _ _ _ _ _ Hm Hk Hget),
      replay_or_reject_decision in Hrun.
    injection Hrun as <- <-. now apply run_cache_hit.
  - rewrite (middleware_cache_miss _ _ _ _ _ _ Hm Hk Hget) in Hrun.
    destruct (IdempotencyMetaModel.findOne _ _ _ _) as [found wb] eqn:Hfind.
    pose proof (findOne_log _ _ _ _ _ _ Hfind) as Hwb.
    change (wb = with_events (with_events w [RedisGet (redisKey cfg k)])
                   [DbFindOne k (requestBodyHash_of req)]) in Hwb.
    rewrite with_events_app in Hwb. simpl in Hwb. subst wb.
    destruct found as [[record|]|e].
    + rewrite replay_or_reject_decision in Hrun.
      injection Hrun as <- <-. now apply run_db_hit.
    + injection Hrun as <- <-. now apply run_db_miss.
    + injection Hrun as <- <-. now apply run_db_throws.
  - rewrite (middleware_cache_throws _ _ _ _ _ _ _ Hm Hk Hget) in Hrun.
    injection Hrun as <- <-. now apply run_cache_throws.
Qed.

End MiddlewareRuns.

(* ===================================================================== *)
(** ** The middleware: what it touches and what it throws *)
(* ===================================================================== *)

Section MiddlewareFrame.
Context `{Runtime}.

Lemma middleware_keeps_stores cfg env req w r w' :
  idempotencyMiddleware cfg env req w = (r, w') ->
  redis w' = redis w /\ db w' = db w /\ txn w' = txn w.
Proof.
  intros Hrun. apply middleware_runs in Hrun.
  destruct Hrun; repeat split; reflexivity.
Qed.

(** X2. Whatever the middleware does, it leaves the cache, the committed
    database and the open transaction as they were; all it adds to the log
    of accesses is nothing, the cache lookup, or the cache lookup followed by
    the database lookup. *)
Theorem middleware_reads_only cfg env req w r w' :
  idempotencyMiddleware cfg env req w = (r, w') ->
  redis w' = redis w /\ db w' = db w /\ txn w' = txn w /\
  exists events,
    w' = with_events w events /\
    (events = [] \/
     exists k,
       header_key (headers req !! idempotencyKeyHeaderName cfg) = Some k /\
       (events = [RedisGet (redisKey cfg k)] \/
        events = [RedisGet (redisKey cfg k);
                  DbFindOne k (requestBodyHash_of req)])).
Proof.
  intros Hrun. apply middleware_runs in Hrun.
  destruct Hrun as [Hm | Hm Hk | k e Hm Hk Hget | k record Hm Hk Hget
                   | k e Hm Hk Hget Hfind | k record Hm Hk Hget Hfind
                   | k Hm Hk Hget Hfind];
    repeat split; try reflexivity.
  1,2: exists []; split; [symmetry; apply with_events_nil | now left].
  all: eexists; split; [reflexivity|]; right; exists k; split; [exact Hk|]; auto.
Qed.

Lemma decision_throws env h record e :
  decision env h record = Throw e ->
  e = conflict_error \/ e = expired_error \/ e = lookup_error.
Proof.
  unfold decision.
  destruct (negb _); [intros [= <-]; auto|].
  destruct (is_expired _ _); [intros [= <-]; auto|].
  destruct (JSON_parse _); [discriminate|]. intros [= <-]; auto.
Qed.

(** X3. Every error the middleware throws is an [AppError] of one of six
    kinds: a failure of a store never leaves it as a raw error. *)
Theorem middleware_throws_AppError cfg env req w e w' :
  idempotencyMiddleware cfg env req w = (Throw e, w') ->
  exists a, e = EApp a /\ In (kind a) middleware_kinds.
Proof.
  intros Hrun. apply middleware_runs in Hrun.
  inversion Hrun as [Hm | Hm Hk | k e0 Hm Hk Hget | k record Hm Hk Hget
                    | k e0 Hm Hk Hget Hfind | k record Hm Hk Hget Hfind
                    | k Hm Hk Hget Hfind]; subst.
  - eexists; split; [reflexivity|]. simpl; auto.
  - eexists; split; [reflexivity|]. simpl; auto.
  - apply redis_get_throws in Hget as [-> | ->];
      (eexists; split; [reflexivity|]; simpl; auto 10).
  - match goal with Hd : decision _ _ _ = Throw _ |- _ =>
      apply decision_throws in Hd as [-> | [-> | ->]] end;
      (eexists; split; [reflexivity|]; simpl; auto 10).
  - apply findOne_throws in Hfind. unfold middleware_catch. rewrite Hfind.
    eexists; split; [reflexivity|]; simpl; auto 10.
  - match goal with Hd : decision _ _ _ = Throw _ |- _ =>
      apply decision_throws in Hd as [-> | [-> | ->]] end;
      (eexists; split; [reflexivity|]; simpl; auto 10).
Qed.

(** X4. A failure of the cache lookup is not taken for a cache miss: the
    middleware throws, and the database is not asked. A rejected command is
    wrapped as an internal error; unparsable cached data comes out as the
    error of [RedisUtil.get]. *)
Theorem cache_failure_stops_lookup cfg env req k f w :
  method_ok req = true ->
  header_key (headers req !! idempotencyKeyHeaderName cfg) = Some k ->
  redis_get_fault env = Some f ->
  idempotencyMiddleware cfg env req w =
    (Throw match f with
           | CommandFails => lookup_error
           | BadReply => EApp (mkAppError Plain "Invalid JSON format in cache")
           end,
     with_events w [RedisGet (redisKey cfg k)]).
Proof.
  intros Hm Hk Hf.
  assert (Hget : RedisUtil.get env (redisKey cfg k) w =
            (Throw match f with
                   | CommandFails => EOther
                   | BadReply => EApp (mkAppError Plain "Invalid JSON format in cache")
                   end, with_events w [RedisGet (redisKey cfg k)])).
  { unfold RedisUtil.get, bind, emit, throw. simpl. rewrite Hf. now destruct f. }
  rewrite (middleware_cache_throws _ _ _ _ _ _ _ Hm Hk Hget). now destruct f.
Qed.

(** X5. After a cache miss, a failure of the database lookup, of whatever
    sort, is thrown as the internal error of the middleware: the request is
    not admitted. *)
Theorem database_failure_not_admitted cfg env req k f w w1 :
  method_ok req = true ->
  header_key (headers req !! idempotencyKeyHeaderName cfg) = Some k ->
  RedisUtil.get env (redisKey cfg k) w = (Ok None, w1) ->
  findOne_fault env = Some f ->
  idempotencyMiddleware cfg env req w =
    (Throw lookup_error,
     with_events w [RedisGet (redisKey cfg k);
                    DbFindOne k (requestBodyHash_of req)]).
Proof.
  intros Hm Hk Hget Hf.
  rewrite (middleware_cache_miss _ _ _ _ _ _ Hm Hk Hget).
  pose proof (redis_get_log _ _ _ _ _ Hget) as ->.
  unfold IdempotencyMetaModel.findOne, bind, emit, throw. simpl. rewrite Hf.
  unfold with_events. simpl. rewrite <- List.app_assoc.
  now destruct f.
Qed.

(** X6. The middleware decides the same on a record whichever store it comes
    from: a run that finds it in the cache and a run that misses the cache
    and finds it in the database end with the same answer or the same error. *)
Theorem same_decision_from_either_store cfg env req k record wA wA1 wB wB1 wB2 :
  method_ok req = true ->
  header_key (headers req !! idempotencyKeyHeaderName cfg) = Some k ->
  RedisUtil.get env (redisKey cfg k) wA = (Ok (Some record), wA1) ->
  RedisUtil.get env (redisKey cfg k) wB = (Ok None, wB1) ->
  IdempotencyMetaModel.findOne env k (requestBodyHash_of req) wB1
    = (Ok (Some record), wB2) ->
  fst (idempotencyMiddleware cfg env req wA)
  = fst (idempotencyMiddleware cfg env req wB).
Proof.
  intros Hm Hk HgetA HgetB Hfind.
  rewrite (middleware_cache_hit _ _ _ _ _ _ _ Hm Hk HgetA),
    (middleware_cache_miss _ _ _ _ _ _ Hm Hk HgetB), Hfind,
    !replay_or_reject_decision.
  reflexivity.
Qed.

(** X8. A record whose stored payload is not JSON text cannot be replayed:
    with the matching fingerprint and before its expiry, the middleware
    throws its internal error, from either store. *)
Theorem unreadable_payload_fails cfg env req k record w w1 w2 :
  method_ok req = true ->
  header_key (headers req !! idempotencyKeyHeaderName cfg) = Some k ->
  bodyHash record = requestBodyHash_of req ->
  is_expired record (now env) = false ->
  JSON_parse (responsePayload record) = None ->
  RedisUtil.get env (redisKey cfg k) w = (Ok (Some record), w2) \/
  (RedisUtil.get env (redisKey cfg k) w = (Ok None, w1) /\
   IdempotencyMetaModel.findOne env k (requestBodyHash_of req) w1
     = (Ok (Some record), w2)) ->
  idempotencyMiddleware cfg env req w = (Throw lookup_error, w2).
Proof.
  intros Hm Hk Hhash Hexp Hparse Hfound.
  assert (Hd : decision env (requestBodyHash_of req) record = Throw lookup_error).
  { unfold decision. now rewrite Hhash, String.eqb_refl, Hexp, Hparse. }
  destruct Hfound as [Hget | [Hget Hfind]].
  - now rewrite (middleware_cache_hit _ _ _ _ _ _ _ Hm Hk Hget),
      replay_or_reject_decision, Hd.
  - now rewrite (middleware_cache_miss _ _ _ _ _ _ Hm Hk Hget), Hfind,
      replay_or_reject_decision, Hd.
Qed.

End MiddlewareFrame.

(* ===================================================================== *)
(** ** The service: every run *)
(* ===================================================================== *)

Section ServiceRuns.
Context `{Runtime}.

Lemma service_catch_AppError e :
  (forall a, e = EApp a -> kind a = Plain) ->
  exists a, service_catch e = EApp a /\
            In (kind a) [BadRequest; InternalServerError; Plain].
Proof.
  intros Hplain. destruct e as [a| | |]; simpl.
  - exists a. split; [reflexivity|]. rewrite (Hplain a eq_refl). simpl; auto.
  - eexists; split; [reflexivity|]; simpl; auto.
  - eexists; split; [reflexivity|]; simpl; auto.
  - eexists; split; [reflexivity|]; simpl; auto.
Qed.

(** X9. The [catch] clause of the service turns every error of the steps
    inside the transaction into an [AppError]: a BadRequest, an
    InternalServerError or the error of the cache utility. Two errors leave
    the service as they are: the error of [beginTransaction], which is
    awaited before the [try] block, and the error of [rollbackTransaction],
    which is awaited inside the [catch] clause before the classification. *)
Theorem createTransaction_throws_AppError cfg env k h t w e w' :
  createTransaction cfg env k h t w = (Throw e, w') ->
  (exists a, e = EApp a /\ In (kind a) [BadRequest; InternalServerError; Plain]) \/
  (exists g, begin_fault env = Some g /\ e = exn_of_DbFault g /\
             w' = with_events w [DbBegin]) \/
  (exists g, begin_fault env = None /\ rollback_fault env = Some g /\
             e = exn_of_DbFault g).
Proof.
  intros Hrun. apply createTransaction_runs in Hrun.
  inversion Hrun; subst;
    try (left; eexists; split; [reflexivity|]; simpl; auto; fail);
    try (right; left; eexists; repeat split; eassumption).
  all: destruct (rollback_fault env) as [g|] eqn:Hrb;
    [ right; right; exists g; repeat split; try assumption;
      now apply caught_rollback_fails
    | left; rewrite caught_rollback_works by exact Hrb;
      apply service_catch_AppError;
      try (destruct f; simpl; intros a [=]; subst; reflexivity);
      intros a [=] ].
Qed.




Lemma cache_ttl_window cfg env :
  now env + cache_ttl cfg * 1000 = expiry_instant cfg env.
Proof.
  unfold cache_ttl, expiry_instant.
  destruct (IDEMPOTENCY_TTL_HOURS cfg); lia.
Qed.


End ServiceRuns.

(* ===================================================================== *)
(** ** The route: when it creates *)
(* ===================================================================== *)

Section RouteCreates.
Context `{Runtime}.

(** What passes the schema as a body passes it again as a typed request. *)
Lemma safeParse_body_again b t :
  safeParse_body b = Some t -> safeParse t = Some t.
Proof.
  unfold safeParse_body.
  destruct b as [| | | |items|fields]; try discriminate.
  destruct (get_field "type" fields) as [[| | |ty| |]|]; try discriminate.
  destruct (get_field "amount" fields) as [[| |amt| | |]|]; try discriminate.
  destruct (get_field "consumerId" fields) as [[| | |cid| |]|]; try discriminate.
  intros Hparse. pose proof (safeParse_Some _ _ Hparse) as ->. exact Hparse.
Qed.

Lemma redis_get_run env rk w :
  redis_get_fault env = None ->
  RedisUtil.get env rk w =
    (Ok (match redis w !! rk with
         | Some (v, deadline) => if now env <? deadline then Some v else None
         | None => None
         end), with_events w [RedisGet rk]).
Proof.
  intros Hf. unfold RedisUtil.get, bind, emit, throw. simpl. rewrite Hf.
  cbn [redis].
  destruct (redis w !! rk) as [[v d]|]; [destruct (now env <? d)|]; reflexivity.
Qed.

Lemma redis_get_miss env rk w :
  redis_get_fault env = None ->
  cache_live env w rk = false ->
  RedisUtil.get env rk w = (Ok None, with_events w [RedisGet rk]).
Proof.
  intros Hf Hlive. rewrite redis_get_run by exact Hf.
  unfold cache_live in Hlive.
  destruct (redis w !! rk) as [[v d]|]; [now rewrite Hlive | reflexivity].
Qed.

Lemma findOne_run env k h w :
  findOne_fault env = None ->
  Uuid.valid k = true ->
  IdempotencyMetaModel.findOne env k h w =
    (Ok (List.find (IdempotencyMetaModel.matches k h) (idempotency_meta (db w))),
     with_events w [DbFindOne k h]).
Proof.
  intros Hf Hu. unfold IdempotencyMetaModel.findOne, bind, emit, throw. simpl.
  now rewrite Hf, Hu.
Qed.


(** A run of the route that answers 201 met the conditions of creation. *)
Lemma postTransaction_created_world cfg env req w resp w' :
  postTransaction cfg env req w = (Ok resp, w') ->
  res_status resp = 201 ->
  exists k t,
    creates cfg env req k t w /\
    resp = created_response env t /\
    w' = created_world cfg env req k t w.
Proof.
  intros Hrun Hstatus. unfold postTransaction, bind in Hrun.
  destruct (idempotencyMiddleware cfg env req w) as [[[r|ctx]|e] w1] eqn:Hmw;
    [| |discriminate].
  { apply middleware_Responded_status in Hmw.
    injection Hrun as <- _. rewrite Hmw in Hstatus. discriminate. }
  apply middleware_runs in Hmw.
  inversion Hmw as [ | | | k record Hm Hk Hget | | k record Hm Hk Hget Hfind
                   | k Hm Hk Hget Hfind]; subst.
  1,2: match goal with Hd : decision _ _ _ = Ok (Next _) |- _ =>
         unfold decision in Hd;
         destruct (negb _); [discriminate|];
         destruct (is_expired _ _); [discriminate|];
         destruct (JSON_parse _); discriminate end.
  unfold TransactionController_createTransaction in Hrun. simpl in Hrun.
  destruct (safeParse_body (body req)) as [t|] eqn:Hbody; [|discriminate].
  destruct (JsString.truthy k) eqn:Htk; [|discriminate].
  destruct (JsString.truthy (requestBodyHash_of req)) eqn:Hth; [|discriminate].
  simpl in Hrun. unfold bind in Hrun.
  destruct (createTransaction _ _ _ _ _ _) as [[tr|e] w2] eqn:Hsvc; [|discriminate].
  injection Hrun as <- <-.
  apply createTransaction_runs in Hsvc.
  inversion Hsvc as [ | | | | | | | |
                     | data Hkey Hschema Hbegin Hf1 Hf2 Hu Htaken Hf3 Hf4]; subst.
  pose proof (safeParse_Some _ _ Hschema) as ->.
  assert (Hg : redis_get_fault env = None).
  { unfold RedisUtil.get, bind, emit, throw in Hget. simpl in Hget.
    destruct (redis_get_fault env) as [[|]|]; [discriminate..|reflexivity]. }
  pose proof (findOne_Ok _ _ _ _ _ _ Hfind) as (Hf & _ & Hnone).
  exists k, t. split; [|split].
  + unfold creates. repeat split; try assumption.
    * rewrite redis_get_run in Hget by exact Hg. unfold cache_live.
      destruct (redis w !! redisKey cfg k) as [[v d]|]; [|reflexivity].
      destruct (now env <? d); [discriminate|reflexivity].
    * now symmetry.
  + reflexivity.
  + unfold created_world, with_events. simpl.
    repeat rewrite <- List.app_assoc. reflexivity.
Qed.


End RouteCreates.

(* ===================================================================== *)
(** ** The route: every run *)
(* ===================================================================== *)

Section RouteRuns.
Context `{Runtime}.

(** The runs of the route: the middleware throws or answers, or it admits the
    request and the controller takes over. *)
Lemma postTransaction_runs cfg env req w r w' :
  postTransaction cfg env req w = (r, w') ->
  (exists e, idempotencyMiddleware cfg env req w = (Throw e, w') /\ r = Throw e) \/
  (exists resp, idempotencyMiddleware cfg env req w = (Ok (Responded resp), w') /\
                r = Ok resp /\ res_status resp = 200) \/
  (exists k w1,
     idempotencyMiddleware cfg env req w
       = (Ok (Next (mkIdempotencyInterface k (requestBodyHash_of req))), w1) /\
     header_key (headers req !! idempotencyKeyHeaderName cfg) = Some k /\
     ((safeParse_body (body req) = None /\ r = Throw EOther /\ w' = w1) \/
      (JsString.truthy (requestBodyHash_of req) = false /\
       r = Throw (EApp (mkAppError BadRequest "Invalid idempotency context")) /\
       w' = w1) \/
      (exists t rs,
         safeParse_body (body req) = Some t /\
         createTransaction cfg env k (requestBodyHash_of req) t w1 = (rs, w') /\
         r = match rs with
             | Ok tr => Ok (mkHttpResponse 201 "Transaction created successfully"
                                           (toJSON tr))
             | Throw e => Throw e
             end))).
Proof.
  intros Hrun. unfold postTransaction, bind in Hrun.
  destruct (idempotencyMiddleware cfg env req w) as [[[resp|ctx]|e] w1] eqn:Hmw.
  - injection Hrun as <- <-. right; left. exists resp.
    repeat split. now apply middleware_Responded_status in Hmw.
  - pose proof (middleware_Next_inv _ _ _ _ _ _ Hmw) as (k & Hm & Hk & -> & _).
    right; right. exists k, w1. split; [reflexivity|]. split; [exact Hk|].
    unfold TransactionController_createTransaction in Hrun. simpl in Hrun.
    destruct (safeParse_body (body req)) as [t|] eqn:Hbody.
    2:{ injection Hrun as <- <-. now left. }
    apply header_key_valid in Hk as [_ Hkey].
    rewrite (invalid_key_truthy _ Hkey) in Hrun. simpl in Hrun.
    destruct (JsString.truthy (requestBodyHash_of req)) eqn:Hth.
    2:{ injection Hrun as <- <-. right; left. now repeat split. }
    unfold bind in Hrun.
    destruct (createTransaction _ _ _ _ _ _) as [rs w2] eqn:Hsvc.
    right; right. exists t, rs. split; [reflexivity|].
    destruct rs as [tr|e]; injection Hrun as <- <-; now split.
  - injection Hrun as <- <-. left. now exists e.
Qed.

(** X14. The route changes the database only when it answers 201, and then
    by one business row and one idempotency record; an answer 200 and every
    error leave the committed tables as they were. *)
Theorem postTransaction_writes_only_on_201 cfg env req w r w' :
  postTransaction cfg env req w = (r, w') ->
  match r with
  | Ok resp =>
      (res_status resp = 200 /\ db w' = db w /\ redis w' = redis w) \/
      (res_status resp = 201 /\
       exists row record,
         transactions (db w') = (transactions (db w) ++ [row])%list /\
         idempotency_meta (db w')
         = (idempotency_meta (db w) ++ [record])%list)
  | Throw _ => db w' = db w
  end.
Proof.
  intros Hrun.
  apply postTransaction_runs in Hrun
    as [(e & Hmw & ->) | [(resp & Hmw & -> & Hst) | (k & w1 & Hmw & Hk & Hctl)]].
  - now apply middleware_keeps_stores in Hmw as (_ & Hdb & _).
  - left. apply middleware_keeps_stores in Hmw as (Hr & Hdb & _). now repeat split.
  - apply middleware_keeps_stores in Hmw as (_ & Hdb & _).
    destruct Hctl as [(_ & -> & ->) | [(_ & -> & ->) | (t & rs & _ & Hsvc & ->)]];
      try exact Hdb.
    apply createTransaction_all_or_nothing in Hsvc.
    destruct rs as [tr|e].
    + destruct Hsvc as (data & _ & _ & Hcommitted). right. split; [reflexivity|].
      rewrite Hcommitted, <- Hdb. unfold committed. simpl. eauto.
    + now rewrite Hsvc.
Qed.

(** X15. A request whose body the schema refuses leaves no trace in the
    stores, whatever its key: the committed tables and the cache are as they
    were, and it is never answered 201. *)
Theorem refused_body_persists_nothing cfg env req w r w' :
  postTransaction cfg env req w = (r, w') ->
  safeParse_body (body req) = None ->
  db w' = db w /\ redis w' = redis w /\
  (forall resp, r = Ok resp -> res_status resp = 200).
Proof.
  intros Hrun Hbody.
  apply postTransaction_runs in Hrun
    as [(e & Hmw & ->) | [(resp & Hmw & -> & Hst) | (k & w1 & Hmw & Hk & Hctl)]];
    apply middleware_keeps_stores in Hmw as (Hr & Hdb & _).
  - repeat split; try assumption. discriminate.
  - repeat split; try assumption. now intros ? [= <-].
  - destruct Hctl as [(_ & -> & ->) | [(_ & -> & ->) | (t & rs & Ht & _)]];
      [| |congruence]; repeat split; try assumption; discriminate.
Qed.

(** X16. Through the controller, the second schema check, the one of the
    service, never fails: no run of the controller throws the error
    "Invalid transaction request". *)
Theorem service_schema_check_unreachable cfg env req w a w' :
  TransactionController_createTransaction cfg env req w = (Throw (EApp a), w') ->
  message a <> "Invalid transaction request".
Proof.
  unfold TransactionController_createTransaction. intros Hrun.
  destruct (safeParse_body (body req)) as [t|] eqn:Hbody; [|discriminate].
  destruct (idempotency req) as [ctx|]; [|injection Hrun as <- _; discriminate].
  destruct (_ && _); [|injection Hrun as <- _; discriminate].
  unfold bind in Hrun.
  destruct (createTransaction _ _ _ _ _ _) as [[tr|e] w2] eqn:Hsvc; [discriminate|].
  injection Hrun as -> ->.
  apply createTransaction_runs in Hsvc.
  pose proof (safeParse_body_again _ _ Hbody) as Hagain.
  remember (Throw (EApp a)) as r eqn:Hr.
  destruct Hsvc; try congruence.
  1: injection Hr as <-; discriminate.
  1: destruct g; discriminate Hr.
  all: unfold caught in Hr; destruct (rollback_fault env) as [g|];
    [destruct g; discriminate Hr|];
    try destruct f; simpl in Hr; try discriminate Hr;
    injection Hr as <-; discriminate.
Qed.

End RouteRuns.

(* ===================================================================== *)
(** ** The route: after a creation *)
(* ===================================================================== *)

Section AfterCreation.
Context `{Runtime}.


Lemma find_snoc {A} (f : A -> bool) (l : list A) (x : A) :
  List.find f (l ++ [x]) =
    match List.find f l with
    | Some y => Some y
    | None => if f x then Some x else None
    end.
Proof.
  induction l as [|a l IH]; simpl; [reflexivity|].
  destruct (f a); [reflexivity | exact IH].
Qed.

Lemma find_key_free k h rows :
  existsb (fun r => (key r =? k)%string) rows = false ->
  List.find (IdempotencyMetaModel.matches k h) rows = None.
Proof.
  induction rows as [|r rows IH]; simpl; [reflexivity|].
  intros Hfree. apply orb_false_iff in Hfree as [Hr Hrows].
  unfold IdempotencyMetaModel.matches at 1. rewrite Hr. simpl. now apply IH.
Qed.

(** What the world left by a creation holds for the key. *)
Lemma created_world_cache cfg env req k t w :
  redis (created_world cfg env req k t w) !! redisKey cfg k
  = Some (new_record cfg env k (requestBodyHash_of req) t, expiry_instant cfg env).
Proof.
  unfold created_world, cache_written. simpl.
  now rewrite lookup_insert_eq, cache_ttl_window.
Qed.

Lemma created_world_find cfg env req k t w h :
  IdempotencyMetaModel.key_taken k (db w) = false ->
  List.find (IdempotencyMetaModel.matches k h)
            (idempotency_meta (db (created_world cfg env req k t w)))
  = if (requestBodyHash_of req =? h)%string
    then Some (new_record cfg env k (requestBodyHash_of req) t) else None.
Proof.
  intros Htaken. unfold created_world, committed. simpl.
  rewrite find_snoc, (find_key_free k h _ Htaken).
  unfold IdempotencyMetaModel.matches. simpl. now rewrite String.eqb_refl.
Qed.

(** X17. After a creation, and for as long as the cache entry of the key
    lives, a request with the same key and another fingerprint is refused
    with a Conflict, and nothing changes in the stores. *)
Theorem conflict_while_cached cfg env1 env2 req req' w0 resp1 w1 :
  postTransaction cfg env1 req w0 = (Ok resp1, w1) ->
  res_status resp1 = 201 ->
  method_ok req' = true ->
  headers req' !! idempotencyKeyHeaderName cfg
    = headers req !! idempotencyKeyHeaderName cfg ->
  requestBodyHash_of req' <> requestBodyHash_of req ->
  redis_get_fault env2 = None ->
  now env2 < expiry_instant cfg env1 ->
  exists w2,
    postTransaction cfg env2 req' w1 = (Throw conflict_error, w2) /\
    db w2 = db w1 /\ redis w2 = redis w1.
Proof.
  intros Hrun Hst Hm' Hhdr Hdiff Hg Hnow.
  destruct (postTransaction_created_world _ _ _ _ _ _ Hrun Hst)
    as (k & t & Hc & _ & ->).
  destruct Hc as (_ & Hk & _).
  rewrite <- Hhdr in Hk.
  eexists. split.
  - unfold postTransaction, bind.
    rewrite (middleware_cache_hit cfg env2 req' k _
               (new_record cfg env1 k (requestBodyHash_of req) t)
               (with_events (created_world cfg env1 req k t w0)
                            [RedisGet (redisKey cfg k)]) Hm' Hk).
    + rewrite replay_or_reject_decision. unfold decision. simpl.
      apply not_eq_sym, String.eqb_neq in Hdiff. rewrite Hdiff. reflexivity.
    + rewrite redis_get_run by exact Hg. rewrite created_world_cache.
      now replace (now env2 <? expiry_instant cfg env1) with true
        by (symmetry; apply Z.ltb_lt; exact Hnow).
  - split; reflexivity.
Qed.

(** X18. After a creation, the same request sent once the record has
    expired is refused with Expired, and nothing changes in the stores: the
    key is not admitted a second time. *)
Theorem expired_after_creation cfg env1 env2 req w0 resp1 w1 :
  postTransaction cfg env1 req w0 = (Ok resp1, w1) ->
  res_status resp1 = 201 ->
  redis_get_fault env2 = None ->
  findOne_fault env2 = None ->
  expiry_instant cfg env1 < now env2 ->
  exists w2,
    postTransaction cfg env2 req w1 = (Throw expired_error, w2) /\
    db w2 = db w1 /\ redis w2 = redis w1.
Proof.
  intros Hrun Hst Hg Hf Hnow.
  destruct (postTransaction_created_world _ _ _ _ _ _ Hrun Hst)
    as (k & t & Hc & _ & ->).
  destruct Hc as (Hm & Hk & _ & _ & Hu & _ & _ & _ & _ & Htaken & _).
  eexists. split.
  - unfold postTransaction, bind.
    rewrite (middleware_cache_miss cfg env2 req k _
               (with_events (created_world cfg env1 req k t w0)
                            [RedisGet (redisKey cfg k)]) Hm Hk).
    + rewrite findOne_run by assumption.
      change (db (with_events ?w _)) with (db w).
      rewrite (created_world_find _ _ _ _ _ _ _ Htaken), String.eqb_refl.
      rewrite replay_or_reject_decision. unfold decision, is_expired. simpl.
      rewrite String.eqb_refl. simpl.
      replace (expiry_instant cfg env1 <? now env2) with true
        by (symmetry; apply Z.ltb_lt; exact Hnow).
      reflexivity.
    + rewrite redis_get_run by exact Hg. rewrite created_world_cache.
      now replace (now env2 <? expiry_instant cfg env1) with false
        by (symmetry; apply Z.ltb_ge; lia).
  - split; reflexivity.
Qed.

End AfterCreation.

(* ===================================================================== *)
(** ** The route: other payloads, other keys, failed commits *)
(* ===================================================================== *)

Section AfterCreationMore.
Context `{Runtime}.



(** X21. When the commit fails after the cache write, the database is left
    without the business row, whether the rollback goes through or not,
    while the cache keeps the record: a retry of the request, as long as that
    cache entry lives, is answered 200 with the response of the transaction
    that was not committed. *)
Theorem replay_of_rolled_back_transaction
    cfg env1 env2 req k t f w0 r1 w1 :
  method_ok req = true ->
  header_key (headers req !! idempotencyKeyHeaderName cfg) = Some k ->
  createTransaction cfg env1 k (requestBodyHash_of req) t w0 = (r1, w1) ->
  safeParse t = Some t ->
  begin_fault env1 = None ->
  transaction_create_fault env1 = None ->
  meta_create_fault env1 = None ->
  Uuid.valid k = true ->
  IdempotencyMetaModel.key_taken k (db w0) = false ->
  redis_set_fault env1 = None ->
  commit_fault env1 = Some f ->
  redis_get_fault env2 = None ->
  now env2 < expiry_instant cfg env1 ->
  JSON_parse (JSON_stringify (toJSON (response_of (new_row env1 t))))
    = Some (toJSON (response_of (new_row env1 t))) ->
  (exists e, r1 = Throw e) /\
  db w1 = db w0 /\
  exists w2,
    postTransaction cfg env2 req w1
      = (Ok (mkHttpResponse 200 "Transaction already processed"
                            (toJSON (response_of (new_row env1 t)))), w2).
Proof.
  intros Hm Hk Hrun Hschema Hbegin Hf1 Hf2 Hu Htaken Hf3 Hf4 Hg Hnow Hjson.
  pose proof (header_key_valid _ _ Hk) as [_ Hkey].
  rewrite (createTransaction_commit_fails _ _ _ _ _ _ _ Hkey Hschema Hbegin _ Hf1 Hf2
             Hu Htaken Hf3 Hf4) in Hrun.
  injection Hrun as <- <-. split; [eauto|]. split; [reflexivity|].
  match goal with |- context [postTransaction _ _ _ ?w] => set (wf := w) end.
  eexists. unfold postTransaction, bind.
  rewrite (middleware_cache_hit cfg env2 req k wf
             (new_record cfg env1 k (requestBodyHash_of req) t)
             (with_events wf [RedisGet (redisKey cfg k)]) Hm Hk).
  - rewrite replay_or_reject_decision. unfold decision, is_expired. simpl.
    rewrite String.eqb_refl. simpl.
    replace (expiry_instant cfg env1 <? now env2) with false
      by (symmetry; apply Z.ltb_ge; lia).
    rewrite Hjson. reflexivity.
  - rewrite redis_get_run by exact Hg. simpl. unfold cache_written.
    rewrite lookup_insert_eq, cache_ttl_window.
    now replace (now env2 <? expiry_instant cfg env1) with true
      by (symmetry; apply Z.ltb_lt; exact Hnow).
Qed.

End AfterCreationMore.

(* ===================================================================== *)
(** ** Keys that are not UUIDs *)
(* ===================================================================== *)

Section KeyFormat.
Context `{Runtime}.

(** X24. The key test of the middleware lets through keys that the column
    [key] does not take. For such a key with no live cache entry, the
    database lookup fails, and the route ends with the internal error of the
    middleware after the two lookups: nothing is created, and the service is
    not reached. *)
Theorem key_not_uuid_refused cfg env req k w r w' :
  postTransaction cfg env req w = (r, w') ->
  method_ok req = true ->
  header_key (headers req !! idempotencyKeyHeaderName cfg) = Some k ->
  Uuid.valid k = false ->
  redis_get_fault env = None ->
  cache_live env w (redisKey cfg k) = false ->
  r = Throw lookup_error /\
  w' = with_events w [RedisGet (redisKey cfg k);
                      DbFindOne k (requestBodyHash_of req)].
Proof.
  intros Hrun Hm Hk Hu Hg Hlive. unfold postTransaction, bind in Hrun.
  rewrite (middleware_cache_miss _ _ _ _ _ _ Hm Hk (redis_get_miss _ _ _ Hg Hlive))
    in Hrun.
  destruct (findOne_fault env) as [f|] eqn:Hf.
  - unfold IdempotencyMetaModel.findOne, bind, emit, throw in Hrun.
    simpl in Hrun. rewrite Hf in Hrun.
    rewrite <- List.app_assoc in Hrun.
    destruct f; injection Hrun as <- <-; now split.
  - rewrite findOne_not_uuid in Hrun by assumption. simpl in Hrun.
    rewrite <- List.app_assoc in Hrun.
    injection Hrun as <- <-. now split.
Qed.

End KeyFormat.

(* ===================================================================== *)
(** ** RedisUtil: what is written is read back, until it expires *)
(* ===================================================================== *)

Section Cache.

(** X22. What [RedisUtil.set] has stored under a key, [RedisUtil.get] reads
    back until the time to live has run out, and reads as absent from then
    on; the entries under other keys read as before. *)
Theorem redis_set_then_get env1 env2 rk value ttl w w1 :
  RedisUtil.set env1 rk value ttl w = (Ok tt, w1) ->
  redis_get_fault env2 = None ->
  fst (RedisUtil.get env2 rk w1)
  = Ok (if now env2 <? now env1 + ttl * 1000 then Some value else None) /\
  forall rk', rk' <> rk ->
    fst (RedisUtil.get env2 rk' w1) = fst (RedisUtil.get env2 rk' w).
Proof.
  intros Hset Hg.
  assert (Hw1 : redis w1 = <[rk := (value, now env1 + ttl * 1000)]> (redis w)).
  { unfold RedisUtil.set, bind, emit, throw in Hset. simpl in Hset.
    destruct (redis_set_fault env1) as [[|]|]; [discriminate..|].
    now injection Hset as <-. }
  split.
  - unfold RedisUtil.get, bind, emit, throw. simpl. rewrite Hg. cbn [redis].
    rewrite Hw1, lookup_insert_eq. now destruct (_ <? _).
  - intros rk' Hne.
    unfold RedisUtil.get, bind, emit, throw. simpl. rewrite Hg. cbn [redis].
    rewrite Hw1, lookup_insert_ne by congruence.
    destruct (redis w !! rk') as [[v d]|]; [destruct (_ <? _)|]; reflexivity.
Qed.

(** X23. [RedisUtil.del] is not a silent no-op: on a key with no live entry
    it throws and changes nothing; on a key with a live entry it removes the
    entry, so that a lookup of the key misses and a second [del] throws. *)
Theorem redis_del_behaviour env rk w r w1 :
  RedisUtil_del env false rk w = (r, w1) ->
  redis_get_fault env = None ->
  match fst (RedisUtil.get env rk w) with
  | Ok (Some _) =>
      r = Ok tt /\
      fst (RedisUtil.get env rk w1) = Ok None /\
      fst (RedisUtil_del env false rk w1)
      = Throw (EApp (mkAppError Plain "Cache key not found"))
  | _ =>
      r = Throw (EApp (mkAppError Plain "Cache key not found")) /\ w1 = w
  end.
Proof.
  intros Hdel Hg.
  unfold RedisUtil.get, bind, emit, throw. simpl. rewrite Hg. cbn [redis].
  unfold RedisUtil_del in Hdel. simpl in Hdel.
  destruct (redis w !! rk) as [[v d]|] eqn:Hlook.
  - destruct (now env <? d) eqn:Hlive; simpl.
    + injection Hdel as <- <-. split; [reflexivity|].
      unfold RedisUtil_del. simpl. rewrite lookup_delete_eq.
      split; reflexivity.
    + injection Hdel as <- <-. now split.
  - simpl. injection Hdel as <- <-. now split.
Qed.

End Cache.

(* ===================================================================== *)
(** ** The statements at the inputs of the README scenario *)
(* ===================================================================== *)

Section Scenario.
#[local] Existing Instance Demo.runtime.

Lemma validation_before_store_access_witness :
idempotencyMiddleware Demo.cfg (Demo.env_at 1000)
  (Demo.request "GET" "0b9f6a3e-5d1c-4e7a-9c2b-7f3a1d8e4c56" 12000) Demo.empty_world =
  (Throw (EApp (mkAppError MethodNotAllowed "Method not allowed")), Demo.empty_world) /\
(kind (mkAppError MethodNotAllowed "Method not allowed") = MethodNotAllowed \/
 kind (mkAppError MethodNotAllowed "Method not allowed") = BadRequest) /\
(Demo.empty_world = Demo.empty_world /\
 (method_ok (Demo.request "GET" "0b9f6a3e-5d1c-4e7a-9c2b-7f3a1d8e4c56" 12000) = false \/
  header_key (headers (Demo.request "GET" "0b9f6a3e-5d1c-4e7a-9c2b-7f3a1d8e4c56" 12000)
                !! idempotencyKeyHeaderName Demo.cfg) = None)).
Proof.
split; [reflexivity|]. split; [left; reflexivity|].
apply (validation_before_store_access Demo.cfg (Demo.env_at 1000)
         (Demo.request "GET" "0b9f6a3e-5d1c-4e7a-9c2b-7f3a1d8e4c56" 12000) Demo.empty_world
         (mkAppError MethodNotAllowed "Method not allowed") Demo.empty_world).
- reflexivity.
- left; reflexivity.
Defined.

Lemma whitespace_key_rejected_witness :
method_ok (Demo.request "POST" "  " 12000) = true /\
headers (Demo.request "POST" "  " 12000) !! idempotencyKeyHeaderName Demo.cfg
  = Some (HString "  ") /\
JsString.all_white_space "  " = true /\
idempotencyMiddleware Demo.cfg (Demo.env_at 1000)
  (Demo.request "POST" "  " 12000) Demo.empty_world =
  (Throw (EApp (mkAppError BadRequest "Invalid idempotency key")), Demo.empty_world).
Proof.
split; [reflexivity|]. split; [reflexivity|]. split; [reflexivity|].
apply (whitespace_key_rejected Demo.cfg (Demo.env_at 1000)
         (Demo.request "POST" "  " 12000) Demo.empty_world "  ");
  reflexivity.
Defined.


Lemma durable_conflict_branch_unreachable_witness :
  method_ok (Demo.request "POST" "0b9f6a3e-5d1c-4e7a-9c2b-7f3a1d8e4c56" 15000) = true /\
  header_key (headers (Demo.request "POST" "0b9f6a3e-5d1c-4e7a-9c2b-7f3a1d8e4c56" 15000)
                !! idempotencyKeyHeaderName Demo.cfg) = Some "0b9f6a3e-5d1c-4e7a-9c2b-7f3a1d8e4c56" /\
  RedisUtil.get (Demo.env_at 2000) (redisKey Demo.cfg "0b9f6a3e-5d1c-4e7a-9c2b-7f3a1d8e4c56")
    (Demo.durable_only (Some 3601000))
    = (Ok None, Demo.logged (Demo.durable_only (Some 3601000))
                  [RedisGet "idempotency:0b9f6a3e-5d1c-4e7a-9c2b-7f3a1d8e4c56"]) /\
  ((forall record w2,
      IdempotencyMetaModel.findOne (Demo.env_at 2000) "0b9f6a3e-5d1c-4e7a-9c2b-7f3a1d8e4c56"
        (requestBodyHash_of (Demo.request "POST" "0b9f6a3e-5d1c-4e7a-9c2b-7f3a1d8e4c56" 15000))
        (Demo.logged (Demo.durable_only (Some 3601000))
           [RedisGet "idempotency:0b9f6a3e-5d1c-4e7a-9c2b-7f3a1d8e4c56"])
        = (Ok (Some record), w2) ->
      negb (bodyHash record
            =? requestBodyHash_of (Demo.request "POST" "0b9f6a3e-5d1c-4e7a-9c2b-7f3a1d8e4c56" 15000))%string
        = false) /\
   (forall e w',
      idempotencyMiddleware Demo.cfg (Demo.env_at 2000)
        (Demo.request "POST" "0b9f6a3e-5d1c-4e7a-9c2b-7f3a1d8e4c56" 15000)
        (Demo.durable_only (Some 3601000)) = (Throw (EApp e), w') ->
      kind e <> Conflict)).
Proof.
  split; [reflexivity|]. split; [reflexivity|]. split; [reflexivity|].
  apply (durable_conflict_branch_unreachable Demo.cfg (Demo.env_at 2000)
           (Demo.request "POST" "0b9f6a3e-5d1c-4e7a-9c2b-7f3a1d8e4c56" 15000) "0b9f6a3e-5d1c-4e7a-9c2b-7f3a1d8e4c56"
           (Demo.durable_only (Some 3601000))
           (Demo.logged (Demo.durable_only (Some 3601000))
              [RedisGet "idempotency:0b9f6a3e-5d1c-4e7a-9c2b-7f3a1d8e4c56"])); reflexivity.
Defined.

Lemma expired_record_rejected_witness :
  method_ok (Demo.request "POST" "0b9f6a3e-5d1c-4e7a-9c2b-7f3a1d8e4c56" 12000) = true /\
  header_key (headers (Demo.request "POST" "0b9f6a3e-5d1c-4e7a-9c2b-7f3a1d8e4c56" 12000)
                !! idempotencyKeyHeaderName Demo.cfg) = Some "0b9f6a3e-5d1c-4e7a-9c2b-7f3a1d8e4c56" /\
  bodyHash (Demo.stored_record (Some 500))
    = requestBodyHash_of (Demo.request "POST" "0b9f6a3e-5d1c-4e7a-9c2b-7f3a1d8e4c56" 12000) /\
  expiredAt (Demo.stored_record (Some 500)) = Some 500 /\
  500 < now (Demo.env_at 1000) /\
  idempotencyMiddleware Demo.cfg (Demo.env_at 1000)
    (Demo.request "POST" "0b9f6a3e-5d1c-4e7a-9c2b-7f3a1d8e4c56" 12000) (Demo.durable_only (Some 500))
    = (Throw expired_error,
       Demo.logged (Demo.durable_only (Some 500))
         [RedisGet "idempotency:0b9f6a3e-5d1c-4e7a-9c2b-7f3a1d8e4c56";
          DbFindOne "0b9f6a3e-5d1c-4e7a-9c2b-7f3a1d8e4c56" Demo.hash12000]).
Proof.
  split; [reflexivity|]. split; [reflexivity|]. split; [reflexivity|].
  split; [reflexivity|]. split; [reflexivity|].
  apply (expired_record_rejected Demo.cfg (Demo.env_at 1000)
           (Demo.request "POST" "0b9f6a3e-5d1c-4e7a-9c2b-7f3a1d8e4c56" 12000) "0b9f6a3e-5d1c-4e7a-9c2b-7f3a1d8e4c56"
           (Demo.stored_record (Some 500)) 500 (Demo.durable_only (Some 500))
           (Demo.logged (Demo.durable_only (Some 500))
              [RedisGet "idempotency:0b9f6a3e-5d1c-4e7a-9c2b-7f3a1d8e4c56"]));
    try reflexivity.
  right. split; reflexivity.
Defined.

Lemma record_without_expiry_replays_witness :
  method_ok (Demo.request "POST" "0b9f6a3e-5d1c-4e7a-9c2b-7f3a1d8e4c56" 12000) = true /\
  header_key (headers (Demo.request "POST" "0b9f6a3e-5d1c-4e7a-9c2b-7f3a1d8e4c56" 12000)
                !! idempotencyKeyHeaderName Demo.cfg) = Some "0b9f6a3e-5d1c-4e7a-9c2b-7f3a1d8e4c56" /\
  bodyHash (Demo.stored_record None)
    = requestBodyHash_of (Demo.request "POST" "0b9f6a3e-5d1c-4e7a-9c2b-7f3a1d8e4c56" 12000) /\
  expiredAt (Demo.stored_record None) = None /\
  JSON_parse (responsePayload (Demo.stored_record None)) = Some Demo.document /\
  ((forall currentTime, is_expired (Demo.stored_record None) currentTime = false) /\
   idempotencyMiddleware Demo.cfg (Demo.env_at 1000000000000)
     (Demo.request "POST" "0b9f6a3e-5d1c-4e7a-9c2b-7f3a1d8e4c56" 12000) (Demo.cached None 3601000)
     = (Ok (Responded (mkHttpResponse 200 "Transaction already processed"
                                      Demo.document)),
        Demo.logged (Demo.cached None 3601000)
          [RedisGet "idempotency:0b9f6a3e-5d1c-4e7a-9c2b-7f3a1d8e4c56";
           DbFindOne "0b9f6a3e-5d1c-4e7a-9c2b-7f3a1d8e4c56" Demo.hash12000])).
Proof.
  split; [reflexivity|]. split; [reflexivity|]. split; [reflexivity|].
  split; [reflexivity|]. split; [reflexivity|].
  apply (record_without_expiry_replays Demo.cfg (Demo.env_at 1000000000000)
           (Demo.request "POST" "0b9f6a3e-5d1c-4e7a-9c2b-7f3a1d8e4c56" 12000) "0b9f6a3e-5d1c-4e7a-9c2b-7f3a1d8e4c56"
           (Demo.stored_record None) Demo.document (Demo.cached None 3601000)
           (Demo.logged (Demo.cached None 3601000)
              [RedisGet "idempotency:0b9f6a3e-5d1c-4e7a-9c2b-7f3a1d8e4c56"]));
    try reflexivity.
  right. split; reflexivity.
Defined.


(** C1, at the input on which the code departs from it. The key is a UUID,
    as the column [key] requires. Its record is in the database and not in
    the cache; the same key comes with another payload. The middleware
    admits the request instead of failing with a Conflict; the service then
    hits the primary key, rolls back, and the caller receives a BadRequest
    for a validation error. With the cache entry in place, the same request
    fails with a Conflict. *)
Lemma conflict_missed_when_cache_absent :
  Uuid.valid "0b9f6a3e-5d1c-4e7a-9c2b-7f3a1d8e4c56" = true /\
  idempotencyMiddleware Demo.cfg (Demo.env_at 2000)
    (Demo.request "POST" "0b9f6a3e-5d1c-4e7a-9c2b-7f3a1d8e4c56" 15000) (Demo.durable_only (Some 3601000))
  = (Ok (Next (mkIdempotencyInterface "0b9f6a3e-5d1c-4e7a-9c2b-7f3a1d8e4c56" Demo.hash15000)),
     Demo.logged (Demo.durable_only (Some 3601000))
       [RedisGet "idempotency:0b9f6a3e-5d1c-4e7a-9c2b-7f3a1d8e4c56";
        DbFindOne "0b9f6a3e-5d1c-4e7a-9c2b-7f3a1d8e4c56" Demo.hash15000]) /\
  postTransaction Demo.cfg (Demo.env_at 2000)
    (Demo.request "POST" "0b9f6a3e-5d1c-4e7a-9c2b-7f3a1d8e4c56" 15000) (Demo.durable_only (Some 3601000))
  = (Throw (EApp (mkAppError BadRequest "Validation errors occurred")),
     Demo.logged (Demo.durable_only (Some 3601000))
       [RedisGet "idempotency:0b9f6a3e-5d1c-4e7a-9c2b-7f3a1d8e4c56";
        DbFindOne "0b9f6a3e-5d1c-4e7a-9c2b-7f3a1d8e4c56" Demo.hash15000;
        DbBegin; DbInsertTransaction Demo.generated_id;
        DbInsertMeta "0b9f6a3e-5d1c-4e7a-9c2b-7f3a1d8e4c56"; DbRollback]) /\
  idempotencyMiddleware Demo.cfg (Demo.env_at 2000)
    (Demo.request "POST" "0b9f6a3e-5d1c-4e7a-9c2b-7f3a1d8e4c56" 15000) (Demo.cached (Some 3601000) 3601000)
  = (Throw conflict_error,
     Demo.logged (Demo.cached (Some 3601000) 3601000)
       [RedisGet "idempotency:0b9f6a3e-5d1c-4e7a-9c2b-7f3a1d8e4c56"]).
Proof. repeat split; vm_compute; reflexivity. Qed.

(** C2, counterexample. The key is a UUID and both inserts go through; the
    cache answers the write with something other than OK: the service
    throws, and the transaction is rolled back without having been
    committed. *)
Lemma cache_write_failure_is_fatal :
  Uuid.valid "0b9f6a3e-5d1c-4e7a-9c2b-7f3a1d8e4c56" = true /\
  createTransaction Demo.cfg (Demo.env_cache_fails 1000) "0b9f6a3e-5d1c-4e7a-9c2b-7f3a1d8e4c56"
    Demo.hash12000 (Demo.payment_request 12000) Demo.empty_world
  = (Throw (EApp (mkAppError Plain "Cache set error")),
     Demo.logged Demo.empty_world
       [DbBegin; DbInsertTransaction Demo.generated_id;
        DbInsertMeta "0b9f6a3e-5d1c-4e7a-9c2b-7f3a1d8e4c56"; RedisSet "idempotency:0b9f6a3e-5d1c-4e7a-9c2b-7f3a1d8e4c56";
        DbRollback]) /\
  db (Demo.logged Demo.empty_world
       [DbBegin; DbInsertTransaction Demo.generated_id;
        DbInsertMeta "0b9f6a3e-5d1c-4e7a-9c2b-7f3a1d8e4c56"; RedisSet "idempotency:0b9f6a3e-5d1c-4e7a-9c2b-7f3a1d8e4c56";
        DbRollback]) = mkDatabase [] [].
Proof. repeat split; vm_compute; reflexivity. Qed.

Lemma cache_write_inside_transaction_witness :
  createTransaction Demo.cfg (Demo.env_cache_fails 1000) "0b9f6a3e-5d1c-4e7a-9c2b-7f3a1d8e4c56"
    Demo.hash12000 (Demo.payment_request 12000) Demo.empty_world
  = (Throw (EApp (mkAppError Plain "Cache set error")),
     Demo.logged Demo.empty_world
       [DbBegin; DbInsertTransaction Demo.generated_id;
        DbInsertMeta "0b9f6a3e-5d1c-4e7a-9c2b-7f3a1d8e4c56"; RedisSet "idempotency:0b9f6a3e-5d1c-4e7a-9c2b-7f3a1d8e4c56";
        DbRollback]) /\
  invalid_key "0b9f6a3e-5d1c-4e7a-9c2b-7f3a1d8e4c56" = false /\
  safeParse (Demo.payment_request 12000) = Some (Demo.payment_request 12000) /\
  begin_fault (Demo.env_cache_fails 1000) = None /\
  transaction_create_fault (Demo.env_cache_fails 1000) = None /\
  meta_create_fault (Demo.env_cache_fails 1000) = None /\
  Uuid.valid "0b9f6a3e-5d1c-4e7a-9c2b-7f3a1d8e4c56" = true /\
  IdempotencyMetaModel.key_taken "0b9f6a3e-5d1c-4e7a-9c2b-7f3a1d8e4c56" (db Demo.empty_world) = false /\
  match redis_set_fault (Demo.env_cache_fails 1000) with
  | Some f =>
      Throw (EApp (mkAppError Plain "Cache set error"))
        = Throw (A := TransactionResponse)
            match rollback_fault (Demo.env_cache_fails 1000) with
            | None => service_catch (exn_of_set_fault f)
            | Some g => exn_of_DbFault g
            end /\
      db (Demo.logged Demo.empty_world
            [DbBegin; DbInsertTransaction Demo.generated_id;
             DbInsertMeta "0b9f6a3e-5d1c-4e7a-9c2b-7f3a1d8e4c56"; RedisSet "idempotency:0b9f6a3e-5d1c-4e7a-9c2b-7f3a1d8e4c56";
             DbRollback]) = db Demo.empty_world /\
      redis (Demo.logged Demo.empty_world
            [DbBegin; DbInsertTransaction Demo.generated_id;
             DbInsertMeta "0b9f6a3e-5d1c-4e7a-9c2b-7f3a1d8e4c56"; RedisSet "idempotency:0b9f6a3e-5d1c-4e7a-9c2b-7f3a1d8e4c56";
             DbRollback]) = redis Demo.empty_world /\
      log (Demo.logged Demo.empty_world
            [DbBegin; DbInsertTransaction Demo.generated_id;
             DbInsertMeta "0b9f6a3e-5d1c-4e7a-9c2b-7f3a1d8e4c56"; RedisSet "idempotency:0b9f6a3e-5d1c-4e7a-9c2b-7f3a1d8e4c56";
             DbRollback])
      = (log Demo.empty_world
           ++ [DbBegin; DbInsertTransaction (uuid (Demo.env_cache_fails 1000));
               DbInsertMeta "0b9f6a3e-5d1c-4e7a-9c2b-7f3a1d8e4c56";
               RedisSet (redisKey Demo.cfg "0b9f6a3e-5d1c-4e7a-9c2b-7f3a1d8e4c56"); DbRollback])%list
  | None =>
      exists rest,
        log (Demo.logged Demo.empty_world
            [DbBegin; DbInsertTransaction Demo.generated_id;
             DbInsertMeta "0b9f6a3e-5d1c-4e7a-9c2b-7f3a1d8e4c56"; RedisSet "idempotency:0b9f6a3e-5d1c-4e7a-9c2b-7f3a1d8e4c56";
             DbRollback])
        = (log Demo.empty_world
             ++ [DbBegin; DbInsertTransaction (uuid (Demo.env_cache_fails 1000));
                 DbInsertMeta "0b9f6a3e-5d1c-4e7a-9c2b-7f3a1d8e4c56";
                 RedisSet (redisKey Demo.cfg "0b9f6a3e-5d1c-4e7a-9c2b-7f3a1d8e4c56"); DbCommit] ++ rest)%list
  end.
Proof.
  split; [reflexivity|]. split; [reflexivity|]. split; [reflexivity|].
  split; [reflexivity|]. split; [reflexivity|]. split; [reflexivity|].
  split; [reflexivity|]. split; [reflexivity|].
  apply (cache_write_inside_transaction Demo.cfg (Demo.env_cache_fails 1000)
           "0b9f6a3e-5d1c-4e7a-9c2b-7f3a1d8e4c56" Demo.hash12000 (Demo.payment_request 12000)
           (Demo.payment_request 12000) Demo.empty_world); reflexivity.
Defined.

(** C3, counterexample. The key is a UUID, and another request has persisted
    its record after the lookups of this one: the insert hits the primary
    key, and the service throws to the caller after a rollback, without any
    lookup. *)
Lemma unique_violation_not_retried :
  Uuid.valid "0b9f6a3e-5d1c-4e7a-9c2b-7f3a1d8e4c56" = true /\
  IdempotencyMetaModel.key_taken "0b9f6a3e-5d1c-4e7a-9c2b-7f3a1d8e4c56" (db (Demo.durable_only (Some 3601000)))
  = true /\
  createTransaction Demo.cfg (Demo.env_at 2000) "0b9f6a3e-5d1c-4e7a-9c2b-7f3a1d8e4c56"
    Demo.hash12000 (Demo.payment_request 12000) (Demo.durable_only (Some 3601000))
  = (Throw (EApp (mkAppError BadRequest "Validation errors occurred")),
     Demo.logged (Demo.durable_only (Some 3601000))
       [DbBegin; DbInsertTransaction Demo.generated_id;
        DbInsertMeta "0b9f6a3e-5d1c-4e7a-9c2b-7f3a1d8e4c56"; DbRollback]) /\
  existsb is_lookup
    [DbBegin; DbInsertTransaction Demo.generated_id;
     DbInsertMeta "0b9f6a3e-5d1c-4e7a-9c2b-7f3a1d8e4c56"; DbRollback] = false.
Proof. repeat split; vm_compute; reflexivity. Qed.

Lemma unique_violation_surfaces_witness :
  createTransaction Demo.cfg (Demo.env_at 2000) "0b9f6a3e-5d1c-4e7a-9c2b-7f3a1d8e4c56"
    Demo.hash12000 (Demo.payment_request 12000) (Demo.durable_only (Some 3601000))
  = (Throw (EApp (mkAppError BadRequest "Validation errors occurred")),
     Demo.logged (Demo.durable_only (Some 3601000))
       [DbBegin; DbInsertTransaction Demo.generated_id;
        DbInsertMeta "0b9f6a3e-5d1c-4e7a-9c2b-7f3a1d8e4c56"; DbRollback]) /\
  invalid_key "0b9f6a3e-5d1c-4e7a-9c2b-7f3a1d8e4c56" = false /\
  safeParse (Demo.payment_request 12000) = Some (Demo.payment_request 12000) /\
  begin_fault (Demo.env_at 2000) = None /\
  transaction_create_fault (Demo.env_at 2000) = None /\
  meta_create_fault (Demo.env_at 2000) = None /\
  Uuid.valid "0b9f6a3e-5d1c-4e7a-9c2b-7f3a1d8e4c56" = true /\
  IdempotencyMetaModel.key_taken "0b9f6a3e-5d1c-4e7a-9c2b-7f3a1d8e4c56"
    (db (Demo.durable_only (Some 3601000))) = true /\
  (Throw (A := TransactionResponse)
     (EApp (mkAppError BadRequest "Validation errors occurred"))
   = Throw match rollback_fault (Demo.env_at 2000) with
           | None => EApp (mkAppError BadRequest "Validation errors occurred")
           | Some g => exn_of_DbFault g
           end /\
   db (Demo.logged (Demo.durable_only (Some 3601000))
         [DbBegin; DbInsertTransaction Demo.generated_id;
          DbInsertMeta "0b9f6a3e-5d1c-4e7a-9c2b-7f3a1d8e4c56"; DbRollback])
   = db (Demo.durable_only (Some 3601000)) /\
   redis (Demo.logged (Demo.durable_only (Some 3601000))
         [DbBegin; DbInsertTransaction Demo.generated_id;
          DbInsertMeta "0b9f6a3e-5d1c-4e7a-9c2b-7f3a1d8e4c56"; DbRollback])
   = redis (Demo.durable_only (Some 3601000)) /\
   exists events,
     log (Demo.logged (Demo.durable_only (Some 3601000))
         [DbBegin; DbInsertTransaction Demo.generated_id;
          DbInsertMeta "0b9f6a3e-5d1c-4e7a-9c2b-7f3a1d8e4c56"; DbRollback])
     = (log (Demo.durable_only (Some 3601000)) ++ events)%list /\
     existsb is_lookup events = false /\
     List.last events DbBegin = DbRollback).
Proof.
  split; [reflexivity|]. split; [reflexivity|]. split; [reflexivity|].
  split; [reflexivity|]. split; [reflexivity|]. split; [reflexivity|].
  split; [reflexivity|]. split; [reflexivity|].
  apply (unique_violation_surfaces Demo.cfg (Demo.env_at 2000)
           "0b9f6a3e-5d1c-4e7a-9c2b-7f3a1d8e4c56" Demo.hash12000 (Demo.payment_request 12000)
           (Demo.payment_request 12000) (Demo.durable_only (Some 3601000)));
    reflexivity.
Defined.

Lemma rollback_atomicity_witness :
  createTransaction Demo.cfg (Demo.env_record_fails 1000) "0b9f6a3e-5d1c-4e7a-9c2b-7f3a1d8e4c56"
    Demo.hash12000 (Demo.payment_request 12000) Demo.empty_world
  = (Throw (EApp (mkAppError InternalServerError "Database error")),
     Demo.logged Demo.empty_world
       [DbBegin; DbInsertTransaction Demo.generated_id;
        DbInsertMeta "0b9f6a3e-5d1c-4e7a-9c2b-7f3a1d8e4c56"; DbRollback]) /\
  invalid_key "0b9f6a3e-5d1c-4e7a-9c2b-7f3a1d8e4c56" = false /\
  safeParse (Demo.payment_request 12000) = Some (Demo.payment_request 12000) /\
  begin_fault (Demo.env_record_fails 1000) = None /\
  (transaction_create_fault (Demo.env_record_fails 1000) <> None \/
   meta_create_fault (Demo.env_record_fails 1000) <> None \/
   Uuid.valid "0b9f6a3e-5d1c-4e7a-9c2b-7f3a1d8e4c56" = false \/
   IdempotencyMetaModel.key_taken "0b9f6a3e-5d1c-4e7a-9c2b-7f3a1d8e4c56" (db Demo.empty_world) = true) /\
  ((exists e, Throw (A := TransactionResponse)
                (EApp (mkAppError InternalServerError "Database error")) = Throw e) /\
   transactions (db (Demo.logged Demo.empty_world
       [DbBegin; DbInsertTransaction Demo.generated_id;
        DbInsertMeta "0b9f6a3e-5d1c-4e7a-9c2b-7f3a1d8e4c56"; DbRollback]))
     = transactions (db Demo.empty_world) /\
   idempotency_meta (db (Demo.logged Demo.empty_world
       [DbBegin; DbInsertTransaction Demo.generated_id;
        DbInsertMeta "0b9f6a3e-5d1c-4e7a-9c2b-7f3a1d8e4c56"; DbRollback]))
     = idempotency_meta (db Demo.empty_world) /\
   redis (Demo.logged Demo.empty_world
       [DbBegin; DbInsertTransaction Demo.generated_id;
        DbInsertMeta "0b9f6a3e-5d1c-4e7a-9c2b-7f3a1d8e4c56"; DbRollback])
     = redis Demo.empty_world /\
   (exists events,
      log (Demo.logged Demo.empty_world
             [DbBegin; DbInsertTransaction Demo.generated_id;
              DbInsertMeta "0b9f6a3e-5d1c-4e7a-9c2b-7f3a1d8e4c56"; DbRollback])
      = (log Demo.empty_world ++ DbBegin :: events ++ [DbRollback])%list /\
      ~ In DbCommit events) /\
   (rollback_fault (Demo.env_record_fails 1000) = None ->
    txn (Demo.logged Demo.empty_world
           [DbBegin; DbInsertTransaction Demo.generated_id;
            DbInsertMeta "0b9f6a3e-5d1c-4e7a-9c2b-7f3a1d8e4c56"; DbRollback]) = None)).
Proof.
  split; [reflexivity|]. split; [reflexivity|]. split; [reflexivity|].
  split; [reflexivity|].
  split; [right; left; discriminate|].
  apply (rollback_atomicity Demo.cfg (Demo.env_record_fails 1000)
           "0b9f6a3e-5d1c-4e7a-9c2b-7f3a1d8e4c56" Demo.hash12000 (Demo.payment_request 12000)
           (Demo.payment_request 12000) Demo.empty_world).
  - reflexivity.
  - reflexivity.
  - reflexivity.
  - reflexivity.
  - right; left; discriminate.
Defined.

Lemma replay_idempotence_witness :
  postTransaction Demo.cfg (Demo.env_at 1000)
    (Demo.request "POST" "0b9f6a3e-5d1c-4e7a-9c2b-7f3a1d8e4c56" 12000) Demo.empty_world
  = (Ok Demo.first_response, Demo.after_first) /\
  res_status Demo.first_response = 201 /\
  postTransaction Demo.cfg (Demo.env_at 2000)
    (Demo.request "POST" "0b9f6a3e-5d1c-4e7a-9c2b-7f3a1d8e4c56" 12000) Demo.after_first
  = (Ok (mkHttpResponse 200 "Transaction already processed" Demo.document),
     Demo.logged Demo.after_first [RedisGet "idempotency:0b9f6a3e-5d1c-4e7a-9c2b-7f3a1d8e4c56"]) /\
  redis_get_fault (Demo.env_at 2000) = None /\
  findOne_fault (Demo.env_at 2000) = None /\
  now (Demo.env_at 2000) <= expiry_instant Demo.cfg (Demo.env_at 1000) /\
  JSON_parse (JSON_stringify (res_data Demo.first_response))
    = Some (res_data Demo.first_response) /\
  (Ok (mkHttpResponse 200 "Transaction already processed" Demo.document)
   = Ok (mkHttpResponse 200 "Transaction already processed"
           (res_data Demo.first_response)) /\
   (exists row,
      transactions (db (Demo.logged Demo.after_first
                          [RedisGet "idempotency:0b9f6a3e-5d1c-4e7a-9c2b-7f3a1d8e4c56"]))
      = (transactions (db Demo.empty_world) ++ [row])%list) /\
   db (Demo.logged Demo.after_first [RedisGet "idempotency:0b9f6a3e-5d1c-4e7a-9c2b-7f3a1d8e4c56"])
   = db Demo.after_first).
Proof.
  split; [vm_compute; reflexivity|]. split; [reflexivity|].
  split; [vm_compute; reflexivity|]. split; [reflexivity|]. split; [reflexivity|].
  split; [vm_compute; discriminate|]. split; [vm_compute; reflexivity|].
  apply (replay_idempotence Demo.cfg (Demo.env_at 1000) (Demo.env_at 2000)
           (Demo.request "POST" "0b9f6a3e-5d1c-4e7a-9c2b-7f3a1d8e4c56" 12000) Demo.empty_world
           Demo.first_response Demo.after_first).
  - vm_compute; reflexivity.
  - reflexivity.
  - vm_compute; reflexivity.
  - reflexivity.
  - reflexivity.
  - vm_compute; discriminate.
  - vm_compute; reflexivity.
Defined.


Lemma middleware_reads_only_witness :
  idempotencyMiddleware Demo.cfg (Demo.env_at 2000)
    (Demo.request "POST" "0b9f6a3e-5d1c-4e7a-9c2b-7f3a1d8e4c56" 12000) (Demo.durable_only (Some 3601000))
  = (Ok (Responded (mkHttpResponse 200 "Transaction already processed"
                                   Demo.document)),
     with_events (Demo.durable_only (Some 3601000))
       [RedisGet "idempotency:0b9f6a3e-5d1c-4e7a-9c2b-7f3a1d8e4c56";
        DbFindOne "0b9f6a3e-5d1c-4e7a-9c2b-7f3a1d8e4c56" Demo.hash12000]) /\
  (redis (with_events (Demo.durable_only (Some 3601000))
            [RedisGet "idempotency:0b9f6a3e-5d1c-4e7a-9c2b-7f3a1d8e4c56";
             DbFindOne "0b9f6a3e-5d1c-4e7a-9c2b-7f3a1d8e4c56" Demo.hash12000])
   = redis (Demo.durable_only (Some 3601000)) /\
   db (with_events (Demo.durable_only (Some 3601000))
         [RedisGet "idempotency:0b9f6a3e-5d1c-4e7a-9c2b-7f3a1d8e4c56";
          DbFindOne "0b9f6a3e-5d1c-4e7a-9c2b-7f3a1d8e4c56" Demo.hash12000])
   = db (Demo.durable_only (Some 3601000)) /\
   txn (with_events (Demo.durable_only (Some 3601000))
          [RedisGet "idempotency:0b9f6a3e-5d1c-4e7a-9c2b-7f3a1d8e4c56";
           DbFindOne "0b9f6a3e-5d1c-4e7a-9c2b-7f3a1d8e4c56" Demo.hash12000])
   = txn (Demo.durable_only (Some 3601000)) /\
   exists events,
     with_events (Demo.durable_only (Some 3601000))
       [RedisGet "idempotency:0b9f6a3e-5d1c-4e7a-9c2b-7f3a1d8e4c56";
        DbFindOne "0b9f6a3e-5d1c-4e7a-9c2b-7f3a1d8e4c56" Demo.hash12000]
     = with_events (Demo.durable_only (Some 3601000)) events /\
     (events = [] \/
      exists k,
        header_key (headers (Demo.request "POST" "0b9f6a3e-5d1c-4e7a-9c2b-7f3a1d8e4c56" 12000)
                      !! idempotencyKeyHeaderName Demo.cfg) = Some k /\
        (events = [RedisGet (redisKey Demo.cfg k)] \/
         events = [RedisGet (redisKey Demo.cfg k);
                   DbFindOne k (requestBodyHash_of
                                  (Demo.request "POST" "0b9f6a3e-5d1c-4e7a-9c2b-7f3a1d8e4c56" 12000))]))).
Proof.
  split; [vm_compute; reflexivity|].
  apply (middleware_reads_only Demo.cfg (Demo.env_at 2000)
           (Demo.request "POST" "0b9f6a3e-5d1c-4e7a-9c2b-7f3a1d8e4c56" 12000)
           (Demo.durable_only (Some 3601000))
           (Ok (Responded (mkHttpResponse 200 "Transaction already processed"
                                          Demo.document)))).
  vm_compute; reflexivity.
Defined.

Lemma middleware_throws_AppError_witness :
  idempotencyMiddleware Demo.cfg (Cases.env_redis_down 2000)
    (Demo.request "POST" "0b9f6a3e-5d1c-4e7a-9c2b-7f3a1d8e4c56" 12000) Demo.empty_world
  = (Throw lookup_error,
     with_events Demo.empty_world [RedisGet "idempotency:0b9f6a3e-5d1c-4e7a-9c2b-7f3a1d8e4c56"]) /\
  exists a, lookup_error = EApp a /\ In (kind a) middleware_kinds.
Proof.
  split; [vm_compute; reflexivity|].
  apply (middleware_throws_AppError Demo.cfg (Cases.env_redis_down 2000)
           (Demo.request "POST" "0b9f6a3e-5d1c-4e7a-9c2b-7f3a1d8e4c56" 12000) Demo.empty_world
           lookup_error
           (with_events Demo.empty_world [RedisGet "idempotency:0b9f6a3e-5d1c-4e7a-9c2b-7f3a1d8e4c56"])).
  vm_compute; reflexivity.
Defined.

Lemma cache_failure_stops_lookup_witness :
  method_ok (Demo.request "POST" "0b9f6a3e-5d1c-4e7a-9c2b-7f3a1d8e4c56" 12000) = true /\
  header_key (headers (Demo.request "POST" "0b9f6a3e-5d1c-4e7a-9c2b-7f3a1d8e4c56" 12000)
                !! idempotencyKeyHeaderName Demo.cfg) = Some "0b9f6a3e-5d1c-4e7a-9c2b-7f3a1d8e4c56" /\
  redis_get_fault (Cases.env_redis_down 2000) = Some CommandFails /\
  idempotencyMiddleware Demo.cfg (Cases.env_redis_down 2000)
    (Demo.request "POST" "0b9f6a3e-5d1c-4e7a-9c2b-7f3a1d8e4c56" 12000) (Demo.durable_only (Some 3601000))
  = (Throw lookup_error,
     with_events (Demo.durable_only (Some 3601000))
       [RedisGet (redisKey Demo.cfg "0b9f6a3e-5d1c-4e7a-9c2b-7f3a1d8e4c56")]).
Proof.
  split; [reflexivity|]. split; [reflexivity|]. split; [reflexivity|].
  apply (cache_failure_stops_lookup Demo.cfg (Cases.env_redis_down 2000)
           (Demo.request "POST" "0b9f6a3e-5d1c-4e7a-9c2b-7f3a1d8e4c56" 12000) "0b9f6a3e-5d1c-4e7a-9c2b-7f3a1d8e4c56"
           CommandFails (Demo.durable_only (Some 3601000))); reflexivity.
Defined.

Lemma database_failure_not_admitted_witness :
  method_ok (Demo.request "POST" "0b9f6a3e-5d1c-4e7a-9c2b-7f3a1d8e4c56" 12000) = true /\
  header_key (headers (Demo.request "POST" "0b9f6a3e-5d1c-4e7a-9c2b-7f3a1d8e4c56" 12000)
                !! idempotencyKeyHeaderName Demo.cfg) = Some "0b9f6a3e-5d1c-4e7a-9c2b-7f3a1d8e4c56" /\
  RedisUtil.get (Cases.env_findOne_fails 2000)
    (redisKey Demo.cfg "0b9f6a3e-5d1c-4e7a-9c2b-7f3a1d8e4c56") (Demo.durable_only (Some 3601000))
  = (Ok None, with_events (Demo.durable_only (Some 3601000))
                [RedisGet "idempotency:0b9f6a3e-5d1c-4e7a-9c2b-7f3a1d8e4c56"]) /\
  findOne_fault (Cases.env_findOne_fails 2000)
  = Some (DbDatabase "connection lost") /\
  idempotencyMiddleware Demo.cfg (Cases.env_findOne_fails 2000)
    (Demo.request "POST" "0b9f6a3e-5d1c-4e7a-9c2b-7f3a1d8e4c56" 12000) (Demo.durable_only (Some 3601000))
  = (Throw lookup_error,
     with_events (Demo.durable_only (Some 3601000))
       [RedisGet (redisKey Demo.cfg "0b9f6a3e-5d1c-4e7a-9c2b-7f3a1d8e4c56");
        DbFindOne "0b9f6a3e-5d1c-4e7a-9c2b-7f3a1d8e4c56"
          (requestBodyHash_of (Demo.request "POST" "0b9f6a3e-5d1c-4e7a-9c2b-7f3a1d8e4c56" 12000))]).
Proof.
  split; [reflexivity|]. split; [reflexivity|]. split; [reflexivity|].
  split; [reflexivity|].
  apply (database_failure_not_admitted Demo.cfg (Cases.env_findOne_fails 2000)
           (Demo.request "POST" "0b9f6a3e-5d1c-4e7a-9c2b-7f3a1d8e4c56" 12000) "0b9f6a3e-5d1c-4e7a-9c2b-7f3a1d8e4c56"
           (DbDatabase "connection lost") (Demo.durable_only (Some 3601000))
           (with_events (Demo.durable_only (Some 3601000))
              [RedisGet "idempotency:0b9f6a3e-5d1c-4e7a-9c2b-7f3a1d8e4c56"])); reflexivity.
Defined.

Lemma same_decision_from_either_store_witness :
  method_ok (Demo.request "POST" "0b9f6a3e-5d1c-4e7a-9c2b-7f3a1d8e4c56" 12000) = true /\
  header_key (headers (Demo.request "POST" "0b9f6a3e-5d1c-4e7a-9c2b-7f3a1d8e4c56" 12000)
                !! idempotencyKeyHeaderName Demo.cfg) = Some "0b9f6a3e-5d1c-4e7a-9c2b-7f3a1d8e4c56" /\
  RedisUtil.get (Demo.env_at 2000) (redisKey Demo.cfg "0b9f6a3e-5d1c-4e7a-9c2b-7f3a1d8e4c56")
    (Demo.cached (Some 3601000) 3601000)
  = (Ok (Some (Demo.stored_record (Some 3601000))),
     with_events (Demo.cached (Some 3601000) 3601000)
       [RedisGet "idempotency:0b9f6a3e-5d1c-4e7a-9c2b-7f3a1d8e4c56"]) /\
  RedisUtil.get (Demo.env_at 2000) (redisKey Demo.cfg "0b9f6a3e-5d1c-4e7a-9c2b-7f3a1d8e4c56")
    (Demo.durable_only (Some 3601000))
  = (Ok None, with_events (Demo.durable_only (Some 3601000))
                [RedisGet "idempotency:0b9f6a3e-5d1c-4e7a-9c2b-7f3a1d8e4c56"]) /\
  IdempotencyMetaModel.findOne (Demo.env_at 2000) "0b9f6a3e-5d1c-4e7a-9c2b-7f3a1d8e4c56"
    (requestBodyHash_of (Demo.request "POST" "0b9f6a3e-5d1c-4e7a-9c2b-7f3a1d8e4c56" 12000))
    (with_events (Demo.durable_only (Some 3601000))
       [RedisGet "idempotency:0b9f6a3e-5d1c-4e7a-9c2b-7f3a1d8e4c56"])
  = (Ok (Some (Demo.stored_record (Some 3601000))),
     with_events (Demo.durable_only (Some 3601000))
       [RedisGet "idempotency:0b9f6a3e-5d1c-4e7a-9c2b-7f3a1d8e4c56";
        DbFindOne "0b9f6a3e-5d1c-4e7a-9c2b-7f3a1d8e4c56" Demo.hash12000]) /\
  fst (idempotencyMiddleware Demo.cfg (Demo.env_at 2000)
         (Demo.request "POST" "0b9f6a3e-5d1c-4e7a-9c2b-7f3a1d8e4c56" 12000)
         (Demo.cached (Some 3601000) 3601000))
  = fst (idempotencyMiddleware Demo.cfg (Demo.env_at 2000)
           (Demo.request "POST" "0b9f6a3e-5d1c-4e7a-9c2b-7f3a1d8e4c56" 12000)
           (Demo.durable_only (Some 3601000))).
Proof.
  split; [reflexivity|]. split; [reflexivity|]. split; [reflexivity|].
  split; [reflexivity|]. split; [reflexivity|].
  apply (same_decision_from_either_store Demo.cfg (Demo.env_at 2000)
           (Demo.request "POST" "0b9f6a3e-5d1c-4e7a-9c2b-7f3a1d8e4c56" 12000) "0b9f6a3e-5d1c-4e7a-9c2b-7f3a1d8e4c56"
           (Demo.stored_record (Some 3601000))
           (Demo.cached (Some 3601000) 3601000)
           (with_events (Demo.cached (Some 3601000) 3601000)
              [RedisGet "idempotency:0b9f6a3e-5d1c-4e7a-9c2b-7f3a1d8e4c56"])
           (Demo.durable_only (Some 3601000))
           (with_events (Demo.durable_only (Some 3601000))
              [RedisGet "idempotency:0b9f6a3e-5d1c-4e7a-9c2b-7f3a1d8e4c56"])
           (with_events (Demo.durable_only (Some 3601000))
              [RedisGet "idempotency:0b9f6a3e-5d1c-4e7a-9c2b-7f3a1d8e4c56";
               DbFindOne "0b9f6a3e-5d1c-4e7a-9c2b-7f3a1d8e4c56" Demo.hash12000])); reflexivity.
Defined.

Lemma cached_conflict_detected_witness :
  method_ok (Demo.request "POST" "0b9f6a3e-5d1c-4e7a-9c2b-7f3a1d8e4c56" 15000) = true /\
  header_key (headers (Demo.request "POST" "0b9f6a3e-5d1c-4e7a-9c2b-7f3a1d8e4c56" 15000)
                !! idempotencyKeyHeaderName Demo.cfg) = Some "0b9f6a3e-5d1c-4e7a-9c2b-7f3a1d8e4c56" /\
  RedisUtil.get (Demo.env_at 2000) (redisKey Demo.cfg "0b9f6a3e-5d1c-4e7a-9c2b-7f3a1d8e4c56")
    (Demo.cached (Some 500) 3601000)
  = (Ok (Some (Demo.stored_record (Some 500))),
     with_events (Demo.cached (Some 500) 3601000)
       [RedisGet "idempotency:0b9f6a3e-5d1c-4e7a-9c2b-7f3a1d8e4c56"]) /\
  bodyHash (Demo.stored_record (Some 500))
    <> requestBodyHash_of (Demo.request "POST" "0b9f6a3e-5d1c-4e7a-9c2b-7f3a1d8e4c56" 15000) /\
  idempotencyMiddleware Demo.cfg (Demo.env_at 2000)
    (Demo.request "POST" "0b9f6a3e-5d1c-4e7a-9c2b-7f3a1d8e4c56" 15000) (Demo.cached (Some 500) 3601000)
  = (Throw conflict_error,
     with_events (Demo.cached (Some 500) 3601000)
       [RedisGet "idempotency:0b9f6a3e-5d1c-4e7a-9c2b-7f3a1d8e4c56"]).
Proof.
  split; [reflexivity|]. split; [reflexivity|]. split; [reflexivity|].
  split; [vm_compute; discriminate|].
  apply (cached_conflict_detected Demo.cfg (Demo.env_at 2000)
           (Demo.request "POST" "0b9f6a3e-5d1c-4e7a-9c2b-7f3a1d8e4c56" 15000) "0b9f6a3e-5d1c-4e7a-9c2b-7f3a1d8e4c56"
           (Demo.stored_record (Some 500)) (Demo.cached (Some 500) 3601000));
    try reflexivity.
  vm_compute; discriminate.
Defined.

Lemma unreadable_payload_fails_witness :
  method_ok (Demo.request "POST" "0b9f6a3e-5d1c-4e7a-9c2b-7f3a1d8e4c56" 12000) = true /\
  header_key (headers (Demo.request "POST" "0b9f6a3e-5d1c-4e7a-9c2b-7f3a1d8e4c56" 12000)
                !! idempotencyKeyHeaderName Demo.cfg) = Some "0b9f6a3e-5d1c-4e7a-9c2b-7f3a1d8e4c56" /\
  bodyHash Cases.broken_record
    = requestBodyHash_of (Demo.request "POST" "0b9f6a3e-5d1c-4e7a-9c2b-7f3a1d8e4c56" 12000) /\
  is_expired Cases.broken_record (now (Demo.env_at 2000)) = false /\
  JSON_parse (responsePayload Cases.broken_record) = None /\
  idempotencyMiddleware Demo.cfg (Demo.env_at 2000)
    (Demo.request "POST" "0b9f6a3e-5d1c-4e7a-9c2b-7f3a1d8e4c56" 12000) Cases.broken_world
  = (Throw lookup_error,
     with_events Cases.broken_world
       [RedisGet "idempotency:0b9f6a3e-5d1c-4e7a-9c2b-7f3a1d8e4c56";
        DbFindOne "0b9f6a3e-5d1c-4e7a-9c2b-7f3a1d8e4c56" Demo.hash12000]).
Proof.
  split; [reflexivity|]. split; [reflexivity|]. split; [reflexivity|].
  split; [reflexivity|]. split; [reflexivity|].
  apply (unreadable_payload_fails Demo.cfg (Demo.env_at 2000)
           (Demo.request "POST" "0b9f6a3e-5d1c-4e7a-9c2b-7f3a1d8e4c56" 12000) "0b9f6a3e-5d1c-4e7a-9c2b-7f3a1d8e4c56"
           Cases.broken_record Cases.broken_world
           (with_events Cases.broken_world [RedisGet "idempotency:0b9f6a3e-5d1c-4e7a-9c2b-7f3a1d8e4c56"]));
    try reflexivity.
  right. split; reflexivity.
Defined.


Lemma createTransaction_throws_AppError_witness :
  createTransaction Demo.cfg (Cases.env_rollback_fails 1000) "0b9f6a3e-5d1c-4e7a-9c2b-7f3a1d8e4c56"
    Demo.hash12000 (Demo.payment_request 12000) Demo.empty_world
  = (Throw (ESequelizeDatabase "connection lost"), Cases.after_failed_rollback) /\
  ((exists a, ESequelizeDatabase "connection lost" = EApp a /\
              In (kind a) [BadRequest; InternalServerError; Plain]) \/
   (exists g, begin_fault (Cases.env_rollback_fails 1000) = Some g /\
              ESequelizeDatabase "connection lost" = exn_of_DbFault g /\
              Cases.after_failed_rollback = with_events Demo.empty_world [DbBegin]) \/
   (exists g, begin_fault (Cases.env_rollback_fails 1000) = None /\
              rollback_fault (Cases.env_rollback_fails 1000) = Some g /\
              ESequelizeDatabase "connection lost" = exn_of_DbFault g)).
Proof.
  split; [vm_compute; reflexivity|].
  apply (createTransaction_throws_AppError Demo.cfg (Cases.env_rollback_fails 1000)
           "0b9f6a3e-5d1c-4e7a-9c2b-7f3a1d8e4c56" Demo.hash12000 (Demo.payment_request 12000)
           Demo.empty_world
           (ESequelizeDatabase "connection lost")
           Cases.after_failed_rollback).
  vm_compute; reflexivity.
Defined.




Lemma postTransaction_writes_only_on_201_witness :
  postTransaction Demo.cfg (Demo.env_at 1000)
    (Demo.request "POST" "0b9f6a3e-5d1c-4e7a-9c2b-7f3a1d8e4c56" 12000) Demo.empty_world
  = (Ok Demo.first_response, Demo.after_first) /\
  ((res_status Demo.first_response = 200 /\
    db Demo.after_first = db Demo.empty_world /\
    redis Demo.after_first = redis Demo.empty_world) \/
   (res_status Demo.first_response = 201 /\
    exists row record,
      transactions (db Demo.after_first)
      = (transactions (db Demo.empty_world) ++ [row])%list /\
      idempotency_meta (db Demo.after_first)
      = (idempotency_meta (db Demo.empty_world) ++ [record])%list)).
Proof.
  split; [vm_compute; reflexivity|].
  apply (postTransaction_writes_only_on_201 Demo.cfg (Demo.env_at 1000)
           (Demo.request "POST" "0b9f6a3e-5d1c-4e7a-9c2b-7f3a1d8e4c56" 12000) Demo.empty_world
           (Ok Demo.first_response) Demo.after_first).
  vm_compute; reflexivity.
Defined.

Lemma refused_body_persists_nothing_witness :
  postTransaction Demo.cfg (Demo.env_at 1000)
    (Cases.bad_request "0b9f6a3e-5d1c-4e7a-9c2b-7f3a1d8e4c56") Demo.empty_world
  = (Throw EOther,
     with_events Demo.empty_world
       [RedisGet "idempotency:0b9f6a3e-5d1c-4e7a-9c2b-7f3a1d8e4c56";
        DbFindOne "0b9f6a3e-5d1c-4e7a-9c2b-7f3a1d8e4c56"
          (requestBodyHash_of (Cases.bad_request "0b9f6a3e-5d1c-4e7a-9c2b-7f3a1d8e4c56"))]) /\
  safeParse_body (body (Cases.bad_request "0b9f6a3e-5d1c-4e7a-9c2b-7f3a1d8e4c56")) = None /\
  (db (with_events Demo.empty_world
         [RedisGet "idempotency:0b9f6a3e-5d1c-4e7a-9c2b-7f3a1d8e4c56";
          DbFindOne "0b9f6a3e-5d1c-4e7a-9c2b-7f3a1d8e4c56"
            (requestBodyHash_of (Cases.bad_request "0b9f6a3e-5d1c-4e7a-9c2b-7f3a1d8e4c56"))])
   = db Demo.empty_world /\
   redis (with_events Demo.empty_world
         [RedisGet "idempotency:0b9f6a3e-5d1c-4e7a-9c2b-7f3a1d8e4c56";
          DbFindOne "0b9f6a3e-5d1c-4e7a-9c2b-7f3a1d8e4c56"
            (requestBodyHash_of (Cases.bad_request "0b9f6a3e-5d1c-4e7a-9c2b-7f3a1d8e4c56"))])
   = redis Demo.empty_world /\
   (forall resp, Throw EOther = Ok resp -> res_status resp = 200)).
Proof.
  split; [vm_compute; reflexivity|]. split; [vm_compute; reflexivity|].
  apply (refused_body_persists_nothing Demo.cfg (Demo.env_at 1000)
           (Cases.bad_request "0b9f6a3e-5d1c-4e7a-9c2b-7f3a1d8e4c56") Demo.empty_world).
  - vm_compute; reflexivity.
  - vm_compute; reflexivity.
Defined.

Lemma service_schema_check_unreachable_witness :
  TransactionController_createTransaction Demo.cfg (Demo.env_record_fails 1000)
    Cases.admitted_request Demo.empty_world
  = (Throw (EApp (mkAppError InternalServerError "Database error")),
     Demo.logged Demo.empty_world
       [DbBegin; DbInsertTransaction Demo.generated_id;
        DbInsertMeta "0b9f6a3e-5d1c-4e7a-9c2b-7f3a1d8e4c56"; DbRollback]) /\
  message (mkAppError InternalServerError "Database error")
    <> "Invalid transaction request".
Proof.
  split; [vm_compute; reflexivity|].
  apply (service_schema_check_unreachable Demo.cfg (Demo.env_record_fails 1000)
           Cases.admitted_request Demo.empty_world
           (mkAppError InternalServerError "Database error")
           (Demo.logged Demo.empty_world
              [DbBegin; DbInsertTransaction Demo.generated_id;
               DbInsertMeta "0b9f6a3e-5d1c-4e7a-9c2b-7f3a1d8e4c56"; DbRollback])).
  vm_compute; reflexivity.
Defined.

Lemma conflict_while_cached_witness :
  postTransaction Demo.cfg (Demo.env_at 1000)
    (Demo.request "POST" "0b9f6a3e-5d1c-4e7a-9c2b-7f3a1d8e4c56" 12000) Demo.empty_world
  = (Ok Demo.first_response, Demo.after_first) /\
  res_status Demo.first_response = 201 /\
  method_ok (Demo.request "POST" "0b9f6a3e-5d1c-4e7a-9c2b-7f3a1d8e4c56" 15000) = true /\
  headers (Demo.request "POST" "0b9f6a3e-5d1c-4e7a-9c2b-7f3a1d8e4c56" 15000)
    !! idempotencyKeyHeaderName Demo.cfg
  = headers (Demo.request "POST" "0b9f6a3e-5d1c-4e7a-9c2b-7f3a1d8e4c56" 12000)
      !! idempotencyKeyHeaderName Demo.cfg /\
  requestBodyHash_of (Demo.request "POST" "0b9f6a3e-5d1c-4e7a-9c2b-7f3a1d8e4c56" 15000)
    <> requestBodyHash_of (Demo.request "POST" "0b9f6a3e-5d1c-4e7a-9c2b-7f3a1d8e4c56" 12000) /\
  redis_get_fault (Demo.env_at 2000) = None /\
  now (Demo.env_at 2000) < expiry_instant Demo.cfg (Demo.env_at 1000) /\
  exists w2,
    postTransaction Demo.cfg (Demo.env_at 2000)
      (Demo.request "POST" "0b9f6a3e-5d1c-4e7a-9c2b-7f3a1d8e4c56" 15000) Demo.after_first
    = (Throw conflict_error, w2) /\
    db w2 = db Demo.after_first /\ redis w2 = redis Demo.after_first.
Proof.
  split; [vm_compute; reflexivity|]. split; [reflexivity|]. split; [reflexivity|].
  split; [reflexivity|]. split; [vm_compute; discriminate|].
  split; [reflexivity|]. split; [reflexivity|].
  apply (conflict_while_cached Demo.cfg (Demo.env_at 1000) (Demo.env_at 2000)
           (Demo.request "POST" "0b9f6a3e-5d1c-4e7a-9c2b-7f3a1d8e4c56" 12000)
           (Demo.request "POST" "0b9f6a3e-5d1c-4e7a-9c2b-7f3a1d8e4c56" 15000)
           Demo.empty_world Demo.first_response Demo.after_first);
    first [reflexivity | vm_compute; reflexivity | vm_compute; discriminate].
Defined.

Lemma expired_after_creation_witness :
  postTransaction Demo.cfg (Demo.env_at 1000)
    (Demo.request "POST" "0b9f6a3e-5d1c-4e7a-9c2b-7f3a1d8e4c56" 12000) Demo.empty_world
  = (Ok Demo.first_response, Demo.after_first) /\
  res_status Demo.first_response = 201 /\
  redis_get_fault (Demo.env_at 4000000) = None /\
  findOne_fault (Demo.env_at 4000000) = None /\
  expiry_instant Demo.cfg (Demo.env_at 1000) < now (Demo.env_at 4000000) /\
  exists w2,
    postTransaction Demo.cfg (Demo.env_at 4000000)
      (Demo.request "POST" "0b9f6a3e-5d1c-4e7a-9c2b-7f3a1d8e4c56" 12000) Demo.after_first
    = (Throw expired_error, w2) /\
    db w2 = db Demo.after_first /\ redis w2 = redis Demo.after_first.
Proof.
  split; [vm_compute; reflexivity|]. split; [reflexivity|]. split; [reflexivity|].
  split; [reflexivity|]. split; [reflexivity|].
  apply (expired_after_creation Demo.cfg (Demo.env_at 1000) (Demo.env_at 4000000)
           (Demo.request "POST" "0b9f6a3e-5d1c-4e7a-9c2b-7f3a1d8e4c56" 12000)
           Demo.empty_world Demo.first_response Demo.after_first);
    first [reflexivity | vm_compute; reflexivity | vm_compute; discriminate].
Defined.



Lemma replay_of_rolled_back_transaction_witness :
  method_ok (Demo.request "POST" "0b9f6a3e-5d1c-4e7a-9c2b-7f3a1d8e4c56" 12000) = true /\
  header_key (headers (Demo.request "POST" "0b9f6a3e-5d1c-4e7a-9c2b-7f3a1d8e4c56" 12000)
                !! idempotencyKeyHeaderName Demo.cfg) = Some "0b9f6a3e-5d1c-4e7a-9c2b-7f3a1d8e4c56" /\
  createTransaction Demo.cfg (Cases.env_commit_fails 1000) "0b9f6a3e-5d1c-4e7a-9c2b-7f3a1d8e4c56"
    (requestBodyHash_of (Demo.request "POST" "0b9f6a3e-5d1c-4e7a-9c2b-7f3a1d8e4c56" 12000))
    (Demo.payment_request 12000) Demo.empty_world
  = (Throw (EApp (mkAppError InternalServerError "Database error")),
     Cases.after_failed_commit) /\
  safeParse (Demo.payment_request 12000) = Some (Demo.payment_request 12000) /\
  begin_fault (Cases.env_commit_fails 1000) = None /\
  transaction_create_fault (Cases.env_commit_fails 1000) = None /\
  meta_create_fault (Cases.env_commit_fails 1000) = None /\
  Uuid.valid "0b9f6a3e-5d1c-4e7a-9c2b-7f3a1d8e4c56" = true /\
  IdempotencyMetaModel.key_taken "0b9f6a3e-5d1c-4e7a-9c2b-7f3a1d8e4c56" (db Demo.empty_world) = false /\
  redis_set_fault (Cases.env_commit_fails 1000) = None /\
  commit_fault (Cases.env_commit_fails 1000) = Some (DbDatabase "connection lost") /\
  redis_get_fault (Demo.env_at 2000) = None /\
  now (Demo.env_at 2000) < expiry_instant Demo.cfg (Cases.env_commit_fails 1000) /\
  JSON_parse (JSON_stringify (toJSON (response_of
                (new_row (Cases.env_commit_fails 1000) (Demo.payment_request 12000)))))
  = Some (toJSON (response_of
                (new_row (Cases.env_commit_fails 1000) (Demo.payment_request 12000)))) /\
  ((exists e, Throw (A := TransactionResponse)
                (EApp (mkAppError InternalServerError "Database error")) = Throw e) /\
   db Cases.after_failed_commit = db Demo.empty_world /\
   exists w2,
     postTransaction Demo.cfg (Demo.env_at 2000)
       (Demo.request "POST" "0b9f6a3e-5d1c-4e7a-9c2b-7f3a1d8e4c56" 12000) Cases.after_failed_commit
     = (Ok (mkHttpResponse 200 "Transaction already processed"
              (toJSON (response_of
                 (new_row (Cases.env_commit_fails 1000)
                          (Demo.payment_request 12000))))), w2)).
Proof.
  split; [reflexivity|]. split; [reflexivity|]. split; [vm_compute; reflexivity|].
  split; [vm_compute; reflexivity|]. split; [reflexivity|]. split; [reflexivity|].
  split; [reflexivity|]. split; [reflexivity|]. split; [reflexivity|].
  split; [reflexivity|]. split; [reflexivity|].
  split; [reflexivity|]. split; [reflexivity|]. split; [vm_compute; reflexivity|].
  apply (replay_of_rolled_back_transaction Demo.cfg (Cases.env_commit_fails 1000)
           (Demo.env_at 2000) (Demo.request "POST" "0b9f6a3e-5d1c-4e7a-9c2b-7f3a1d8e4c56" 12000)
           "0b9f6a3e-5d1c-4e7a-9c2b-7f3a1d8e4c56" (Demo.payment_request 12000)
           (DbDatabase "connection lost") Demo.empty_world);
    first [reflexivity | vm_compute; reflexivity | vm_compute; discriminate].
Defined.

Lemma key_not_uuid_refused_witness :
  postTransaction Demo.cfg (Demo.env_at 1000)
    (Demo.request "POST" "unique-key-123" 12000) Demo.empty_world
  = (Throw lookup_error,
     with_events Demo.empty_world
       [RedisGet "idempotency:unique-key-123";
        DbFindOne "unique-key-123"
          (requestBodyHash_of (Demo.request "POST" "unique-key-123" 12000))]) /\
  method_ok (Demo.request "POST" "unique-key-123" 12000) = true /\
  header_key (headers (Demo.request "POST" "unique-key-123" 12000)
                !! idempotencyKeyHeaderName Demo.cfg) = Some "unique-key-123" /\
  Uuid.valid "unique-key-123" = false /\
  redis_get_fault (Demo.env_at 1000) = None /\
  cache_live (Demo.env_at 1000) Demo.empty_world
    (redisKey Demo.cfg "unique-key-123") = false /\
  (Throw (A := HttpResponse) lookup_error = Throw lookup_error /\
   with_events Demo.empty_world
     [RedisGet "idempotency:unique-key-123";
      DbFindOne "unique-key-123"
        (requestBodyHash_of (Demo.request "POST" "unique-key-123" 12000))]
   = with_events Demo.empty_world
       [RedisGet (redisKey Demo.cfg "unique-key-123");
        DbFindOne "unique-key-123"
          (requestBodyHash_of (Demo.request "POST" "unique-key-123" 12000))]).
Proof.
  split; [vm_compute; reflexivity|]. split; [reflexivity|].
  split; [reflexivity|]. split; [reflexivity|]. split; [reflexivity|].
  split; [reflexivity|].
  apply (key_not_uuid_refused Demo.cfg (Demo.env_at 1000)
           (Demo.request "POST" "unique-key-123" 12000) "unique-key-123"
           Demo.empty_world);
    first [reflexivity | vm_compute; reflexivity].
Defined.

Lemma redis_set_then_get_witness :
  RedisUtil.set (Demo.env_at 1000) "idempotency:0b9f6a3e-5d1c-4e7a-9c2b-7f3a1d8e4c56"
    (Demo.stored_record (Some 3601000)) 3600 Demo.empty_world
  = (Ok tt,
     snd (RedisUtil.set (Demo.env_at 1000) "idempotency:0b9f6a3e-5d1c-4e7a-9c2b-7f3a1d8e4c56"
            (Demo.stored_record (Some 3601000)) 3600 Demo.empty_world)) /\
  redis_get_fault (Demo.env_at 2000) = None /\
  (fst (RedisUtil.get (Demo.env_at 2000) "idempotency:0b9f6a3e-5d1c-4e7a-9c2b-7f3a1d8e4c56"
          (snd (RedisUtil.set (Demo.env_at 1000) "idempotency:0b9f6a3e-5d1c-4e7a-9c2b-7f3a1d8e4c56"
                  (Demo.stored_record (Some 3601000)) 3600 Demo.empty_world)))
   = Ok (if now (Demo.env_at 2000) <? now (Demo.env_at 1000) + 3600 * 1000
         then Some (Demo.stored_record (Some 3601000)) else None) /\
   forall rk', rk' <> "idempotency:0b9f6a3e-5d1c-4e7a-9c2b-7f3a1d8e4c56" ->
     fst (RedisUtil.get (Demo.env_at 2000) rk'
            (snd (RedisUtil.set (Demo.env_at 1000) "idempotency:0b9f6a3e-5d1c-4e7a-9c2b-7f3a1d8e4c56"
                    (Demo.stored_record (Some 3601000)) 3600 Demo.empty_world)))
     = fst (RedisUtil.get (Demo.env_at 2000) rk' Demo.empty_world)).
Proof.
  split; [reflexivity|]. split; [reflexivity|].
  apply (redis_set_then_get (Demo.env_at 1000) (Demo.env_at 2000)
           "idempotency:0b9f6a3e-5d1c-4e7a-9c2b-7f3a1d8e4c56" (Demo.stored_record (Some 3601000)) 3600
           Demo.empty_world); reflexivity.
Defined.

Lemma redis_del_behaviour_witness :
  RedisUtil_del (Demo.env_at 2000) false "idempotency:0b9f6a3e-5d1c-4e7a-9c2b-7f3a1d8e4c56"
    Demo.after_first
  = (Ok tt,
     snd (RedisUtil_del (Demo.env_at 2000) false "idempotency:0b9f6a3e-5d1c-4e7a-9c2b-7f3a1d8e4c56"
            Demo.after_first)) /\
  redis_get_fault (Demo.env_at 2000) = None /\
  match fst (RedisUtil.get (Demo.env_at 2000) "idempotency:0b9f6a3e-5d1c-4e7a-9c2b-7f3a1d8e4c56"
               Demo.after_first) with
  | Ok (Some _) =>
      Ok tt = Ok tt /\
      fst (RedisUtil.get (Demo.env_at 2000) "idempotency:0b9f6a3e-5d1c-4e7a-9c2b-7f3a1d8e4c56"
             (snd (RedisUtil_del (Demo.env_at 2000) false
                     "idempotency:0b9f6a3e-5d1c-4e7a-9c2b-7f3a1d8e4c56" Demo.after_first)))
      = Ok None /\
      fst (RedisUtil_del (Demo.env_at 2000) false "idempotency:0b9f6a3e-5d1c-4e7a-9c2b-7f3a1d8e4c56"
             (snd (RedisUtil_del (Demo.env_at 2000) false
                     "idempotency:0b9f6a3e-5d1c-4e7a-9c2b-7f3a1d8e4c56" Demo.after_first)))
      = Throw (EApp (mkAppError Plain "Cache key not found"))
  | _ =>
      Ok tt = Throw (EApp (mkAppError Plain "Cache key not found")) /\
      snd (RedisUtil_del (Demo.env_at 2000) false "idempotency:0b9f6a3e-5d1c-4e7a-9c2b-7f3a1d8e4c56"
             Demo.after_first) = Demo.after_first
  end.
Proof.
  split; [reflexivity|]. split; [reflexivity|].
  apply (redis_del_behaviour (Demo.env_at 2000) "idempotency:0b9f6a3e-5d1c-4e7a-9c2b-7f3a1d8e4c56"
           Demo.after_first (Ok tt)); reflexivity.
Defined.

End Scenario.
